(** * Badge lifecycle service (identityService.ts): model and properties

    A shallow embedding of [src/backend/src/services/identityService.ts]:
    the hex validator, the badge asset-name codec, the datum and redeemer
    encoders and the [mintBadge] entry point, the latter as a function into
    a writer/exception monad whose trace records every call made to a
    collaborator (logger, contract bundle, ledger client).

    Conventions.
    - A JavaScript string is a [string]: a sequence of code units, here the
      code units below 256.
    - A JavaScript [number] holding an integer is a [Z]; [level] and
      [expectedLengthBytes] are such integers. Every integer is a number,
      with exact arithmetic and with its decimal digits as its rendering,
      up to [Number.MAX_SAFE_INTEGER] in magnitude; a property that states
      the rendering of a number takes [Js.isSafeInteger] as its condition
      unless the code has already bounded the number.
    - A thrown [Error] is a [JsError] carrying its message.
    - A JavaScript object used as a map from asset unit to quantity is a
      [gmap string Z]. *)

From Stdlib Require Import ZArith Ascii String List DecimalString HexadecimalString.
From Stdlib Require Import DecimalZ DecimalPos.
From stdpp Require Import gmap strings list fin_maps.

Open Scope Z_scope.

(** ** Results of fallible code *)

Record JsError := Error { message : string }.

Inductive result (A : Type) :=
| Ok (a : A)
| Throw (e : JsError).
Arguments Ok {A} a.
Arguments Throw {A} e.

Definition is_ok {A} (r : result A) : bool :=
  match r with Ok _ => true | Throw _ => false end.

(** ** JavaScript string primitives *)

Module Js.

(** [Number.MAX_SAFE_INTEGER] and [Number.isSafeInteger], on integers. *)
Definition MAX_SAFE_INTEGER : Z := 2 ^ 53 - 1.

Definition isSafeInteger (z : Z) : bool :=
  (- MAX_SAFE_INTEGER <=? z) && (z <=? MAX_SAFE_INTEGER).

(** Template-literal rendering of a safe integer: its decimal digits.
    (Beyond the safe integers a number is rendered from its shortest
    round-trip digits, in exponent form from 1e21 on; no property below
    states a rendering there.) *)
Definition showNumber (z : Z) : string :=
  DecimalString.NilZero.string_of_int (Z.to_int z).

(** [n.toString(16)] for an integral number. *)
Definition toString16 (z : Z) : string :=
  HexadecimalString.NilZero.string_of_int (Z.to_hex_int z).

(** White space and line terminators of [String.prototype.trim]. *)
Definition isWhiteSpace (c : ascii) : bool :=
  let n := N_of_ascii c in
  ((9 <=? n) && (n <=? 13) || (n =? 32) || (n =? 160))%N.

(** [toLowerCase] on one code unit: A-Z, and the upper-case letters of
    the Latin-1 block (all of 0xC0-0xDE but the multiplication sign). *)
Definition lowerChar (c : ascii) : ascii :=
  let n := N_of_ascii c in
  if ((65 <=? n) && (n <=? 90)
      || (192 <=? n) && (n <=? 222) && negb (n =? 215))%N
  then ascii_of_N (n + 32) else c.

Fixpoint toLowerCase (s : string) : string :=
  match s with
  | EmptyString => EmptyString
  | String c r => String (lowerChar c) (toLowerCase r)
  end.

Fixpoint trimStart (s : string) : string :=
  match s with
  | EmptyString => EmptyString
  | String c r => if isWhiteSpace c then trimStart r else s
  end.

Fixpoint trimEnd (s : string) : string :=
  match s with
  | EmptyString => EmptyString
  | String c r =>
      match trimEnd r with
      | EmptyString => if isWhiteSpace c then EmptyString else String c EmptyString
      | r' => String c r'
      end
  end.

Definition trim (s : string) : string := trimEnd (trimStart s).

(** The filler of [padStart]: [k] code units, cycling through [fill]. *)
Fixpoint filler (k : nat) (fill rest : string) : string :=
  match k with
  | O => EmptyString
  | S k' =>
      match rest with
      | String c r => String c (filler k' fill r)
      | EmptyString =>
          match fill with
          | String c r => String c (filler k' fill r)
          | EmptyString => EmptyString
          end
      end
  end.

Definition padStart (s : string) (target : nat) (fill : string) : string :=
  if (target <=? String.length s)%nat then s
  else filler (target - String.length s) fill fill +:+ s.

(** [haystack.includes(needle)]. *)
Fixpoint includes (haystack needle : string) : bool :=
  String.prefix needle haystack
  || match haystack with
     | EmptyString => false
     | String _ r => includes r needle
     end.

End Js.

(** ** Buffers: [Buffer.from(bytes).toString("hex")] and [Buffer.from(s, "hex")] *)

Module Buffer.

Definition hexDigit (n : N) : ascii :=
  match n with
  | 0 => "0" | 1 => "1" | 2 => "2" | 3 => "3" | 4 => "4" | 5 => "5"
  | 6 => "6" | 7 => "7" | 8 => "8" | 9 => "9" | 10 => "a" | 11 => "b"
  | 12 => "c" | 13 => "d" | 14 => "e" | _ => "f"
  end%N%char.

Definition hexVal (c : ascii) : option N :=
  let n := N_of_ascii c in
  if ((48 <=? n) && (n <=? 57))%N then Some (n - 48)%N
  else if ((97 <=? n) && (n <=? 102))%N then Some (n - 87)%N
  else if ((65 <=? n) && (n <=? 70))%N then Some (n - 55)%N
  else None.

Fixpoint toHex (bs : list Byte.byte) : string :=
  match bs with
  | [] => EmptyString
  | b :: r =>
      let n := Byte.to_N b in
      String (hexDigit (n / 16)) (String (hexDigit (n mod 16)) (toHex r))
  end.

(** Decoding stops at the first pair that is not two hex digits. *)
Fixpoint fromHex (s : string) : list Byte.byte :=
  match s with
  | String a (String b r) =>
      match hexVal a, hexVal b with
      | Some x, Some y =>
          match Byte.of_N (16 * x + y) with
          | Some byte => byte :: fromHex r
          | None => []
          end
      | _, _ => []
      end
  | _ => []
  end.

End Buffer.

(** ** Identifier codec (lines 77-99 and 162-173) *)

(** [s.replace(/^0x/i, ...)] with the empty replacement. *)
Definition strip0x (s : string) : string :=
  match s with
  | String z (String x r) =>
      if (Ascii.eqb z "0" && (Ascii.eqb x "x" || Ascii.eqb x "X"))%char then r else s
  | _ => s
  end.

Definition normalizeHex (input : string) : string :=
  Js.toLowerCase (strip0x (Js.trim input)).

Definition isHexChar (c : ascii) : bool :=
  let n := N_of_ascii c in
  ((48 <=? n) && (n <=? 57) || (97 <=? n) && (n <=? 102)
   || (65 <=? n) && (n <=? 70))%N.

Fixpoint allHex (s : string) : bool :=
  match s with
  | EmptyString => true
  | String c r => isHexChar c && allHex r
  end.

(** [/^[0-9a-f]+$/i]: one hex digit or more, and nothing else. *)
Definition isHex (input : string) : bool :=
  match input with
  | EmptyString => false
  | _ => allHex input
  end.

Definition requireHexBytes (input : string) (expectedLengthBytes : Z) (name : string)
  : result string :=
  let cleaned := normalizeHex input in
  if negb (isHex cleaned)
     || negb (Z.of_nat (String.length cleaned) =? expectedLengthBytes * 2)
  then
    Throw (Error (name +:+ " must be " +:+ Js.showNumber expectedLengthBytes
                  +:+ " bytes hex (length "
                  +:+ Js.showNumber (expectedLengthBytes * 2)
                  +:+ "), got '" +:+ input +:+ "'"))
  else Ok cleaned.

(** [Number.isInteger(level)] holds of every [level : Z]; the two range
    tests are the ones left. *)
Definition makeBadgeAssetName (ownerVkhHex : string) (level : Z) : result string :=
  match requireHexBytes ownerVkhHex 28 "ownerVkhHex" with
  | Throw e => Throw e
  | Ok cleaned =>
      if (level <? 0) || (level >? 255)
      then Throw (Error ("level must fit in 1 byte (0..255), got '"
                         +:+ Js.showNumber level +:+ "'"))
      else
        let levelHex := Js.padStart (Js.toString16 level) 2 "0" in
        Ok ("59" +:+ levelHex +:+ cleaned)
  end.

(** ** Plutus data and the encoders (lines 175-228)

    [Data.to] is the ledger library's serialiser; it is a parameter of the
    encoders. [Constr] fields are byte strings in hex, integers, or nested
    constructors. *)

#[warnings="-register-all"]
Inductive Data :=
| DBytes (hex : string)
| DInt (i : Z)
| DConstr (index : Z) (fields : list Data).

Record RedeemerArgs := {
  arg_level : option Z;
  arg_fromLevel : option Z;
  arg_toLevel : option Z;
}.

Section Encoders.

Variable Data_to : Data -> result string.

Definition encodeBadgeDatum (ownerKeyHashHex : string) (level : Z) (policyId : string)
  : result string :=
  Data_to (DConstr 0 [DBytes ownerKeyHashHex; DInt level; DBytes policyId]).

Definition encodeBadgeMintRedeemer
  (action : string) (ownerKeyHashHex : string) (args : RedeemerArgs) : result string :=
  if String.eqb action "Init" then
    match arg_level args with
    | None => Throw (Error "Missing level for Init redeemer")
    | Some level => Data_to (DConstr 0 [DBytes ownerKeyHashHex; DInt level])
    end
  else if String.eqb action "Upgrade" then
    match arg_fromLevel args, arg_toLevel args with
    | Some fromLevel, Some toLevel =>
        Data_to (DConstr 1 [DBytes ownerKeyHashHex; DInt fromLevel; DInt toLevel])
    | _, _ => Throw (Error "Missing fromLevel/toLevel for Upgrade redeemer")
    end
  else
    match arg_level args with
    | None => Throw (Error "Missing level for Retire redeemer")
    | Some level => Data_to (DConstr 2 [DBytes ownerKeyHashHex; DInt level])
    end.

Definition encodeBadgeHolderRedeemer (action : string) (newLevel : option Z)
  : result string :=
  if String.eqb action "Upgrade" then
    match newLevel with
    | None => Throw (Error "Missing newLevel for badge-holder Upgrade")
    | Some l => Data_to (DConstr 0 [DInt l])
    end
  else Data_to (DConstr 1 []).

End Encoders.

(** ** The world of [mintBadge]

    Everything [mintBadge] obtains from outside the module: the process
    configuration, the key library, the contract bundle on disk, the ledger
    library's pure helpers and the ledger client. A fallible collaborator
    answers with a [result]. *)

Record KeyHashObj := {
  to_hex : option string;
  to_bytes : option (list Byte.byte);
}.

Record Preamble := { plutusVersion : option string }.

Record Validator := {
  title : option string;
  compiledCode : option string;
}.

Record Blueprint := {
  preamble : option Preamble;
  validators : option (list Validator);
}.

Record Script := { script_type : string; script : string }.

Record UTxO := { utxo_txHash : string; utxo_outputIndex : Z }.

(** One call of the transaction builder chain. *)
Inductive TxOp :=
| AttachMintingPolicy (policy : Script)
| AttachSpendingValidator (validator : Script)
| AddSignerKey (keyHash : string)
| CollectFrom (utxos : list UTxO) (redeemer : string)
| MintAssets (assets : gmap string Z) (redeemer : string)
| PayToContract (address : string) (inlineDatum : string) (assets : gmap string Z).

Record Env := {
  BLOCKFROST_PROJECT_ID : option string;
  CARDANO_SIGNING_KEY : option string;
  (** [PrivateKey.from_bech32(key).to_public().hash()] on the text of a key *)
  keyHashOf : string -> result KeyHashObj;
  (** what [PrivateKey.from_bech32] throws when it is given [undefined] or
      the empty string, neither of which is bech32 text *)
  keyError : option string -> JsError;
  (** the module-level caches at the start of the call *)
  blueprintPromise : option (result Blueprint);
  lucidPromise : option (result unit);
  (** reading and parsing [cardano-contract/plutus.json] *)
  readBlueprint : result Blueprint;
  (** [Lucid(provider, network)] followed by the wallet selection *)
  connectLucid : result unit;
  mintingPolicyToId : Script -> result string;
  toUnit : string -> string -> result string;
  validatorToAddress : Script -> result string;
  Data_to : Data -> result string;
  (** [Buffer.toString("utf8")] *)
  utf8 : list Byte.byte -> string;
  utxosAtWithUnit : string -> string -> result (list UTxO);
  complete : list TxOp -> result string;
  sign : string -> result string;
  submit : string -> result string;
}.

Inductive LogLevel := Warn | Info | Err.

Inductive LogValue :=
| LStr (s : string)
| LNum (z : Z)
| LErr (e : JsError).

Inductive Event :=
| Log (lvl : LogLevel) (fields : list (string * LogValue)) (msg : string)
| ReadBlueprint
| ConnectLucid
| UtxosAtWithUnit (address unit : string)
| Complete (tx : list TxOp)
| Sign (tx : string)
| Submit (signedTx : string).

(** ** Trace-and-exception monad *)

Definition M (A : Type) : Type := list Event * result A.

Definition ret {A} (a : A) : M A := ([], Ok a).
Definition throw {A} (e : JsError) : M A := ([], Throw e).
Definition lift {A} (r : result A) : M A := ([], r).
Definition call {A} (ev : Event) (r : result A) : M A := ([ev], r).
Definition emit (ev : Event) : M unit := ([ev], Ok tt).

Definition bind {A B} (m : M A) (k : A -> M B) : M B :=
  match m with
  | (t, Throw e) => (t, Throw e)
  | (t, Ok a) => let '(t', r) := k a in (t ++ t', r)
  end.

Definition tryCatch {A} (m : M A) (handler : JsError -> M A) : M A :=
  match m with
  | (t, Throw e) => let '(t', r) := handler e in (t ++ t', r)
  | (t, Ok a) => (t, Ok a)
  end.

Notation "x <- m ;; k" := (bind m (fun x => k))
  (at level 63, m at next level, right associativity).
Notation "m ;;; k" := (bind m (fun _ => k))
  (at level 63, right associativity).

Definition trace {A} (m : M A) : list Event := fst m.
Definition outcome {A} (m : M A) : result A := snd m.

(** [String(error)] for an [Error] object. *)
Definition stringOfError (e : JsError) : string := "Error: " +:+ message e.

(** Truthiness of a string: only the empty string is falsy. *)
Definition truthy (s : string) : bool :=
  match s with EmptyString => false | _ => true end.

(** ** Configuration, contract bundle and ledger client (lines 68-160) *)

Definition configured (v : option string) : bool :=
  match v with Some s => truthy s | None => false end.

Definition assertBlockchainEnv (w : Env) : result unit :=
  if negb (configured (BLOCKFROST_PROJECT_ID w))
  then Throw (Error "BLOCKFROST_PROJECT_ID is not configured")
  else if negb (configured (CARDANO_SIGNING_KEY w))
  then Throw (Error "CARDANO_SIGNING_KEY is not configured")
  else Ok tt.

(** Lines 102-104: the key hash is derived from [env.CARDANO_SIGNING_KEY]. *)
Definition paymentKeyHash (w : Env) : result KeyHashObj :=
  match CARDANO_SIGNING_KEY w with
  | Some key =>
      if truthy key then keyHashOf w key
      else Throw (keyError w (CARDANO_SIGNING_KEY w))
  | None => Throw (keyError w None)
  end.

Definition getBackendPaymentKeyHashHex (w : Env) : result string :=
  match paymentKeyHash w with
  | Throw e => Throw e
  | Ok keyHash =>
      match to_hex keyHash with
      | Some h => Ok (Js.toLowerCase h)
      | None =>
          match to_bytes keyHash with
          | Some bs => Ok (Js.toLowerCase (Buffer.toHex bs))
          | None =>
              Throw (Error "Unable to derive payment key hash from CARDANO_SIGNING_KEY")
          end
      end
  end.

Definition loadBlueprint (w : Env) : M Blueprint :=
  match blueprintPromise w with
  | Some cached => lift cached
  | None => call ReadBlueprint (readBlueprint w)
  end.

Definition getLucid (w : Env) : M unit :=
  match lucidPromise w with
  | Some cached => lift cached
  | None =>
      lift (assertBlockchainEnv w) ;;;
      call ConnectLucid (connectLucid w)
  end.

Definition hasTitle (t : string) (v : Validator) : bool :=
  match title v with Some t' => String.eqb t' t | None => false end.

Definition findScript (blueprint : Blueprint) (t : string) : result Script :=
  let found :=
    match validators blueprint with
    | Some vs => List.find (hasTitle t) vs
    | None => None
    end in
  match found with
  | Some {| compiledCode := Some code |} =>
      if truthy code then Ok {| script_type := "PlutusV3"; script := code |}
      else Throw (Error ("Compiled script not found in cardano-contract/plutus.json: "
                         +:+ t))
  | _ => Throw (Error ("Compiled script not found in cardano-contract/plutus.json: "
                       +:+ t))
  end.

(** ** [mintBadge] (lines 230-431) *)

Record MintResult := {
  res_success : bool;
  res_action : string;
  res_level : Z;
  res_ownerVkhHex : string;
  res_assetNameHex : option string;
  res_assetName : option string;
  res_policyId : string;
  res_unit : option string;
  res_fromUnit : option string;
  res_toUnit : option string;
  res_badgeHolderAddress : string;
  res_txHash : string;
  res_message : string;
}.

(** What lines 260-284 compute before the [try] block. *)
Record Context := {
  badgeMintPolicy : Script;
  badgeHolderValidator : Script;
  policyId : string;
  assetNameHex : string;
  unit_ : string;
  badgeHolderAddress : string;
  badgeDatumCbor : string;
}.

(** Lines 241-256: the client's owner hint is compared and logged, never used. *)
Definition checkOwnerHint (ownerVkhHex : option string) (ownerKeyHashHex : string)
  : M unit :=
  match ownerVkhHex with
  | None => ret tt
  | Some hint =>
      if truthy hint then
        match requireHexBytes hint 28 "ownerVkhHex" with
        | Ok requested =>
            if negb (String.eqb requested ownerKeyHashHex) then
              emit (Log Warn [("requestedOwnerVkhHex", LStr requested);
                              ("ownerKeyHashHex", LStr ownerKeyHashHex)]
                      "Ignoring provided ownerVkhHex; using server signing key")
            else ret tt
        | Throw error =>
            emit (Log Warn [("ownerVkhHex", LStr hint);
                            ("error", LStr (stringOfError error))]
                    "Invalid ownerVkhHex provided; using server signing key")
        end
      else ret tt
  end.

Definition versionText (blueprint : Blueprint) : option string :=
  match preamble blueprint with
  | Some p => plutusVersion p
  | None => None
  end.

(** Lines 260-284. *)
Definition resolveContext (w : Env) (ownerKeyHashHex : string) (level : Z) : M Context :=
  blueprint <- loadBlueprint w ;;
  match versionText blueprint with
  | Some "v3" => ret tt
  | v => throw (Error ("Expected Plutus V3 blueprint at cardano-contract/plutus.json, got "
                       +:+ default "undefined" v))
  end ;;;
  mintPolicy <- lift (findScript blueprint "badge_mint.badge_mint.mint") ;;
  holderValidator <- lift (findScript blueprint "badge_holder.badge_holder.spend") ;;
  getLucid w ;;;
  policy <- lift (mintingPolicyToId w mintPolicy) ;;
  name <- lift (makeBadgeAssetName ownerKeyHashHex level) ;;
  u <- lift (toUnit w policy name) ;;
  address <- lift (validatorToAddress w holderValidator) ;;
  datum <- lift (encodeBadgeDatum (Data_to w) ownerKeyHashHex level policy) ;;
  ret {| badgeMintPolicy := mintPolicy; badgeHolderValidator := holderValidator;
         policyId := policy; assetNameHex := name; unit_ := u;
         badgeHolderAddress := address; badgeDatumCbor := datum |}.

Definition lovelaceAnd (u : string) : gmap string Z :=
  <[u := 1]> {["lovelace" := 2000000]}.

Definition levelOnly (level : Z) : RedeemerArgs :=
  {| arg_level := Some level; arg_fromLevel := None; arg_toLevel := None |}.

Definition fromTo (fromLevel toLevel : Z) : RedeemerArgs :=
  {| arg_level := None; arg_fromLevel := Some fromLevel; arg_toLevel := Some toLevel |}.

(** Lines 287-320. *)
Definition mintInit (w : Env) (c : Context) (owner : string) (level : Z) (action : string)
  : M MintResult :=
  mintRedeemer <- lift (encodeBadgeMintRedeemer (Data_to w) "Init" owner (levelOnly level)) ;;
  let inlineDatum := badgeDatumCbor c in
  let ops :=
    [ AttachMintingPolicy (badgeMintPolicy c);
      AddSignerKey owner;
      MintAssets {[ unit_ c := 1 ]} mintRedeemer;
      PayToContract (badgeHolderAddress c) inlineDatum (lovelaceAnd (unit_ c)) ] in
  tx <- call (Complete ops) (complete w ops) ;;
  signed <- call (Sign tx) (sign w tx) ;;
  txHash <- call (Submit signed) (submit w signed) ;;
  ret {| res_success := true; res_action := action; res_level := level;
         res_ownerVkhHex := owner;
         res_assetNameHex := Some (assetNameHex c);
         res_assetName := Some (utf8 w (Buffer.fromHex (assetNameHex c)));
         res_policyId := policyId c; res_unit := Some (unit_ c);
         res_fromUnit := None; res_toUnit := None;
         res_badgeHolderAddress := badgeHolderAddress c; res_txHash := txHash;
         res_message := "Badge minted and locked at badge-holder script" |}.

(** Lines 322-380. *)
Definition mintUpgrade (w : Env) (c : Context) (owner : string) (level : Z) (action : string)
  : M MintResult :=
  let fromLevel := level - 1 in
  let toLevel := level in
  (if fromLevel <? 0
   then throw (Error "Upgrade requires `level` >= 1 (target new level)")
   else ret tt) ;;;
  fromAssetNameHex <- lift (makeBadgeAssetName owner fromLevel) ;;
  fromUnit <- lift (toUnit w (policyId c) fromAssetNameHex) ;;
  toAssetNameHex <- lift (makeBadgeAssetName owner toLevel) ;;
  toUnitValue <- lift (toUnit w (policyId c) toAssetNameHex) ;;
  scriptUtxos <- call (UtxosAtWithUnit (badgeHolderAddress c) fromUnit)
                      (utxosAtWithUnit w (badgeHolderAddress c) fromUnit) ;;
  match scriptUtxos with
  | [] =>
      throw (Error ("No badge-holder UTxO found for level " +:+ Js.showNumber fromLevel
                    +:+ " at " +:+ badgeHolderAddress c))
  | targetUtxo :: _ =>
      mintRedeemer <- lift (encodeBadgeMintRedeemer (Data_to w) "Upgrade" owner
                              (fromTo fromLevel toLevel)) ;;
      spendRedeemer <- lift (encodeBadgeHolderRedeemer (Data_to w) "Upgrade" (Some toLevel)) ;;
      inlineDatum <- lift (encodeBadgeDatum (Data_to w) owner toLevel (policyId c)) ;;
      let ops :=
        [ AttachMintingPolicy (badgeMintPolicy c);
          AttachSpendingValidator (badgeHolderValidator c);
          AddSignerKey owner;
          CollectFrom [targetUtxo] spendRedeemer;
          MintAssets (<[ toUnitValue := 1 ]> {[ fromUnit := -1 ]}) mintRedeemer;
          PayToContract (badgeHolderAddress c) inlineDatum (lovelaceAnd toUnitValue) ] in
      tx <- call (Complete ops) (complete w ops) ;;
      signed <- call (Sign tx) (sign w tx) ;;
      txHash <- call (Submit signed) (submit w signed) ;;
      ret {| res_success := true; res_action := action; res_level := toLevel;
             res_ownerVkhHex := owner;
             res_assetNameHex := None; res_assetName := None;
             res_policyId := policyId c; res_unit := None;
             res_fromUnit := Some fromUnit; res_toUnit := Some toUnitValue;
             res_badgeHolderAddress := badgeHolderAddress c; res_txHash := txHash;
             res_message := "Badge upgraded" |}
  end.

(** Lines 382-424. *)
Definition mintRetire (w : Env) (c : Context) (owner : string) (level : Z) (action : string)
  : M MintResult :=
  assetNameHexRetire <- lift (makeBadgeAssetName owner level) ;;
  unitRetire <- lift (toUnit w (policyId c) assetNameHexRetire) ;;
  scriptUtxos <- call (UtxosAtWithUnit (badgeHolderAddress c) unitRetire)
                      (utxosAtWithUnit w (badgeHolderAddress c) unitRetire) ;;
  match scriptUtxos with
  | [] =>
      throw (Error ("No badge-holder UTxO found for level " +:+ Js.showNumber level
                    +:+ " at " +:+ badgeHolderAddress c))
  | targetUtxo :: _ =>
      mintRedeemer <- lift (encodeBadgeMintRedeemer (Data_to w) "Retire" owner
                              (levelOnly level)) ;;
      spendRedeemer <- lift (encodeBadgeHolderRedeemer (Data_to w) "Retire" None) ;;
      let ops :=
        [ AttachMintingPolicy (badgeMintPolicy c);
          AttachSpendingValidator (badgeHolderValidator c);
          AddSignerKey owner;
          CollectFrom [targetUtxo] spendRedeemer;
          MintAssets {[ unitRetire := -1 ]} mintRedeemer ] in
      tx <- call (Complete ops) (complete w ops) ;;
      signed <- call (Sign tx) (sign w tx) ;;
      txHash <- call (Submit signed) (submit w signed) ;;
      ret {| res_success := true; res_action := action; res_level := level;
             res_ownerVkhHex := owner;
             res_assetNameHex := None; res_assetName := None;
             res_policyId := policyId c; res_unit := Some unitRetire;
             res_fromUnit := None; res_toUnit := None;
             res_badgeHolderAddress := badgeHolderAddress c; res_txHash := txHash;
             res_message := "Badge retired (burned)" |}
  end.

(** Lines 286-430: the [try] block and its handler. *)
Definition dispatch (w : Env) (c : Context) (owner : string) (level : Z) (action : string)
  : M MintResult :=
  tryCatch
    (if String.eqb action "Init" then mintInit w c owner level action
     else if String.eqb action "Upgrade" then mintUpgrade w c owner level action
     else if String.eqb action "Retire" then mintRetire w c owner level action
     else throw (Error ("Unsupported action: " +:+ action)))
    (fun error =>
       emit (Log Err [("err", LErr error)] "Badge mint failed") ;;;
       throw error).

Definition mintBadge (w : Env) (ownerVkhHex : option string) (level : Z)
  (action : option string) : M MintResult :=
  let action := default "Init" action in
  ownerKeyHashHex <- lift (getBackendPaymentKeyHashHex w) ;;
  checkOwnerHint ownerVkhHex ownerKeyHashHex ;;;
  emit (Log Info [("ownerKeyHashHex", LStr ownerKeyHashHex); ("level", LNum level);
                  ("action", LStr action)] "mintBadge called") ;;;
  c <- resolveContext w ownerKeyHashHex level ;;
  dispatch w c ownerKeyHashHex level action.

(** ** A sample world

    A serialiser with a decoder for Plutus data, and a world with a
    readable [Data_to], concatenation for [toUnit] and a ledger client that
    answers every call. *)

Module Sample.







(** A readable rendering, for the sample ledger. *)
Fixpoint showData (d : Data) : string :=
  match d with
  | DBytes h => "h'" +:+ h +:+ "'"
  | DInt i => Js.showNumber i
  | DConstr ix fs =>
      "Constr(" +:+ Js.showNumber ix +:+ ",["
      +:+ (fix each (l : list Data) : string :=
             match l with
             | [] => EmptyString
             | f :: r => showData f +:+ ";" +:+ each r
             end) fs
      +:+ "])"
  end.

Definition ownerBytes : list Byte.byte :=
  Eval cbv in List.repeat Byte.xa1 14 ++ List.repeat Byte.x0f 14.

Definition ownerHex : string := Eval cbv in Buffer.toHex ownerBytes.

Definition bundle : Blueprint :=
  {| preamble := Some {| plutusVersion := Some "v3" |};
     validators :=
       Some [ {| title := Some "badge_holder.badge_holder.spend";
                 compiledCode := Some "5901aa" |};
              {| title := Some "badge_mint.badge_mint.mint";
                 compiledCode := Some "5902bb" |} ] |}.

Definition policy : string :=
  "c0ffee00c0ffee00c0ffee00c0ffee00c0ffee00c0ffee00c0ffee00".

Definition holder : string := "addr_test1wholder".

Definition locked : UTxO := {| utxo_txHash := "beef"; utxo_outputIndex := 0 |}.

(** The sample world, by what is locked at the holder address and by the
    answers of the builder and of the signer. *)
Definition world (bp : result Blueprint) (utxos : list UTxO)
  (built signed : result string) : Env :=
  {| BLOCKFROST_PROJECT_ID := Some "preprod-project";
     CARDANO_SIGNING_KEY := Some "ed25519_sk1sample";
     keyHashOf := fun _ => Ok {| to_hex := Some ownerHex; to_bytes := None |};
     keyError := fun _ => Error "Invalid secret key";
     blueprintPromise := None;
     lucidPromise := None;
     readBlueprint := bp;
     connectLucid := Ok tt;
     mintingPolicyToId := fun _ => Ok policy;
     toUnit := fun p n => Ok (p +:+ n);
     validatorToAddress := fun _ => Ok holder;
     Data_to := fun d => Ok (showData d);
     utf8 := String.string_of_list_byte;
     utxosAtWithUnit := fun _ _ => Ok utxos;
     complete := fun _ => built;
     sign := fun _ => signed;
     submit := fun _ => Ok "7x-hash" |}.

Definition healthy : Env := world (Ok bundle) [locked] (Ok "tx") (Ok "signed-tx").

(** The builder refuses: the wallet cannot pay. *)
Definition unfunded : Env :=
  world (Ok bundle) [locked] (Throw (Error "insufficient funds")) (Ok "signed-tx").

(** The signer refuses. *)
Definition unsigned : Env :=
  world (Ok bundle) [locked] (Ok "tx") (Throw (Error "signing key rejected")).

End Sample.

(** ** Applicant store (identityService.ts, lines 1-42)

    The module keeps its applicants in one array. The host gives the
    clock, by the number of readings taken so far, and the identifier
    source: [randomUUID] when the runtime has it, and otherwise the
    hexadecimal digits of [Math.random]. Dates are milliseconds since the
    epoch. *)

Module Applicants.

Inductive Status := pending | verified | failed.

Record Payload := {
  payload_fullName : string;
  payload_nin : string;
  payload_bvn : string;
  payload_residentialAddress : string;
  payload_email : string;
  payload_phone : string;
}.

Record Applicant := {
  id : string;
  fullName : string;
  nin : string;
  bvn : string;
  residentialAddress : string;
  email : string;
  phone : string;
  status : Status;
  estimatedCompletion : Z;
  createdAt : Z;
}.

Record Host := {
  now : nat -> Z;
  randomUUID : option (nat -> string);
  randomHex : nat -> string;
}.

Record State := {
  applicants : list Applicant;
  clockReads : nat;
  draws : nat;
}.

(** Line 16: the array starts empty. *)
Definition initial : State := {| applicants := []; clockReads := O; draws := O |}.

Definition generateId (h : Host) (s : State) : string * State :=
  match randomUUID h with
  | Some uuid =>
      (uuid (draws s),
       {| applicants := applicants s; clockReads := clockReads s; draws := S (draws s) |})
  | None =>
      ("applicant-" +:+ Js.showNumber (now h (clockReads s)) +:+ "-"
       +:+ randomHex h (draws s),
       {| applicants := applicants s; clockReads := S (clockReads s);
          draws := S (draws s) |})
  end.

Definition persistApplicant (h : Host) (s : State) (payload : Payload)
  : Applicant * State :=
  let '(newId, s1) := generateId h s in
  let applicant :=
    {| id := newId;
       fullName := payload_fullName payload;
       nin := payload_nin payload;
       bvn := payload_bvn payload;
       residentialAddress := payload_residentialAddress payload;
       email := payload_email payload;
       phone := payload_phone payload;
       status := pending;
       estimatedCompletion := now h (clockReads s1) + 1000 * 60 * 60 * 12;
       createdAt := now h (S (clockReads s1)) |} in
  (applicant,
   {| applicants := applicants s1 ++ [applicant];
      clockReads := S (S (clockReads s1));
      draws := draws s1 |}).

(** One call per payload, in order. *)
Fixpoint persistAll (h : Host) (s : State) (payloads : list Payload) : State :=
  match payloads with
  | [] => s
  | p :: r => persistAll h (snd (persistApplicant h s p)) r
  end.

End Applicants.

(** ** HTTP error handler (errorHandler, scripts/debugTx.mjs lines 59-85)

    The handler reads three properties of the thrown value; any of them
    may be absent or of another type. *)

Module Http.

Inductive JsValue :=
| VString (s : string)
| VUndefined
| VOther (json : string).

Record Thrown := {
  err_name : JsValue;
  err_code : JsValue;
  err_message : JsValue;
}.

Record Response := {
  resp_status : Z;
  resp_message : string;
  resp_cause : JsValue;
}.

(** [v === s] for a string literal [s]. *)
Definition isString (v : JsValue) (s : string) : bool :=
  match v with VString t => String.eqb t s | _ => false end.

Definition isAxiosTimeout (err : Thrown) : bool :=
  isString (err_name err) "AxiosError"
  && (isString (err_code err) "ECONNABORTED"
      || match err_message err with
         | VString m => Js.includes m "timeout"
         | _ => false
         end).

(** The entries written to the log, and the response sent. *)
Definition errorHandler (err : Thrown) : list (Thrown * string) * Response :=
  ([(err, "Unhandled error")],
   if isAxiosTimeout err
   then {| resp_status := 504; resp_message := "Upstream timeout";
           resp_cause := err_message err |}
   else {| resp_status := 500; resp_message := "Unexpected error";
           resp_cause := err_message err |}).

End Http.

(** ** Transaction report script (scripts/debugTx.mjs, lines 1-58) *)

Module DebugTx.

Record TxInfo := {
  block_height : Z;
  block_time : Z;
  confirmations : Z;
}.

Record TxOutput := { address : string }.

Record TxUtxos := {
  inputs : option (list string);
  outputs : option (list TxOutput);
}.

Record WalletUtxo := { tx_hash : string }.

(** The ledger API, by request path. *)
Record Client := {
  getTx : string -> result TxInfo;
  getTxUtxos : string -> result TxUtxos;
  getAddressUtxos : string -> result (list WalletUtxo);
}.

Record Report := {
  rep_walletAddr : string;
  rep_hash : string;
  rep_block_height : Z;
  rep_block_time : Z;
  rep_confirmations : Z;
  rep_inputs : nat;
  rep_outputs : nat;
  rep_outputsToWallet : nat;
  rep_outputAddresses : list string;
  rep_currentUtxos : nat;
  rep_includesThisTx : bool;
}.

Inductive Exit :=
| Usage (stderr : string) (code : Z)
| Failed (e : JsError)
| Printed (r : Report).

(** [[...new Set(xs)]]: the distinct elements, each at its first occurrence. *)
Fixpoint distinct (seen xs : list string) : list string :=
  match xs with
  | [] => []
  | x :: r =>
      if existsb (String.eqb x) seen then distinct seen r
      else x :: distinct (x :: seen) r
  end.

Definition debugTx (argv2 : option string) (walletAddr : string) (client : Client)
  : Exit :=
  match argv2 with
  | None => Usage "Usage: node scripts/debugTx.mjs <txHash>" 1
  | Some tx =>
      if negb (truthy tx) then Usage "Usage: node scripts/debugTx.mjs <txHash>" 1
      else
        match getTx client ("/txs/" +:+ tx) with
        | Throw e => Failed e
        | Ok txInfo =>
            match getTxUtxos client ("/txs/" +:+ tx +:+ "/utxos") with
            | Throw e => Failed e
            | Ok txUtxos =>
                match getAddressUtxos client
                        ("/addresses/" +:+ walletAddr +:+ "/utxos") with
                | Throw e => Failed e
                | Ok walletUtxos =>
                    let outs := default [] (outputs txUtxos) in
                    let outputsToWallet :=
                      List.filter (fun o => String.eqb (address o) walletAddr) outs in
                    let outputAddresses :=
                      firstn 25 (distinct [] (List.map address outs)) in
                    let walletStillHasTx :=
                      existsb (fun u => String.eqb (tx_hash u) tx) walletUtxos in
                    Printed
                      {| rep_walletAddr := walletAddr;
                         rep_hash := tx;
                         rep_block_height := block_height txInfo;
                         rep_block_time := block_time txInfo;
                         rep_confirmations := confirmations txInfo;
                         rep_inputs := List.length (default [] (inputs txUtxos));
                         rep_outputs := List.length outs;
                         rep_outputsToWallet := List.length outputsToWallet;
                         rep_outputAddresses := outputAddresses;
                         rep_currentUtxos := List.length walletUtxos;
                         rep_includesThisTx := walletStillHasTx |}
                end
            end
        end
  end.

End DebugTx.

(** ** Vocabulary of the properties *)

Definition isLowerHexChar (c : ascii) : bool :=
  let n := N_of_ascii c in
  ((48 <=? n) && (n <=? 57) || (97 <=? n) && (n <=? 102))%N.

Fixpoint allLowerHex (s : string) : bool :=
  match s with
  | EmptyString => true
  | String c r => isLowerHexChar c && allLowerHex r
  end.

Fixpoint allWhiteSpace (s : string) : bool :=
  match s with
  | EmptyString => true
  | String c r => Js.isWhiteSpace c && allWhiteSpace r
  end.

Fixpoint noWhiteSpace (s : string) : bool :=
  match s with
  | EmptyString => true
  | String c r => negb (Js.isWhiteSpace c) && noWhiteSpace r
  end.

Definition levelByte (level : Z) : Byte.byte :=
  default Byte.x00 (Byte.of_N (Z.to_N level)).

(** Reading an asset name back: the tag byte, the level and the owner hash. *)
Definition decodeBadgeAssetName (assetName : string)
  : option (Byte.byte * Z * list Byte.byte) :=
  match Buffer.fromHex assetName with
  | tag :: lv :: owner => Some (tag, Z.of_N (Byte.to_N lv), owner)
  | _ => None
  end.

Definition isWarning (ev : Event) : bool :=
  match ev with Log Warn _ _ => true | _ => false end.

Definition isQuery (ev : Event) : bool :=
  match ev with UtxosAtWithUnit _ _ => true | _ => false end.

Definition isComplete (ev : Event) : bool :=
  match ev with Complete _ => true | _ => false end.

Definition isSign (ev : Event) : bool :=
  match ev with Sign _ => true | _ => false end.

Definition isSubmit (ev : Event) : bool :=
  match ev with Submit _ => true | _ => false end.

(** Calls to the ledger client: the query, the builder, the signer, the
    submission. *)
Definition isLedgerCall (ev : Event) : bool :=
  isQuery ev || isComplete ev || isSign ev || isSubmit ev.

Fixpoint count (p : Event -> bool) (t : list Event) : nat :=
  match t with
  | [] => O
  | ev :: r => ((if p ev then 1 else 0) + count p r)%nat
  end.

(** The message logged on entry. *)
Definition entryLog (owner : string) (level : Z) (action : option string) : Event :=
  Log Info [("ownerKeyHashHex", LStr owner); ("level", LNum level);
            ("action", LStr (default "Init" action))] "mintBadge called".

Definition mintsOf (ops : list TxOp) : list (gmap string Z) :=
  flat_map (fun op => match op with MintAssets m _ => [m] | _ => [] end) ops.

Definition outputsOf (ops : list TxOp) : list (string * gmap string Z) :=
  flat_map (fun op => match op with PayToContract a _ m => [(a, m)] | _ => [] end) ops.

(** The asset unit of the badge of [owner] at [level] under [policy]. *)
Definition badgeUnit (w : Env) (policy owner : string) (level : Z) : result string :=
  match makeBadgeAssetName owner level with
  | Ok name => toUnit w policy name
  | Throw e => Throw e
  end.

Definition completedOps (t : list Event) : list (list TxOp) :=
  flat_map (fun ev => match ev with Complete ops => [ops] | _ => [] end) t.

Definition buildFails (w : Env) (t : list Event) (e : JsError) : Prop :=
  exists ops, In (Complete ops) t /\ complete w ops = Throw e.

Definition signFails (w : Env) (t : list Event) (e : JsError) : Prop :=
  exists tx, In (Sign tx) t /\ sign w tx = Throw e.

Definition submitFails (w : Env) (t : list Event) (e : JsError) : Prop :=
  exists signed, In (Submit signed) t /\ submit w signed = Throw e.

(** The entry in the error log: the error itself under the fixed message. *)
Definition failureLog (e : JsError) : Event :=
  Log Err [("err", LErr e)] "Badge mint failed".

Definition isSignOf (tx : string) (ev : Event) : bool :=
  match ev with Sign tx' => String.eqb tx tx' | _ => false end.





Definition isErrorLog (ev : Event) : bool :=
  match ev with Log Err _ _ => true | _ => false end.

Definition isRead (ev : Event) : bool :=
  match ev with ReadBlueprint => true | _ => false end.

Definition isConnect (ev : Event) : bool :=
  match ev with ConnectLucid => true | _ => false end.

Definition signersOf (ops : list TxOp) : list string :=
  flat_map (fun op => match op with AddSignerKey k => [k] | _ => [] end) ops.

Definition policiesOf (ops : list TxOp) : list Script :=
  flat_map (fun op => match op with AttachMintingPolicy p => [p] | _ => [] end) ops.

Definition validatorsOf (ops : list TxOp) : list Script :=
  flat_map (fun op => match op with AttachSpendingValidator v => [v] | _ => [] end) ops.

Definition inputsOf (ops : list TxOp) : list (list UTxO * string) :=
  flat_map (fun op => match op with CollectFrom us r => [(us, r)] | _ => [] end) ops.

Definition mintRedeemersOf (ops : list TxOp) : list string :=
  flat_map (fun op => match op with MintAssets _ r => [r] | _ => [] end) ops.

Definition datumsOf (ops : list TxOp) : list string :=
  flat_map (fun op => match op with PayToContract _ d _ => [d] | _ => [] end) ops.

(** Sample worlds whose bundle is of another version, or has no preamble. *)
Definition sampleOutdatedBundle : Blueprint :=
  {| preamble := Some {| plutusVersion := Some "v2" |}; validators := None |}.

Definition sampleBareBundle : Blueprint :=
  {| preamble := None; validators := None |}.

Definition sampleOutdated : Env :=
  Sample.world (Ok sampleOutdatedBundle) [] (Ok "tx") (Ok "signed-tx").

Definition sampleBare : Env :=
  Sample.world (Ok sampleBareBundle) [] (Ok "tx") (Ok "signed-tx").

(** The sample world [w] with another configuration and another answer of
    the connection. *)
Definition reconfigured (w : Env) (projectId signingKey : option string)
  (connection : result unit) : Env :=
  {| BLOCKFROST_PROJECT_ID := projectId;
     CARDANO_SIGNING_KEY := signingKey;
     keyHashOf := keyHashOf w;
     keyError := keyError w;
     blueprintPromise := blueprintPromise w;
     lucidPromise := lucidPromise w;
     readBlueprint := readBlueprint w;
     connectLucid := connection;
     mintingPolicyToId := mintingPolicyToId w;
     toUnit := toUnit w;
     validatorToAddress := validatorToAddress w;
     Data_to := Data_to w;
     utf8 := utf8 w;
     utxosAtWithUnit := utxosAtWithUnit w;
     complete := complete w;
     sign := sign w;
     submit := submit w |}.

(** Sample worlds: no project id in the configuration; no signing key; a
    ledger API that cannot be reached. *)
Definition sampleUnconfigured : Env :=
  reconfigured Sample.healthy None (Some "ed25519_sk1sample") (Ok tt).

Definition sampleKeyless : Env :=
  reconfigured Sample.healthy (Some "preprod-project") None (Ok tt).

Definition sampleOffline : Env :=
  reconfigured Sample.healthy (Some "preprod-project") (Some "ed25519_sk1sample")
    (Throw (Error "connect ECONNREFUSED 127.0.0.1:443")).

(** The payload an applicant was made from. *)
Definition payloadOf (a : Applicants.Applicant) : Applicants.Payload :=
  {| Applicants.payload_fullName := Applicants.fullName a;
     Applicants.payload_nin := Applicants.nin a;
     Applicants.payload_bvn := Applicants.bvn a;
     Applicants.payload_residentialAddress := Applicants.residentialAddress a;
     Applicants.payload_email := Applicants.email a;
     Applicants.payload_phone := Applicants.phone a |}.

(** A host for the samples: a clock that advances 5 ms a reading, from a
    fixed instant, and numbered identifiers. *)
Definition sampleHost : Applicants.Host :=
  {| Applicants.now := fun k => 1700000000000 + 5 * Z.of_nat k;
     Applicants.randomUUID := Some (fun k => "uuid-" +:+ Js.showNumber (Z.of_nat k));
     Applicants.randomHex := fun _ => "8f3a" |}.

Definition samplePayload (name : string) : Applicants.Payload :=
  {| Applicants.payload_fullName := name;
     Applicants.payload_nin := "12345678901";
     Applicants.payload_bvn := "22222222222";
     Applicants.payload_residentialAddress := "1 Marina Road";
     Applicants.payload_email := "a@example.org";
     Applicants.payload_phone := "+2348000000000" |}.

(** A ledger API for the samples: two outputs to one address, one to the
    wallet, and a wallet that still holds an output of the transaction. *)
Definition sampleClient : DebugTx.Client :=
  {| DebugTx.getTx := fun _ =>
       Ok {| DebugTx.block_height := 100; DebugTx.block_time := 1700000000;
             DebugTx.confirmations := 3 |};
     DebugTx.getTxUtxos := fun _ =>
       Ok {| DebugTx.inputs := Some ["in0"];
             DebugTx.outputs :=
               Some [ {| DebugTx.address := "addr_a" |};
                      {| DebugTx.address := "addr_w" |};
                      {| DebugTx.address := "addr_a" |} ] |};
     DebugTx.getAddressUtxos := fun _ =>
       Ok [ {| DebugTx.tx_hash := "ffee" |}; {| DebugTx.tx_hash := "abcd" |} ] |}.

(** The 12 hours of the completion estimate, in milliseconds. *)
Definition halfDay : Z := 43200000.

Definition monotone (clock : nat -> Z) : Prop :=
  forall i j, (i <= j)%nat -> clock i <= clock j.

(** * Properties *)

Example normalizeHex_ex : normalizeHex "  0XaB01 " = "ab01".
Proof. reflexivity. Qed.

Example makeBadgeAssetName_ex :
  makeBadgeAssetName "00112233445566778899aabbccddeeff00112233445566778899AABB" 10
  = Ok "590a00112233445566778899aabbccddeeff00112233445566778899aabb".
Proof. reflexivity. Qed.

(** ** Strings and hex digits *)

Ltac each_ascii c :=
  destruct c as [[] [] [] [] [] [] [] []]; try reflexivity; try discriminate.

Lemma isHexChar_lower c : isHexChar c = true -> isLowerHexChar (Js.lowerChar c) = true.
Proof. each_ascii c. Qed.

Lemma isHexChar_not_space c : isHexChar c = true -> Js.isWhiteSpace c = false.
Proof. each_ascii c. Qed.

Lemma isLowerHexChar_hex c : isLowerHexChar c = true -> isHexChar c = true.
Proof. each_ascii c. Qed.

Lemma isLowerHexChar_fix c : isLowerHexChar c = true -> Js.lowerChar c = c.
Proof. each_ascii c. Qed.

Lemma isHexChar_not_x c :
  isHexChar c = true -> (Ascii.eqb c "x" || Ascii.eqb c "X")%char = false.
Proof. each_ascii c. Qed.

Lemma length_toLowerCase s : String.length (Js.toLowerCase s) = String.length s.
Proof. induction s as [|c r IH]; simpl; [reflexivity | now rewrite IH]. Qed.

Lemma allHex_lower s : allHex s = true -> allLowerHex (Js.toLowerCase s) = true.
Proof.
  induction s as [|c r IH]; simpl; [reflexivity|].
  intros [Hc Hr]%andb_prop. rewrite (isHexChar_lower c Hc). auto.
Qed.

Lemma allLowerHex_allHex s : allLowerHex s = true -> allHex s = true.
Proof.
  induction s as [|c r IH]; simpl; [reflexivity|].
  intros [Hc Hr]%andb_prop. rewrite (isLowerHexChar_hex c Hc). auto.
Qed.

Lemma allLowerHex_fix s : allLowerHex s = true -> Js.toLowerCase s = s.
Proof.
  induction s as [|c r IH]; simpl; [reflexivity|].
  intros [Hc Hr]%andb_prop. rewrite (isLowerHexChar_fix c Hc), IH; auto.
Qed.

Lemma allLowerHex_app s t :
  allLowerHex (s +:+ t) = allLowerHex s && allLowerHex t.
Proof. induction s as [|c r IH]; simpl; [reflexivity|]. rewrite IH. apply andb_assoc. Qed.

Lemma allHex_app s t : allHex (s +:+ t) = allHex s && allHex t.
Proof. induction s as [|c r IH]; simpl; [reflexivity|]. rewrite IH. apply andb_assoc. Qed.

Lemma length_app s t :
  String.length (s +:+ t) = (String.length s + String.length t)%nat.
Proof. induction s as [|c r IH]; simpl; [reflexivity | now rewrite IH]. Qed.

Lemma append_cons c r t : String c r +:+ t = String c (r +:+ t).
Proof. reflexivity. Qed.

Lemma append_empty s : s +:+ EmptyString = s.
Proof. induction s as [|c r IH]; [reflexivity | now rewrite append_cons, IH]. Qed.

Lemma isHex_lower s : isHex (Js.toLowerCase s) = isHex s.
Proof.
  destruct s as [|c r]; [reflexivity|].
  change (allHex (Js.toLowerCase (String c r)) = allHex (String c r)).
  induction (String c r) as [|d q IH]; simpl; [reflexivity|].
  rewrite IH. f_equal. clear. each_ascii d.
Qed.

(** Trimming: white space around a core that has none at its ends. *)

Lemma trimStart_space ws s :
  allWhiteSpace ws = true -> Js.trimStart (ws +:+ s) = Js.trimStart s.
Proof.
  induction ws as [|c r IH]; simpl; [reflexivity|].
  intros [Hc Hr]%andb_prop. rewrite Hc. auto.
Qed.

Lemma trimStart_all ws : allWhiteSpace ws = true -> Js.trimStart ws = EmptyString.
Proof.
  induction ws as [|c r IH]; simpl; [reflexivity|].
  intros [Hc Hr]%andb_prop. rewrite Hc. auto.
Qed.

Lemma trimEnd_space ws : allWhiteSpace ws = true -> Js.trimEnd ws = EmptyString.
Proof.
  induction ws as [|c r IH]; simpl; [reflexivity|].
  intros [Hc Hr]%andb_prop. rewrite (IH Hr), Hc. reflexivity.
Qed.

Lemma trimEnd_core s ws :
  noWhiteSpace s = true -> allWhiteSpace ws = true -> Js.trimEnd (s +:+ ws) = s.
Proof.
  intros Hs Hws. induction s as [|c r IH]; simpl.
  - apply trimEnd_space, Hws.
  - simpl in Hs. apply andb_prop in Hs as [Hc Hr]. rewrite (IH Hr).
    destruct r; [|reflexivity].
    apply negb_true_iff in Hc. rewrite Hc. reflexivity.
Qed.

Lemma trim_core ws1 s ws2 :
  allWhiteSpace ws1 = true -> noWhiteSpace s = true -> allWhiteSpace ws2 = true ->
  Js.trim (ws1 +:+ s +:+ ws2) = s.
Proof.
  intros H1 Hs H2. unfold Js.trim. rewrite trimStart_space by assumption.
  destruct s as [|c r].
  - change (Js.trimEnd (Js.trimStart ws2) = EmptyString).
    now rewrite (trimStart_all ws2 H2).
  - assert (Js.trimStart (String c r +:+ ws2) = String c r +:+ ws2) as ->.
    { simpl in Hs |- *. apply andb_prop in Hs as [Hc _].
      apply negb_true_iff in Hc. rewrite Hc. reflexivity. }
    apply trimEnd_core; assumption.
Qed.

Lemma allHex_noWhiteSpace s : allHex s = true -> noWhiteSpace s = true.
Proof.
  induction s as [|c r IH]; simpl; [reflexivity|].
  intros [Hc Hr]%andb_prop. rewrite (isHexChar_not_space c Hc). simpl. auto.
Qed.

Lemma strip0x_hex s : allHex s = true -> strip0x s = s.
Proof.
  destruct s as [|a [|b r]]; try reflexivity. simpl.
  intros [Ha [Hb Hr]%andb_prop]%andb_prop.
  rewrite (isHexChar_not_x b Hb), andb_false_r. reflexivity.
Qed.

Lemma isHex_allHex s : isHex s = true -> allHex s = true.
Proof. destruct s; [discriminate | exact (fun H => H)]. Qed.

Lemma allHex_lowered s :
  allHex (Js.toLowerCase s) = true -> allLowerHex (Js.toLowerCase s) = true.
Proof.
  induction s as [|c r IH]; simpl; [reflexivity|].
  intros [Hc Hr]%andb_prop. rewrite (IH Hr), andb_true_r.
  clear -Hc. revert Hc. each_ascii c.
Qed.

Lemma normalizeHex_padded ws1 p h ws2 :
  allWhiteSpace ws1 = true -> allWhiteSpace ws2 = true ->
  p = EmptyString \/ p = "0x" \/ p = "0X" ->
  allHex h = true ->
  normalizeHex (ws1 +:+ (p +:+ h) +:+ ws2) = Js.toLowerCase h.
Proof.
  intros H1 H2 Hp Hh. unfold normalizeHex.
  pose proof (allHex_noWhiteSpace h Hh) as Hn.
  rewrite trim_core; try assumption.
  - destruct Hp as [-> | [-> | ->]]; [|reflexivity..].
    simpl. now rewrite strip0x_hex.
  - destruct Hp as [-> | [-> | ->]]; simpl; assumption.
Qed.

(** The validator in terms of the cleaned string. *)
Lemma requireHexBytes_cases input n name :
  requireHexBytes input n name =
    if isHex (normalizeHex input)
       && (Z.of_nat (String.length (normalizeHex input)) =? n * 2)
    then Ok (normalizeHex input)
    else Throw (Error (name +:+ " must be " +:+ Js.showNumber n
                       +:+ " bytes hex (length " +:+ Js.showNumber (n * 2)
                       +:+ "), got '" +:+ input +:+ "'")).
Proof.
  unfold requireHexBytes.
  destruct (isHex (normalizeHex input)); simpl; [|reflexivity].
  destruct (Z.of_nat (String.length (normalizeHex input)) =? n * 2); reflexivity.
Qed.

Lemma requireHexBytes_ok input n name cleaned :
  requireHexBytes input n name = Ok cleaned ->
  cleaned = normalizeHex input /\ allLowerHex cleaned = true
  /\ Z.of_nat (String.length cleaned) = n * 2.
Proof.
  rewrite requireHexBytes_cases.
  destruct (isHex (normalizeHex input)) eqn:Hx; simpl; [|discriminate].
  destruct (Z.eqb_spec (Z.of_nat (String.length (normalizeHex input))) (n * 2));
    [|discriminate].
  intros [= <-]. repeat split; [|assumption].
  apply allHex_lowered, isHex_allHex, Hx.
Qed.

(** ** The level byte *)

Lemma levelHex_byte b :
  Js.padStart (Js.toString16 (Z.of_N (Byte.to_N b))) 2 "0" = Buffer.toHex [b].
Proof. destruct b; vm_compute; reflexivity. Qed.

Lemma levelByte_to_N level :
  0 <= level <= 255 -> Z.of_N (Byte.to_N (levelByte level)) = level.
Proof.
  intros H. unfold levelByte.
  destruct (Byte.of_N (Z.to_N level)) as [b|] eqn:E; simpl.
  - apply Byte.to_of_N in E. rewrite E. lia.
  - apply Byte.of_N_None_iff in E. lia.
Qed.

Lemma levelHex_levelByte level :
  0 <= level <= 255 ->
  Js.padStart (Js.toString16 level) 2 "0" = Buffer.toHex [levelByte level].
Proof.
  intros H. rewrite <- (levelByte_to_N level H) at 1. apply levelHex_byte.
Qed.

Lemma levelByte_of_to b : levelByte (Z.of_N (Byte.to_N b)) = b.
Proof. unfold levelByte. now rewrite N2Z.id, Byte.of_to_N. Qed.

(** ** Hex rendering of buffers *)

Lemma toHex_lower bs : allLowerHex (Buffer.toHex bs) = true.
Proof.
  induction bs as [|b r IH]; simpl; [reflexivity|].
  rewrite IH. destruct b; reflexivity.
Qed.

Lemma length_toHex bs : String.length (Buffer.toHex bs) = (2 * List.length bs)%nat.
Proof. induction bs as [|b r IH]; simpl; [reflexivity | rewrite IH; lia]. Qed.

Lemma fromHex_step b r :
  Buffer.fromHex
    (String (Buffer.hexDigit (Byte.to_N b / 16))
       (String (Buffer.hexDigit (Byte.to_N b mod 16)) r))
  = b :: Buffer.fromHex r.
Proof. destruct b; reflexivity. Qed.

Lemma fromHex_toHex bs : Buffer.fromHex (Buffer.toHex bs) = bs.
Proof.
  induction bs as [|b r IH]; [reflexivity|].
  change (Buffer.toHex (b :: r)) with
    (String (Buffer.hexDigit (Byte.to_N b / 16))
       (String (Buffer.hexDigit (Byte.to_N b mod 16)) (Buffer.toHex r))).
  now rewrite fromHex_step, IH.
Qed.

Lemma toHex_app a b : Buffer.toHex (a ++ b) = Buffer.toHex a +:+ Buffer.toHex b.
Proof. induction a as [|x r IH]; simpl; [reflexivity | now rewrite IH]. Qed.

(** A buffer's own hex rendering is already clean. *)
Lemma normalizeHex_toHex bs : normalizeHex (Buffer.toHex bs) = Buffer.toHex bs.
Proof.
  pose proof (toHex_lower bs) as Hl.
  pose proof (normalizeHex_padded EmptyString EmptyString (Buffer.toHex bs) EmptyString
                eq_refl eq_refl (or_introl eq_refl) (allLowerHex_allHex _ Hl)) as H.
  change (normalizeHex (Buffer.toHex bs +:+ EmptyString) = Js.toLowerCase (Buffer.toHex bs))
    in H.
  rewrite append_empty in H.
  rewrite H. apply allLowerHex_fix, Hl.
Qed.

(** ** The hex validator *)

(** C7: for an expected length of at least one byte (both call sites
    pass 28), and for every input string: the validator trims the input,
    drops one leading 0x and lower-cases the rest; it rejects, with an
    error that names the field, the expected byte and character lengths
    and the raw input, exactly when the cleaned string has a length other
    than twice the expected one or has a character that is not a hex
    digit; otherwise it returns the cleaned string, which is lower-case
    hex. A hex string is accepted with or without the prefix, in either
    case. *)
Theorem requireHexBytes_spec (input : string) (n : Z) (name : string) :
  1 <= n -> Js.isSafeInteger (n * 2) = true ->
  let cleaned := Js.toLowerCase (strip0x (Js.trim input)) in
  let rejection :=
    Throw (Error (name +:+ " must be " +:+ Js.showNumber n
                  +:+ " bytes hex (length " +:+ Js.showNumber (n * 2)
                  +:+ "), got '" +:+ input +:+ "'")) in
  (requireHexBytes input n name = rejection <->
   (Z.of_nat (String.length cleaned) <> n * 2 \/ allHex cleaned = false))
  /\ (Z.of_nat (String.length cleaned) = n * 2 -> allHex cleaned = true ->
      requireHexBytes input n name = Ok cleaned /\ allLowerHex cleaned = true)
  /\ (requireHexBytes input n name = rejection
      \/ requireHexBytes input n name = Ok cleaned)
  /\ (forall h, isHex h = true -> Z.of_nat (String.length h) = n * 2 ->
      requireHexBytes h n name = Ok (Js.toLowerCase h)
      /\ requireHexBytes ("0x" +:+ h) n name = Ok (Js.toLowerCase h)
      /\ requireHexBytes ("0X" +:+ h) n name = Ok (Js.toLowerCase h)).
Proof.
  intros Hn _ cleaned rejection. fold (normalizeHex input) in cleaned.
  assert (Hrej : (Z.of_nat (String.length cleaned) <> n * 2 \/ allHex cleaned = false) ->
                 requireHexBytes input n name = rejection).
  { intros Hrej. rewrite requireHexBytes_cases. fold cleaned.
    destruct (isHex cleaned) eqn:Hx; [|reflexivity]. simpl.
    destruct (Z.eqb_spec (Z.of_nat (String.length cleaned)) (n * 2)); [|reflexivity].
    destruct Hrej as [Hlen | Hbad]; [contradiction|].
    apply isHex_allHex in Hx. congruence. }
  assert (Hacc : Z.of_nat (String.length cleaned) = n * 2 -> allHex cleaned = true ->
                 requireHexBytes input n name = Ok cleaned /\ allLowerHex cleaned = true).
  { intros Hlen Hall. rewrite requireHexBytes_cases. fold cleaned.
    assert (isHex cleaned = true) as ->.
    { destruct cleaned; [simpl in Hlen; lia | exact Hall]. }
    rewrite Hlen, Z.eqb_refl. split; [reflexivity|].
    apply allHex_lowered, Hall. }
  split; [|split; [exact Hacc|split]].
  - split; [|exact Hrej].
    intros Hr.
    destruct (Z.eq_dec (Z.of_nat (String.length cleaned)) (n * 2)) as [Hlen|]; [|auto].
    destruct (allHex cleaned) eqn:Hall; [|auto].
    destruct (Hacc Hlen eq_refl) as [Hok _].
    rewrite Hok in Hr. discriminate Hr.
  - destruct (Z.eq_dec (Z.of_nat (String.length cleaned)) (n * 2)) as [Hlen|]; [|auto].
    destruct (allHex cleaned) eqn:Hall; [|auto].
    right. apply (Hacc Hlen eq_refl).
  - intros h Hx Hlen. pose proof (isHex_allHex h Hx) as Hall.
    pose proof (normalizeHex_padded EmptyString EmptyString h EmptyString
                  eq_refl eq_refl (or_introl eq_refl) Hall) as H0.
    pose proof (normalizeHex_padded EmptyString "0x" h EmptyString
                  eq_refl eq_refl (or_intror (or_introl eq_refl)) Hall) as H1.
    pose proof (normalizeHex_padded EmptyString "0X" h EmptyString
                  eq_refl eq_refl (or_intror (or_intror eq_refl)) Hall) as H2.
    change (normalizeHex (h +:+ EmptyString) = Js.toLowerCase h) in H0.
    change (normalizeHex (("0x" +:+ h) +:+ EmptyString) = Js.toLowerCase h) in H1.
    change (normalizeHex (("0X" +:+ h) +:+ EmptyString) = Js.toLowerCase h) in H2.
    rewrite append_empty in H0, H1, H2.
    rewrite !requireHexBytes_cases, H0, H1, H2, isHex_lower, Hx, length_toLowerCase, Hlen,
      Z.eqb_refl.
    repeat split; reflexivity.
Qed.

Lemma requireHexBytes_spec_witness :
  requireHexBytes "0XA1A1A1A1A1A1A1A1A1A1A1A1A1A10F0F0F0F0F0F0F0F0F0F0F0F0F0F" 28
    "ownerVkhHex" = Ok Sample.ownerHex
  /\ requireHexBytes " 0xC0FFEE" 28 "ownerVkhHex"
     = Throw (Error "ownerVkhHex must be 28 bytes hex (length 56), got ' 0xC0FFEE'")
  /\ requireHexBytes "g1a1a1a1a1a1a1a1a1a1a1a1a1a10f0f0f0f0f0f0f0f0f0f0f0f0f0f" 28
       "ownerVkhHex"
     = Throw (Error ("ownerVkhHex must be 28 bytes hex (length 56), got '"
                     +:+ "g1a1a1a1a1a1a1a1a1a1a1a1a1a10f0f0f0f0f0f0f0f0f0f0f0f0f0f'")).
Proof.
  assert (1 <= 28) as H28 by lia.
  destruct (requireHexBytes_spec EmptyString 28 "ownerVkhHex" H28 eq_refl)
    as (_ & _ & _ & Hpre).
  destruct (requireHexBytes_spec " 0xC0FFEE" 28 "ownerVkhHex" H28 eq_refl)
    as (Hlen & _).
  destruct (requireHexBytes_spec
              "g1a1a1a1a1a1a1a1a1a1a1a1a1a10f0f0f0f0f0f0f0f0f0f0f0f0f0f" 28
              "ownerVkhHex" H28 eq_refl) as (Hbad & _).
  split; [|split].
  - exact (proj2 (proj2 (Hpre "A1A1A1A1A1A1A1A1A1A1A1A1A1A10F0F0F0F0F0F0F0F0F0F0F0F0F0F"
                           eq_refl eq_refl))).
  - apply Hlen. left. discriminate.
  - apply Hbad. right. reflexivity.
Defined.

(** Successful asset names, in closed form. *)
Lemma makeBadgeAssetName_ok ownerVkhHex level assetName :
  makeBadgeAssetName ownerVkhHex level = Ok assetName ->
  0 <= level <= 255
  /\ requireHexBytes ownerVkhHex 28 "ownerVkhHex" = Ok (normalizeHex ownerVkhHex)
  /\ assetName = "59" +:+ Buffer.toHex [levelByte level] +:+ normalizeHex ownerVkhHex.
Proof.
  unfold makeBadgeAssetName.
  destruct (requireHexBytes ownerVkhHex 28 "ownerVkhHex") as [cleaned|e] eqn:E;
    [|discriminate].
  apply requireHexBytes_ok in E as (-> & _ & _).
  destruct (Z.ltb_spec level 0); [discriminate|].
  destruct (Z.gtb_spec level 255); [discriminate|]. simpl.
  intros [= <-]. rewrite levelHex_levelByte by lia. auto with lia.
Qed.

Lemma makeBadgeAssetName_total ownerVkhHex level :
  0 <= level <= 255 ->
  is_ok (requireHexBytes ownerVkhHex 28 "ownerVkhHex") = true ->
  makeBadgeAssetName ownerVkhHex level
  = Ok ("59" +:+ Buffer.toHex [levelByte level] +:+ normalizeHex ownerVkhHex).
Proof.
  intros Hl Hr. unfold makeBadgeAssetName.
  destruct (requireHexBytes ownerVkhHex 28 "ownerVkhHex") as [cleaned|e] eqn:E;
    [|discriminate].
  apply requireHexBytes_ok in E as (-> & _ & _).
  destruct (Z.ltb_spec level 0); [lia|].
  destruct (Z.gtb_spec level 255); [lia|]. simpl.
  now rewrite levelHex_levelByte by lia.
Qed.

(** C10: an input that is hex of the expected length once white space
    around it and one leading 0x or 0X are removed is accepted, and the
    result is that core in lower case; this holds of every padding of a
    hex core with white space and a prefix in either case, and every
    asset name built from such an owner hash is lower-case hex. *)
Theorem requireHexBytes_trims_and_strips (s : string) (n : Z) (name : string) :
  isHex (strip0x (Js.trim s)) = true ->
  Z.of_nat (String.length (strip0x (Js.trim s))) = n * 2 ->
  requireHexBytes s n name = Ok (Js.toLowerCase (strip0x (Js.trim s)))
  /\ allLowerHex (Js.toLowerCase (strip0x (Js.trim s))) = true
  /\ (forall ws1 ws2 prefix,
        allWhiteSpace ws1 = true -> allWhiteSpace ws2 = true ->
        prefix = EmptyString \/ prefix = "0x" \/ prefix = "0X" ->
        requireHexBytes (ws1 +:+ (prefix +:+ strip0x (Js.trim s)) +:+ ws2) n name
        = Ok (Js.toLowerCase (strip0x (Js.trim s))))
  /\ (n = 28 -> forall level, 0 <= level <= 255 ->
        exists assetName,
          makeBadgeAssetName s level = Ok assetName
          /\ allLowerHex assetName = true).
Proof.
  intros Hx Hlen.
  assert (Hreq : forall i nm, normalizeHex i = Js.toLowerCase (strip0x (Js.trim s)) ->
                      requireHexBytes i n nm = Ok (Js.toLowerCase (strip0x (Js.trim s)))).
  { intros i nm Hi. rewrite requireHexBytes_cases, Hi, isHex_lower, Hx, length_toLowerCase,
      Hlen, Z.eqb_refl. reflexivity. }
  assert (Hlow : allLowerHex (Js.toLowerCase (strip0x (Js.trim s))) = true)
    by apply allHex_lower, isHex_allHex, Hx.
  repeat split.
  - apply Hreq. reflexivity.
  - exact Hlow.
  - intros ws1 ws2 prefix H1 H2 Hp. apply Hreq.
    apply normalizeHex_padded; auto using isHex_allHex.
  - intros -> level Hlevel. eexists. split.
    + apply makeBadgeAssetName_total; [exact Hlevel|].
      rewrite (Hreq s "ownerVkhHex" eq_refl). reflexivity.
    + change (allLowerHex (Buffer.toHex [Byte.x59] +:+ Buffer.toHex [levelByte level]
                           +:+ normalizeHex s) = true).
      rewrite !allLowerHex_app, !toHex_lower. exact Hlow.
Qed.

Lemma requireHexBytes_trims_and_strips_witness :
  requireHexBytes "  0XAB0c " 2 "tag" = Ok "ab0c"
  /\ requireHexBytes (String (ascii_of_N 9) "0xAB0c") 2 "tag" = Ok "ab0c".
Proof.
  destruct (requireHexBytes_trims_and_strips "  0XAB0c " 2 "tag" eq_refl eq_refl)
    as (H & _ & Hpad & _).
  split; [exact H|].
  exact (Hpad (String (ascii_of_N 9) EmptyString) EmptyString "0x"
           eq_refl eq_refl (or_intror (or_introl eq_refl))).
Defined.

(** ** The badge asset name *)

(** C2: for an owner hash of 28 bytes, given by any hex string that
    cleans to its hex rendering, and a level from 0 to 255,
    [makeBadgeAssetName] returns the hex of the 30 bytes 0x59, level, owner
    hash; tag, level and owner are read back from the name, and two names
    are equal only for the same owner and level. *)
Theorem makeBadgeAssetName_spec (owner : list Byte.byte) (level : Z) (s : string) :
  List.length owner = 28%nat ->
  normalizeHex s = Buffer.toHex owner ->
  0 <= level <= 255 ->
  makeBadgeAssetName s level = Ok (Buffer.toHex (Byte.x59 :: levelByte level :: owner))
  /\ List.length (Byte.x59 :: levelByte level :: owner) = 30%nat
  /\ decodeBadgeAssetName (Buffer.toHex (Byte.x59 :: levelByte level :: owner))
     = Some (Byte.x59, level, owner)
  /\ (forall owner' level' s',
        List.length owner' = 28%nat ->
        normalizeHex s' = Buffer.toHex owner' ->
        0 <= level' <= 255 ->
        makeBadgeAssetName s' level' = makeBadgeAssetName s level ->
        owner' = owner /\ level' = level).
Proof.
  intros Hlen Hs Hlevel.
  assert (Hmk : forall o l t, List.length o = 28%nat -> normalizeHex t = Buffer.toHex o ->
                  0 <= l <= 255 ->
                  makeBadgeAssetName t l = Ok (Buffer.toHex (Byte.x59 :: levelByte l :: o))).
  { intros o l t Ho Ht Hl. rewrite makeBadgeAssetName_total; [now rewrite Ht|exact Hl|].
    rewrite requireHexBytes_cases, Ht, length_toHex, Ho.
    assert (isHex (Buffer.toHex o) = true) as ->; [|reflexivity].
    pose proof (allLowerHex_allHex _ (toHex_lower o)) as Ha.
    destruct o; [discriminate | exact Ha]. }
  assert (Hdec : forall o l, 0 <= l <= 255 ->
                  decodeBadgeAssetName (Buffer.toHex (Byte.x59 :: levelByte l :: o))
                  = Some (Byte.x59, l, o)).
  { intros o l Hl. unfold decodeBadgeAssetName.
    now rewrite fromHex_toHex, levelByte_to_N. }
  split; [|split; [|split]].
  - apply Hmk; assumption.
  - simpl. now rewrite Hlen.
  - apply Hdec, Hlevel.
  - intros owner' level' s' Hlen' Hs' Hlevel' Heq.
    rewrite (Hmk owner level s), (Hmk owner' level' s') in Heq by assumption.
    assert (decodeBadgeAssetName (Buffer.toHex (Byte.x59 :: levelByte level' :: owner'))
            = decodeBadgeAssetName (Buffer.toHex (Byte.x59 :: levelByte level :: owner)))
      as E by congruence.
    rewrite !Hdec in E by assumption. split; congruence.
Qed.

Lemma makeBadgeAssetName_spec_witness :
  makeBadgeAssetName Sample.ownerHex 4
  = Ok "5904a1a1a1a1a1a1a1a1a1a1a1a1a1a10f0f0f0f0f0f0f0f0f0f0f0f0f0f"
  /\ decodeBadgeAssetName "5904a1a1a1a1a1a1a1a1a1a1a1a1a1a10f0f0f0f0f0f0f0f0f0f0f0f0f0f"
     = Some (Byte.x59, 4, Sample.ownerBytes).
Proof.
  assert (0 <= 4 <= 255) as H4 by lia.
  destruct (makeBadgeAssetName_spec Sample.ownerBytes 4 Sample.ownerHex
              eq_refl eq_refl H4) as (Hname & _ & Hdec & _).
  split; [exact Hname | exact Hdec].
Defined.

(** ** Runs of [mintBadge] *)

Lemma count_app p t u : count p (t ++ u) = (count p t + count p u)%nat.
Proof. induction t as [|ev r IH]; simpl; [reflexivity | rewrite IH; lia]. Qed.

Lemma count_zero_not_In p t ev : count p t = O -> In ev t -> p ev = false.
Proof.
  induction t as [|x r IH]; simpl; [tauto|].
  intros Hc [-> | Hin]; [destruct (p ev); [discriminate | reflexivity]|].
  apply IH; [lia | exact Hin].
Qed.

Lemma checkOwnerHint_run hint owner :
  outcome (checkOwnerHint hint owner) = Ok tt
  /\ (trace (checkOwnerHint hint owner) = []
      \/ exists fields msg, trace (checkOwnerHint hint owner) = [Log Warn fields msg]).
Proof.
  unfold checkOwnerHint. destruct hint as [h|]; [|auto].
  destruct (truthy h); [|auto].
  destruct (requireHexBytes h 28 "ownerVkhHex"); [|simpl; eauto].
  destruct (negb (String.eqb a owner)); simpl; eauto.
Qed.

(** [mintBadge], phase by phase. *)
Lemma mintBadge_phases w hint level action :
  mintBadge w hint level action =
    match getBackendPaymentKeyHashHex w with
    | Throw e => ([], Throw e)
    | Ok owner =>
        let before := trace (checkOwnerHint hint owner) ++ entryLog owner level action
                      :: trace (resolveContext w owner level) in
        match outcome (resolveContext w owner level) with
        | Throw e => (before, Throw e)
        | Ok c =>
            (before ++ trace (dispatch w c owner level (default "Init" action)),
             outcome (dispatch w c owner level (default "Init" action)))
        end
    end.
Proof.
  unfold mintBadge. destruct (getBackendPaymentKeyHashHex w) as [owner|e]; [|reflexivity].
  destruct (checkOwnerHint_run hint owner) as [Ho _].
  cbn [lift bind]. destruct (checkOwnerHint hint owner) as [t r].
  cbn [outcome snd] in Ho. subst r. cbn [trace fst emit bind].
  fold (entryLog owner level action).
  destruct (resolveContext w owner level) as [t' [c|e]];
    cbn [bind trace outcome fst snd app].
  - destruct (dispatch w c owner level (default "Init" action)) as [t'' r''].
    cbn [fst snd]. now rewrite <- !app_assoc.
  - reflexivity.
Qed.

Ltac case_step :=
  match goal with
  | |- context [match ?x with _ => _ end] =>
      lazymatch x with
      | context [match _ with _ => _ end] => fail
      | _ => destruct x eqn:?
      end
  end.

Ltac run_cases :=
  repeat (cbn [bind lift call ret throw emit tryCatch trace outcome fst snd app]; case_step);
  cbn [bind lift call ret throw emit tryCatch trace outcome fst snd app].

(** Before the [try] block only the bundle is read and the client connected. *)
Lemma resolveContext_no_ledger_call w owner level :
  count isLedgerCall (trace (resolveContext w owner level)) = O.
Proof.
  unfold resolveContext, loadBlueprint, getLucid. run_cases; reflexivity.
Qed.

Lemma checkOwnerHint_no_ledger_call hint owner :
  count isLedgerCall (trace (checkOwnerHint hint owner)) = O.
Proof.
  destruct (checkOwnerHint_run hint owner) as [_ [-> | (f & m & ->)]]; reflexivity.
Qed.

(** What a resolved context holds. *)
Lemma resolveContext_ok w owner level c :
  outcome (resolveContext w owner level) = Ok c ->
  mintingPolicyToId w (badgeMintPolicy c) = Ok (policyId c)
  /\ makeBadgeAssetName owner level = Ok (assetNameHex c)
  /\ toUnit w (policyId c) (assetNameHex c) = Ok (unit_ c)
  /\ validatorToAddress w (badgeHolderValidator c) = Ok (badgeHolderAddress c)
  /\ encodeBadgeDatum (Data_to w) owner level (policyId c) = Ok (badgeDatumCbor c).
Proof.
  unfold resolveContext, loadBlueprint, getLucid. run_cases; try discriminate;
    intros [= <-]; cbn; auto.
Qed.

Ltac unfold_dispatch :=
  unfold dispatch, mintInit, mintUpgrade, mintRetire.

Lemma dispatch_owner w c owner level action r :
  outcome (dispatch w c owner level action) = Ok r -> res_ownerVkhHex r = owner.
Proof.
  unfold_dispatch. run_cases; try discriminate; intros [= <-]; reflexivity.
Qed.

(** With the key hash derived, the hint adds the events of its check in
    front of the run without a hint. *)
Lemma mintBadge_hint_trace w hint level action owner :
  getBackendPaymentKeyHashHex w = Ok owner ->
  trace (mintBadge w hint level action)
  = trace (checkOwnerHint hint owner) ++ trace (mintBadge w None level action).
Proof.
  intros Hk. rewrite !(mintBadge_phases w), Hk. cbn zeta.
  change (trace (checkOwnerHint None owner)) with (@nil Event). cbn [app].
  destruct (outcome (resolveContext w owner level)); cbn [trace fst];
    now rewrite <- ?app_assoc.
Qed.

(** C3: the owner is the key hash derived from the signing key, whatever
    the hint. A run with a hint has the outcome of the run without one,
    and its trace is that run's trace after at most one warning; so two
    runs that differ in the hint alone agree on the outcome and on every
    event that is not a warning, and the hint never makes a run fail. Once
    the key hash is derived, a hint that is given and not empty is logged:
    one that the validator accepts and that cleans to another hash as the
    warning that it is ignored, with both hashes; one that the validator
    refuses as the warning that it is invalid, with the hint as given and
    the validator's message; one that cleans to the derived hash leaves no
    event. *)
Theorem mintBadge_ignores_owner_hint (w : Env) (hint : option string) (level : Z)
  (action : option string) :
  outcome (mintBadge w hint level action) = outcome (mintBadge w None level action)
  /\ (exists warnings,
        trace (mintBadge w hint level action)
        = warnings ++ trace (mintBadge w None level action)
        /\ (warnings = [] \/ exists fields msg, warnings = [Log Warn fields msg]))
  /\ (forall hint',
        outcome (mintBadge w hint level action) = outcome (mintBadge w hint' level action)
        /\ List.filter (fun ev => negb (isWarning ev)) (trace (mintBadge w hint level action))
           = List.filter (fun ev => negb (isWarning ev))
               (trace (mintBadge w hint' level action)))
  /\ (forall r, outcome (mintBadge w hint level action) = Ok r ->
        getBackendPaymentKeyHashHex w = Ok (res_ownerVkhHex r))
  /\ (forall owner h,
        getBackendPaymentKeyHashHex w = Ok owner ->
        hint = Some h -> h <> EmptyString ->
        (forall requested,
           requireHexBytes h 28 "ownerVkhHex" = Ok requested -> requested <> owner ->
           trace (mintBadge w hint level action)
           = Log Warn [("requestedOwnerVkhHex", LStr requested);
                       ("ownerKeyHashHex", LStr owner)]
               "Ignoring provided ownerVkhHex; using server signing key"
             :: trace (mintBadge w None level action))
        /\ (forall error,
             requireHexBytes h 28 "ownerVkhHex" = Throw error ->
             trace (mintBadge w hint level action)
             = Log Warn [("ownerVkhHex", LStr h); ("error", LStr (stringOfError error))]
                 "Invalid ownerVkhHex provided; using server signing key"
               :: trace (mintBadge w None level action))
        /\ (requireHexBytes h 28 "ownerVkhHex" = Ok owner ->
            trace (mintBadge w hint level action)
            = trace (mintBadge w None level action))).
Proof.
  assert (Hrun : forall h,
    outcome (mintBadge w h level action) = outcome (mintBadge w None level action)
    /\ exists warnings,
        trace (mintBadge w h level action)
        = warnings ++ trace (mintBadge w None level action)
        /\ (warnings = [] \/ exists fields msg, warnings = [Log Warn fields msg])).
  { intros h. rewrite !(mintBadge_phases w).
    destruct (getBackendPaymentKeyHashHex w) as [owner|e]; [|split; [reflexivity|]].
    2: { exists []. auto. }
    cbn zeta. change (trace (checkOwnerHint None owner)) with (@nil Event).
    cbn [app].
    destruct (checkOwnerHint_run h owner) as [_ Hw].
    destruct (outcome (resolveContext w owner level)) as [c|e];
      cbn [trace outcome fst snd]; (split; [reflexivity|]);
      exists (trace (checkOwnerHint h owner)); (split; [|exact Hw]);
      now rewrite <- ?app_assoc. }
  assert (Hfilter : forall h,
    List.filter (fun ev => negb (isWarning ev)) (trace (mintBadge w h level action))
    = List.filter (fun ev => negb (isWarning ev)) (trace (mintBadge w None level action))).
  { intros h. destruct (Hrun h) as [_ (ws & -> & [-> | (f & m & ->)])]; reflexivity. }
  split; [apply Hrun|]. split; [apply Hrun|]. split; [|split].
  - intros hint'. split.
    + now rewrite (proj1 (Hrun hint)), (proj1 (Hrun hint')).
    + now rewrite (Hfilter hint), (Hfilter hint').
  - intros r. rewrite mintBadge_phases.
    destruct (getBackendPaymentKeyHashHex w) as [owner|e]; [|discriminate].
    cbn zeta. destruct (outcome (resolveContext w owner level)) as [c|e]; [|discriminate].
    cbn [outcome snd]. intros H%dispatch_owner. now rewrite H.
  - intros owner h Hk -> Hne.
    rewrite (mintBadge_hint_trace w (Some h) level action owner Hk).
    unfold checkOwnerHint.
    assert (truthy h = true) as -> by (destruct h; [contradiction | reflexivity]).
    split; [|split].
    + intros requested -> Hd%String.eqb_neq. now rewrite Hd.
    + intros error ->. reflexivity.
    + intros ->. now rewrite String.eqb_refl.
Qed.

Lemma mintBadge_ignores_owner_hint_witness :
  trace (mintBadge Sample.healthy (Some "0xABCD") 1 None)
  = Log Warn [("ownerVkhHex", LStr "0xABCD");
              ("error",
               LStr "Error: ownerVkhHex must be 28 bytes hex (length 56), got '0xABCD'")]
      "Invalid ownerVkhHex provided; using server signing key"
    :: trace (mintBadge Sample.healthy None 1 None)
  /\ trace (mintBadge Sample.healthy
              (Some "0Xb2b2b2b2b2b2b2b2b2b2b2b2b2b2B2B2B2B2B2B2B2B2B2B2B2B2B2B2") 1 None)
     = Log Warn [("requestedOwnerVkhHex",
                  LStr "b2b2b2b2b2b2b2b2b2b2b2b2b2b2b2b2b2b2b2b2b2b2b2b2b2b2b2b2");
                 ("ownerKeyHashHex", LStr Sample.ownerHex)]
         "Ignoring provided ownerVkhHex; using server signing key"
       :: trace (mintBadge Sample.healthy None 1 None)
  /\ outcome (mintBadge Sample.healthy (Some "0xABCD") 1 None)
     = outcome (mintBadge Sample.healthy None 1 None).
Proof.
  destruct (mintBadge_ignores_owner_hint Sample.healthy (Some "0xABCD") 1 None)
    as (Hout & _ & _ & _ & Hbad).
  destruct (mintBadge_ignores_owner_hint Sample.healthy
              (Some "0Xb2b2b2b2b2b2b2b2b2b2b2b2b2b2B2B2B2B2B2B2B2B2B2B2B2B2B2B2") 1 None)
    as (_ & _ & _ & _ & Hother).
  split; [|split; [|exact Hout]].
  - destruct (Hbad Sample.ownerHex "0xABCD" eq_refl eq_refl) as (_ & H & _);
      [discriminate|].
    exact (H _ eq_refl).
  - destruct (Hother Sample.ownerHex _ eq_refl eq_refl) as (H & _); [discriminate|].
    apply (H _ eq_refl). discriminate.
Defined.

(** Events of the phases before the [try] block are never ledger calls. *)
Lemma before_dispatch_no_ledger_call w hint owner level action :
  count isLedgerCall
    (trace (checkOwnerHint hint owner) ++ entryLog owner level action
     :: trace (resolveContext w owner level)) = O.
Proof.
  rewrite count_app, checkOwnerHint_no_ledger_call. cbn [count entryLog isLedgerCall
    isQuery isComplete isSign isSubmit orb]. now rewrite resolveContext_no_ledger_call.
Qed.

Lemma count_ledger_split t :
  count isLedgerCall t = O ->
  count isQuery t = O /\ count isComplete t = O /\ count isSign t = O
  /\ count isSubmit t = O.
Proof.
  induction t as [|ev r IH]; [auto|]. cbn [count].
  destruct ev; cbn; try discriminate; exact IH.
Qed.

(** ** Upgrade to level 0 *)

(** Whatever the world, an Upgrade to level 0 fails without a ledger call. *)
Lemma upgrade_to_zero_never_calls_ledger (w : Env) (hint : option string) :
  is_ok (outcome (mintBadge w hint 0 (Some "Upgrade"))) = false
  /\ count isLedgerCall (trace (mintBadge w hint 0 (Some "Upgrade"))) = O.
Proof.
  rewrite mintBadge_phases.
  destruct (getBackendPaymentKeyHashHex w) as [owner|e]; [|split; reflexivity].
  cbn zeta. destruct (outcome (resolveContext w owner 0)) as [c|e]; cbn [trace outcome fst snd].
  - split; [reflexivity|].
    rewrite count_app, before_dispatch_no_ledger_call. reflexivity.
  - split; [reflexivity | apply before_dispatch_no_ledger_call].
Qed.

(** C4, as the code has it: an Upgrade with target level 0 always fails,
    and its run holds no unspent-output query, no build, no signing and no
    submission. The failure is the precondition error, whose message
    contains the words Upgrade requires, once the key hash and the context
    of lines 260-284 are resolved; when the key derivation or one of the
    steps of lines 260-284 fails, the run has failed with that step's error
    before it reaches the precondition. *)
Theorem mintBadge_upgrade_level_zero (w : Env) (hint : option string) :
  is_ok (outcome (mintBadge w hint 0 (Some "Upgrade"))) = false
  /\ count isLedgerCall (trace (mintBadge w hint 0 (Some "Upgrade"))) = O
  /\ count isQuery (trace (mintBadge w hint 0 (Some "Upgrade"))) = O
  /\ count isComplete (trace (mintBadge w hint 0 (Some "Upgrade"))) = O
  /\ count isSign (trace (mintBadge w hint 0 (Some "Upgrade"))) = O
  /\ count isSubmit (trace (mintBadge w hint 0 (Some "Upgrade"))) = O
  /\ (forall owner c,
      getBackendPaymentKeyHashHex w = Ok owner ->
      outcome (resolveContext w owner 0) = Ok c ->
      outcome (mintBadge w hint 0 (Some "Upgrade"))
      = Throw (Error "Upgrade requires `level` >= 1 (target new level)")
      /\ Js.includes "Upgrade requires `level` >= 1 (target new level)" "Upgrade requires"
         = true)
  /\ (forall e,
      getBackendPaymentKeyHashHex w = Throw e ->
      outcome (mintBadge w hint 0 (Some "Upgrade")) = Throw e)
  /\ (forall owner e,
      getBackendPaymentKeyHashHex w = Ok owner ->
      outcome (resolveContext w owner 0) = Throw e ->
      outcome (mintBadge w hint 0 (Some "Upgrade")) = Throw e).
Proof.
  destruct (upgrade_to_zero_never_calls_ledger w hint) as [Hf Hn].
  destruct (count_ledger_split _ Hn) as (Hq & Hc & Hs & Hb).
  repeat (split; [assumption|]).
  split; [|split].
  - intros owner c Hk Hr. split; [|reflexivity].
    rewrite mintBadge_phases, Hk. cbn zeta. rewrite Hr. reflexivity.
  - intros e Hk. rewrite mintBadge_phases, Hk. reflexivity.
  - intros owner e Hk Hr. rewrite mintBadge_phases, Hk. cbn zeta. now rewrite Hr.
Qed.

Lemma mintBadge_upgrade_level_zero_witness :
  outcome (mintBadge Sample.healthy (Some "0xABCD") 0 (Some "Upgrade"))
  = Throw (Error "Upgrade requires `level` >= 1 (target new level)")
  /\ count isLedgerCall (trace (mintBadge Sample.healthy (Some "0xABCD") 0 (Some "Upgrade")))
     = O.
Proof.
  assert (exists c, outcome (resolveContext Sample.healthy Sample.ownerHex 0) = Ok c)
    as [c Hc] by (vm_compute; eexists; reflexivity).
  destruct (mintBadge_upgrade_level_zero Sample.healthy (Some "0xABCD"))
    as (_ & Hn & _ & _ & _ & _ & H & _).
  split; [exact (proj1 (H Sample.ownerHex c eq_refl Hc)) | exact Hn].
Defined.

(** An Upgrade to level 0 against a ledger API that cannot be reached
    fails with the error of the connection, which is raised at line 275,
    before the precondition of line 325 is looked at. *)
Lemma upgrade_level_zero_connection_error :
  outcome (mintBadge sampleOffline None 0 (Some "Upgrade"))
  = Throw (Error "connect ECONNREFUSED 127.0.0.1:443")
  /\ Js.includes "connect ECONNREFUSED 127.0.0.1:443" "Upgrade requires" = false
  /\ ~ (forall w hint, exists e,
          outcome (mintBadge w hint 0 (Some "Upgrade")) = Throw e
          /\ Js.includes (message e) "Upgrade requires" = true).
Proof.
  assert (outcome (mintBadge sampleOffline None 0 (Some "Upgrade"))
          = Throw (Error "connect ECONNREFUSED 127.0.0.1:443")) as Hrun
    by (vm_compute; reflexivity).
  split; [exact Hrun|]. split; [reflexivity|].
  intros H. destruct (H sampleOffline None) as (e & He & Hinc).
  rewrite Hrun in He. injection He as <-. discriminate Hinc.
Qed.

Lemma default_action action a :
  a <> "Init" -> default "Init" action = a -> action = Some a.
Proof. destruct action; simpl; congruence. Qed.

Ltac in_cases :=
  cbn [In];
  repeat match goal with
         | |- _ \/ _ -> _ => intros [?|?]
         | |- False -> _ => intros []
         | |- _ = _ -> _ => intros ?
         | H : _ \/ _ |- _ => destruct H
         | H : False |- _ => destruct H
         end;
  try discriminate.

(** ** No badge-holder output *)

Lemma dispatch_empty_query w c owner level action address u :
  In (UtxosAtWithUnit address u) (trace (dispatch w c owner level action)) ->
  utxosAtWithUnit w address u = Ok [] ->
  exists sought,
    ((action = "Upgrade" /\ sought = level - 1) \/ (action = "Retire" /\ sought = level))
    /\ outcome (dispatch w c owner level action)
       = Throw (Error ("No badge-holder UTxO found for level " +:+ Js.showNumber sought
                       +:+ " at " +:+ address))
    /\ count isComplete (trace (dispatch w c owner level action)) = O
    /\ count isSign (trace (dispatch w c owner level action)) = O
    /\ count isSubmit (trace (dispatch w c owner level action)) = O.
Proof.
  unfold_dispatch. run_cases; in_cases;
    match goal with
    | H : UtxosAtWithUnit _ _ = UtxosAtWithUnit _ _ |- _ => injection H as <- <-
    end;
    try congruence.
  - exists (level - 1). repeat split; try reflexivity.
    left. split; [|reflexivity]. now apply String.eqb_eq.
  - exists level. repeat split; try reflexivity.
    right. split; [|reflexivity]. now apply String.eqb_eq.
Qed.

(** C5: when the unspent-output query of a run answers with no output,
    the run is an Upgrade or a Retire and fails with the error that names
    the level looked for (the source level of an Upgrade, the level of a
    Retire) and the holder address; nothing is built, signed or submitted. *)
Theorem mintBadge_no_holder_output (w : Env) (hint : option string) (level : Z)
  (action : option string) (address u : string) :
  In (UtxosAtWithUnit address u) (trace (mintBadge w hint level action)) ->
  utxosAtWithUnit w address u = Ok [] ->
  exists sought,
    ((action = Some "Upgrade" /\ sought = level - 1)
     \/ (action = Some "Retire" /\ sought = level))
    /\ outcome (mintBadge w hint level action)
       = Throw (Error ("No badge-holder UTxO found for level " +:+ Js.showNumber sought
                       +:+ " at " +:+ address))
    /\ count isComplete (trace (mintBadge w hint level action)) = O
    /\ count isSign (trace (mintBadge w hint level action)) = O
    /\ count isSubmit (trace (mintBadge w hint level action)) = O.
Proof.
  rewrite mintBadge_phases.
  destruct (getBackendPaymentKeyHashHex w) as [owner|e]; [|intros []].
  cbn zeta.
  pose proof (before_dispatch_no_ledger_call w hint owner level action) as Hb.
  set (before := trace (checkOwnerHint hint owner) ++ _) in *.
  pose proof (count_zero_not_In _ _ (UtxosAtWithUnit address u) Hb) as Hnot.
  destruct (count_ledger_split _ Hb) as (_ & Hbc & Hbs & Hbb).
  destruct (outcome (resolveContext w owner level)) as [c|e]; cbn [trace outcome fst snd];
    [|intros Hin; specialize (Hnot Hin); discriminate].
  intros [Hin | Hin]%in_app_or Hq; [specialize (Hnot Hin); discriminate|].
  destruct (dispatch_empty_query w c owner level _ address u Hin Hq)
    as (sought & Hact & Hout & Hc & Hs & Hsub).
  exists sought. rewrite !(count_app _ before), Hbc, Hbs, Hbb, Hc, Hs, Hsub.
  repeat split; try assumption.
  destruct Hact as [[Ha ->] | [Ha ->]]; [left | right]; split; try reflexivity;
    apply default_action; (discriminate || assumption).
Qed.

Lemma mintBadge_no_holder_output_witness :
  outcome (mintBadge (Sample.world (Ok Sample.bundle) [] (Ok "tx") (Ok "signed-tx"))
             None 3 (Some "Upgrade"))
  = Throw (Error "No badge-holder UTxO found for level 2 at addr_test1wholder")
  /\ outcome (mintBadge (Sample.world (Ok Sample.bundle) [] (Ok "tx") (Ok "signed-tx"))
                None 3 (Some "Retire"))
     = Throw (Error "No badge-holder UTxO found for level 3 at addr_test1wholder").
Proof.
  split.
  - destruct (mintBadge_no_holder_output
                (Sample.world (Ok Sample.bundle) [] (Ok "tx") (Ok "signed-tx"))
                None 3 (Some "Upgrade") Sample.holder
                (Sample.policy +:+ "5902" +:+ Sample.ownerHex))
      as (sought & Hact & Hout & _).
    + vm_compute. do 3 right. left. reflexivity.
    + reflexivity.
    + destruct Hact as [[_ ->] | [[=] _]]. exact Hout.
  - destruct (mintBadge_no_holder_output
                (Sample.world (Ok Sample.bundle) [] (Ok "tx") (Ok "signed-tx"))
                None 3 (Some "Retire") Sample.holder
                (Sample.policy +:+ "5903" +:+ Sample.ownerHex))
      as (sought & Hact & Hout & _).
    + vm_compute. do 3 right. left. reflexivity.
    + reflexivity.
    + destruct Hact as [[[=] _] | [_ ->]]. exact Hout.
Defined.

(** ** Unspent-output queries per action *)

Lemma dispatch_queries_le w c owner level action :
  (count isQuery (trace (dispatch w c owner level action)) <= 1)%nat
  /\ (action = "Init" -> count isQuery (trace (dispatch w c owner level action)) = O).
Proof.
  unfold_dispatch. run_cases; cbn; split; try lia; try reflexivity; intros ->; discriminate.
Qed.

Lemma dispatch_retire_queries w c owner level n u :
  makeBadgeAssetName owner level = Ok n ->
  toUnit w (policyId c) n = Ok u ->
  count isQuery (trace (dispatch w c owner level "Retire")) = 1%nat.
Proof.
  intros Hn Hu. unfold_dispatch. cbn [String.eqb Ascii.eqb Bool.eqb].
  rewrite Hn. cbn [bind lift]. rewrite Hu. run_cases; reflexivity.
Qed.

Lemma dispatch_upgrade_queries w c owner level nf uf nt ut :
  1 <= level ->
  makeBadgeAssetName owner (level - 1) = Ok nf ->
  toUnit w (policyId c) nf = Ok uf ->
  makeBadgeAssetName owner level = Ok nt ->
  toUnit w (policyId c) nt = Ok ut ->
  count isQuery (trace (dispatch w c owner level "Upgrade")) = 1%nat.
Proof.
  intros Hl Hnf Huf Hnt Hut. unfold_dispatch. cbn [String.eqb Ascii.eqb Bool.eqb].
  destruct (Z.ltb_spec (level - 1) 0); [lia|].
  cbn [bind lift ret]. rewrite Hnf. cbn [bind lift]. rewrite Huf. cbn [bind lift].
  rewrite Hnt. cbn [bind lift]. rewrite Hut. run_cases; reflexivity.
Qed.

(** The source level of an Upgrade has an asset name when the target has one. *)
Lemma makeBadgeAssetName_pred owner level n :
  1 <= level -> makeBadgeAssetName owner level = Ok n ->
  is_ok (makeBadgeAssetName owner (level - 1)) = true.
Proof.
  intros Hl (Hr & Hq & _)%makeBadgeAssetName_ok.
  rewrite makeBadgeAssetName_total; [reflexivity | lia | now rewrite Hq].
Qed.

(** C8, as the code has it: an Init run never queries the holder
    address and no run queries it more than once; once the key hash and
    the context are resolved, a Retire run queries it exactly once, and so
    does an Upgrade run with a target level of 1 or more whose source unit
    is computed, while an Upgrade run with target level 0 never does. *)
Theorem mintBadge_query_count (w : Env) (hint : option string) (level : Z)
  (action : option string) :
  (default "Init" action = "Init" ->
   count isQuery (trace (mintBadge w hint level action)) = O)
  /\ (count isQuery (trace (mintBadge w hint level action)) <= 1)%nat
  /\ (forall owner c,
        getBackendPaymentKeyHashHex w = Ok owner ->
        outcome (resolveContext w owner level) = Ok c ->
        (action = Some "Retire" ->
         count isQuery (trace (mintBadge w hint level action)) = 1%nat)
        /\ (action = Some "Upgrade" -> 1 <= level ->
            (forall n, makeBadgeAssetName owner (level - 1) = Ok n ->
                       is_ok (toUnit w (policyId c) n) = true) ->
            count isQuery (trace (mintBadge w hint level action)) = 1%nat)
        /\ (action = Some "Upgrade" -> level = 0 ->
            count isQuery (trace (mintBadge w hint level action)) = O)).
Proof.
  rewrite mintBadge_phases.
  destruct (getBackendPaymentKeyHashHex w) as [owner|e].
  2: { repeat split; intros; cbn; try lia; congruence. }
  cbn zeta.
  pose proof (before_dispatch_no_ledger_call w hint owner level action) as Hb.
  set (before := trace (checkOwnerHint hint owner) ++ _) in *.
  destruct (count_ledger_split _ Hb) as (Hbq & _).
  destruct (outcome (resolveContext w owner level)) as [c|e] eqn:Hc;
    cbn [trace outcome fst snd].
  2: { rewrite Hbq. repeat split; intros; try lia; congruence. }
  rewrite count_app, Hbq. cbn [Nat.add].
  destruct (dispatch_queries_le w c owner level (default "Init" action)) as [Hle Hinit].
  split; [exact Hinit|]. split; [exact Hle|].
  intros owner' c' [= <-] Hc'. rewrite Hc in Hc'. injection Hc' as <-.
  destruct (resolveContext_ok w owner level c Hc) as (_ & Hn & Hu & _).
  split; [|split].
  - intros ->. eapply dispatch_retire_queries; eassumption.
  - intros -> Hl Hfrom.
    pose proof (makeBadgeAssetName_pred owner level _ Hl Hn) as Hp.
    destruct (makeBadgeAssetName owner (level - 1)) as [nf|] eqn:Hnf; [|discriminate].
    specialize (Hfrom nf eq_refl).
    destruct (toUnit w (policyId c) nf) as [uf|] eqn:Huf; [|discriminate].
    eapply dispatch_upgrade_queries; eassumption.
  - intros -> ->. reflexivity.
Qed.

Lemma mintBadge_query_count_witness :
  count isQuery (trace (mintBadge Sample.healthy None 2 (Some "Init"))) = O
  /\ count isQuery (trace (mintBadge Sample.healthy None 2 (Some "Retire"))) = 1%nat
  /\ count isQuery (trace (mintBadge Sample.healthy None 2 (Some "Upgrade"))) = 1%nat.
Proof.
  assert (exists c, outcome (resolveContext Sample.healthy Sample.ownerHex 2) = Ok c)
    as [c Hc] by (vm_compute; eexists; reflexivity).
  split; [|split].
  - exact (proj1 (mintBadge_query_count Sample.healthy None 2 (Some "Init")) eq_refl).
  - destruct (mintBadge_query_count Sample.healthy None 2 (Some "Retire"))
      as (_ & _ & H).
    exact (proj1 (H Sample.ownerHex c eq_refl Hc) eq_refl).
  - destruct (mintBadge_query_count Sample.healthy None 2 (Some "Upgrade"))
      as (_ & _ & H).
    apply (proj1 (proj2 (H Sample.ownerHex c eq_refl Hc)) eq_refl); [lia|].
    intros n _. reflexivity.
Defined.

(** An Upgrade run with target level 0 stops at its precondition: it is an
    Upgrade run without a query. *)
Lemma upgrade_level_zero_makes_no_query :
  count isQuery (trace (mintBadge Sample.healthy None 0 (Some "Upgrade"))) = O
  /\ ~ (forall w hint level,
          count isQuery (trace (mintBadge w hint level (Some "Upgrade"))) = 1%nat).
Proof.
  split; [vm_compute; reflexivity|].
  intros H. specialize (H Sample.healthy None 0). vm_compute in H. discriminate.
Qed.

(** ** The mint and burn quantities of each action *)


Lemma completed_In t ops : List.hd_error (completedOps t) = Some ops -> In (Complete ops) t.
Proof.
  induction t as [|ev r IH]; [discriminate|].
  destruct ev; cbn [completedOps flat_map app]; try (intros H; right; exact (IH H)).
  intros [= ->]. left. reflexivity.
Qed.








(** ** Failures of the builder, the signer and the submission *)

Ltac trace_facts :=
  repeat match goal with
         | H : _ \/ _ |- _ => destruct H
         | H : _ /\ _ |- _ => destruct H
         | H : exists _, _ |- _ => destruct H
         | H : False |- _ => destruct H
         | H : In _ _ |- _ => progress cbn [In] in H
         | H : Complete _ = Complete _ |- _ => injection H as ?; subst
         | H : Sign _ = Sign _ |- _ => injection H as ?; subst
         | H : Submit _ = Submit _ |- _ => injection H as ?; subst
         | H : @eq Event _ _ |- _ => discriminate H
         end.

Lemma dispatch_failure w c owner level action e :
  buildFails w (trace (dispatch w c owner level action)) e
  \/ signFails w (trace (dispatch w c owner level action)) e
  \/ submitFails w (trace (dispatch w c owner level action)) e ->
  outcome (dispatch w c owner level action) = Throw e
  /\ last (trace (dispatch w c owner level action)) = Some (failureLog e).
Proof.
  unfold buildFails, signFails, submitFails, failureLog. unfold_dispatch.
  run_cases; intros H; trace_facts; try congruence;
    match goal with
    | H1 : ?f = Throw ?a, H2 : ?f = Throw ?b |- _ =>
        assert (a = b) as -> by congruence
    end; split; reflexivity.
Qed.

Lemma dispatch_submission w c owner level action :
  (count isSubmit (trace (dispatch w c owner level action)) <= 1)%nat
  /\ (forall signed, In (Submit signed) (trace (dispatch w c owner level action)) ->
      exists ops tx,
        In (Complete ops) (trace (dispatch w c owner level action))
        /\ complete w ops = Ok tx
        /\ In (Sign tx) (trace (dispatch w c owner level action))
        /\ sign w tx = Ok signed)
  /\ (forall e, buildFails w (trace (dispatch w c owner level action)) e ->
      count isSign (trace (dispatch w c owner level action)) = O
      /\ count isSubmit (trace (dispatch w c owner level action)) = O)
  /\ (forall e, signFails w (trace (dispatch w c owner level action)) e ->
      count isSubmit (trace (dispatch w c owner level action)) = O).
Proof.
  unfold buildFails, signFails. unfold_dispatch.
  run_cases; (split; [cbn; lia|]); (split; [|split]).
  all: try (intros ? H; trace_facts; try congruence; try (split; reflexivity);
            try reflexivity).
  all: do 2 eexists; cbn [In]; repeat split; eauto 10.
Qed.

Lemma ledger_call_after before d ev :
  count isLedgerCall before = O -> isLedgerCall ev = true ->
  In ev (before ++ d) -> In ev d.
Proof.
  intros Hb Hev [Hin | Hin]%in_app_or; [|exact Hin].
  rewrite (count_zero_not_In _ _ _ Hb Hin) in Hev. discriminate.
Qed.

(** C6, as the code has it: an error of the builder, of the signer or
    of the submission is written to the error log under the message Badge
    mint failed and then leaves [mintBadge] as it is, the collaborator's
    own error, with nothing added about the action. Nothing is signed or
    submitted after a failed build and nothing is submitted after a failed
    signing; a run submits at most once, and what it submits is the signed
    form of the transaction it had built. *)
Theorem mintBadge_failure_propagates (w : Env) (hint : option string) (level : Z)
  (action : option string) (e : JsError) :
  let t := trace (mintBadge w hint level action) in
  buildFails w t e \/ signFails w t e \/ submitFails w t e ->
  outcome (mintBadge w hint level action) = Throw e
  /\ last t = Some (failureLog e)
  /\ (buildFails w t e -> count isSign t = O /\ count isSubmit t = O)
  /\ (signFails w t e -> count isSubmit t = O)
  /\ (count isSubmit t <= 1)%nat
  /\ (forall signed, In (Submit signed) t ->
      exists ops tx,
        In (Complete ops) t /\ complete w ops = Ok tx
        /\ In (Sign tx) t /\ sign w tx = Ok signed).
Proof.
  cbn zeta. rewrite mintBadge_phases.
  destruct (getBackendPaymentKeyHashHex w) as [owner|e0].
  2: { intros [(? & [] & _) | [(? & [] & _) | (? & [] & _)]]. }
  cbn zeta.
  pose proof (before_dispatch_no_ledger_call w hint owner level action) as Hb.
  set (before := trace (checkOwnerHint hint owner) ++ _) in *.
  destruct (count_ledger_split _ Hb) as (_ & _ & Hbs & Hbb).
  assert (Hafter : forall d ev, isLedgerCall ev = true -> In ev (before ++ d) -> In ev d)
    by (intros d ev; apply ledger_call_after, Hb).
  destruct (outcome (resolveContext w owner level)) as [c|e0]; cbn [trace outcome fst snd].
  2: { intros [(? & Hin & _) | [(? & Hin & _) | (? & Hin & _)]];
       rewrite <- (app_nil_r before) in Hin; apply Hafter in Hin; try reflexivity;
       destruct Hin. }
  set (d := trace (dispatch w c owner level (default "Init" action))).
  assert (Hb1 : forall e', buildFails w (before ++ d) e' -> buildFails w d e').
  { intros e' (ops & Hin & Hf). exists ops. split; [|exact Hf].
    apply Hafter; [reflexivity | exact Hin]. }
  assert (Hs1 : forall e', signFails w (before ++ d) e' -> signFails w d e').
  { intros e' (tx & Hin & Hf). exists tx. split; [|exact Hf].
    apply Hafter; [reflexivity | exact Hin]. }
  assert (Hu1 : forall e', submitFails w (before ++ d) e' -> submitFails w d e').
  { intros e' (sg & Hin & Hf). exists sg. split; [|exact Hf].
    apply Hafter; [reflexivity | exact Hin]. }
  destruct (dispatch_submission w c owner level (default "Init" action))
    as (Hle & Hsub & Hbf & Hsf). fold d in Hle, Hsub, Hbf, Hsf.
  intros Hfail.
  assert (buildFails w d e \/ signFails w d e \/ submitFails w d e) as Hfail'
    by (destruct Hfail as [H | [H | H]]; auto).
  destruct (dispatch_failure w c owner level _ e Hfail') as [Hout Hlast]. fold d in Hlast.
  rewrite !(count_app _ before), Hbs, Hbb. cbn [Nat.add].
  split; [exact Hout|]. split; [now rewrite last_app, Hlast|].
  split; [intros H; apply (Hbf e), Hb1, H|].
  split; [intros H; apply (Hsf e), Hs1, H|].
  split; [exact Hle|].
  intros signed Hin. apply Hafter in Hin; [|reflexivity].
  destruct (Hsub signed Hin) as (ops & tx & H1 & H2 & H3 & H4).
  exists ops, tx. repeat split; try assumption; apply in_or_app; right; assumption.
Qed.

Lemma signed_In t tx : existsb (isSignOf tx) t = true -> In (Sign tx) t.
Proof.
  intros (ev & Hin & Hev)%existsb_exists.
  destruct ev; try discriminate. apply String.eqb_eq in Hev as <-. exact Hin.
Qed.

Lemma mintBadge_failure_propagates_witness :
  outcome (mintBadge Sample.unsigned None 2 (Some "Retire"))
  = Throw (Error "signing key rejected")
  /\ count isSubmit (trace (mintBadge Sample.unsigned None 2 (Some "Retire"))) = O.
Proof.
  assert (signFails Sample.unsigned (trace (mintBadge Sample.unsigned None 2 (Some "Retire")))
            (Error "signing key rejected")) as Hs.
  { exists "tx". split; [|reflexivity].
    apply signed_In. vm_cast_no_check (@eq_refl bool true). }
  destruct (mintBadge_failure_propagates Sample.unsigned None 2 (Some "Retire")
              (Error "signing key rejected") (or_intror (or_introl Hs)))
    as (Hout & _ & _ & Hnone & _).
  split; [exact Hout | exact (Hnone Hs)].
Defined.

(** A failed build of an Init leaves [mintBadge] as the builder's error:
    neither the error nor its log entry says which action was attempted. *)
Lemma build_failure_carries_no_action :
  outcome (mintBadge Sample.unfunded None 0 (Some "Init"))
  = Throw (Error "insufficient funds")
  /\ Js.includes "insufficient funds" "Init" = false
  /\ last (trace (mintBadge Sample.unfunded None 0 (Some "Init")))
     = Some (Log Err [("err", LErr (Error "insufficient funds"))] "Badge mint failed").
Proof. vm_compute. repeat split; reflexivity. Qed.

(** ** The datum and redeemer encoders *)

(** The sample serialiser and its decoder are inverse. *)








(** * Further properties of the badge service *)

(** ** Shared facts about runs *)

Lemma mintBadge_ledger_event w hint level action ev :
  isLedgerCall ev = true ->
  In ev (trace (mintBadge w hint level action)) ->
  exists owner c,
    getBackendPaymentKeyHashHex w = Ok owner
    /\ outcome (resolveContext w owner level) = Ok c
    /\ In ev (trace (dispatch w c owner level (default "Init" action)))
    /\ outcome (mintBadge w hint level action)
       = outcome (dispatch w c owner level (default "Init" action)).
Proof.
  intros Hev. rewrite mintBadge_phases.
  destruct (getBackendPaymentKeyHashHex w) as [owner|e]; [|intros []].
  cbn zeta.
  pose proof (before_dispatch_no_ledger_call w hint owner level action) as Hb.
  set (before := trace (checkOwnerHint hint owner) ++ _) in *.
  destruct (outcome (resolveContext w owner level)) as [c|e] eqn:Hc;
    cbn [trace outcome fst snd].
  - intros Hin%(ledger_call_after _ _ _ Hb Hev). exists owner, c. auto.
  - intros Hin. rewrite (count_zero_not_In _ _ _ Hb Hin) in Hev. discriminate.
Qed.

Lemma mintBadge_resolved w hint level action owner c :
  getBackendPaymentKeyHashHex w = Ok owner ->
  outcome (resolveContext w owner level) = Ok c ->
  mintBadge w hint level action
  = ((trace (checkOwnerHint hint owner) ++ entryLog owner level action
      :: trace (resolveContext w owner level))
     ++ trace (dispatch w c owner level (default "Init" action)),
     outcome (dispatch w c owner level (default "Init" action))).
Proof. intros Hk Hc. rewrite mintBadge_phases, Hk. cbn zeta. now rewrite Hc. Qed.

Lemma mintBadge_unresolved w hint level action owner e :
  getBackendPaymentKeyHashHex w = Ok owner ->
  outcome (resolveContext w owner level) = Throw e ->
  mintBadge w hint level action
  = (trace (checkOwnerHint hint owner) ++ entryLog owner level action
     :: trace (resolveContext w owner level), Throw e).
Proof. intros Hk Hc. rewrite mintBadge_phases, Hk. cbn zeta. now rewrite Hc. Qed.

Lemma before_dispatch_no_error_log w hint owner level action :
  count isErrorLog
    (trace (checkOwnerHint hint owner) ++ entryLog owner level action
     :: trace (resolveContext w owner level)) = O.
Proof.
  rewrite count_app.
  assert (count isErrorLog (trace (checkOwnerHint hint owner)) = O) as ->.
  { destruct (checkOwnerHint_run hint owner) as [_ [-> | (f & m & ->)]]; reflexivity. }
  cbn [count entryLog isErrorLog Nat.add].
  unfold resolveContext, loadBlueprint, getLucid. run_cases; reflexivity.
Qed.

(** ** Levels outside a byte *)

Lemma makeBadgeAssetName_level_refused owner level :
  level < 0 \/ 255 < level -> is_ok (makeBadgeAssetName owner level) = false.
Proof.
  intros Hl. unfold makeBadgeAssetName.
  destruct (requireHexBytes owner 28 "ownerVkhHex"); [|reflexivity].
  destruct (Z.ltb_spec level 0); [reflexivity|].
  destruct (Z.gtb_spec level 255); [reflexivity | lia].
Qed.

Lemma makeBadgeAssetName_level_error owner level :
  is_ok (requireHexBytes owner 28 "ownerVkhHex") = true ->
  level < 0 \/ 255 < level ->
  Js.isSafeInteger level = true ->
  makeBadgeAssetName owner level
  = Throw (Error ("level must fit in 1 byte (0..255), got '"
                  +:+ Js.showNumber level +:+ "'")).
Proof.
  intros Hr Hl _. unfold makeBadgeAssetName.
  destruct (requireHexBytes owner 28 "ownerVkhHex"); [|discriminate].
  destruct (Z.ltb_spec level 0); [reflexivity|].
  destruct (Z.gtb_spec level 255); [reflexivity | lia].
Qed.

(** A context that resolves at one level fails at another only on the
    asset name of that level. *)
Lemma resolveContext_other_level w owner level level' c e :
  outcome (resolveContext w owner level) = Ok c ->
  makeBadgeAssetName owner level' = Throw e ->
  outcome (resolveContext w owner level') = Throw e.
Proof.
  unfold resolveContext, loadBlueprint, getLucid. intros H He. revert H. rewrite He.
  run_cases; try discriminate; reflexivity.
Qed.

(** X1: where the context resolves for level 0, a level below 0 or
    above 255 makes [mintBadge] fail, whatever the action, without a
    ledger call and without an error log entry, the failure being before
    the [try] block; for a level that is a safe integer the error is the
    byte-range error that quotes the level in decimal digits. *)
Theorem mintBadge_level_out_of_range (w : Env) (hint : option string) (level : Z)
  (action : option string) (owner : string) (c0 : Context) :
  getBackendPaymentKeyHashHex w = Ok owner ->
  outcome (resolveContext w owner 0) = Ok c0 ->
  level < 0 \/ 255 < level ->
  is_ok (outcome (mintBadge w hint level action)) = false
  /\ (Js.isSafeInteger level = true ->
      outcome (mintBadge w hint level action)
      = Throw (Error ("level must fit in 1 byte (0..255), got '"
                      +:+ Js.showNumber level +:+ "'")))
  /\ count isLedgerCall (trace (mintBadge w hint level action)) = O
  /\ count isErrorLog (trace (mintBadge w hint level action)) = O.
Proof.
  intros Hk Hc Hl.
  destruct (resolveContext_ok w owner 0 c0 Hc) as (_ & Hn & _).
  apply makeBadgeAssetName_ok in Hn as (_ & Hr & _).
  assert (is_ok (requireHexBytes owner 28 "ownerVkhHex") = true) as Hr' by now rewrite Hr.
  pose proof (makeBadgeAssetName_level_refused owner level Hl) as Hno.
  destruct (makeBadgeAssetName owner level) as [n|e] eqn:He; [discriminate|].
  pose proof (resolveContext_other_level w owner 0 level c0 _ Hc He) as Hf.
  rewrite (mintBadge_unresolved w hint level action owner _ Hk Hf).
  cbn [trace outcome fst snd]. split; [reflexivity|]. split; [|split].
  - intros Hs. pose proof (makeBadgeAssetName_level_error owner level Hr' Hl Hs) as H.
    rewrite He in H. now injection H as ->.
  - apply before_dispatch_no_ledger_call.
  - apply before_dispatch_no_error_log.
Qed.

Lemma mintBadge_level_out_of_range_witness :
  outcome (mintBadge Sample.healthy None 256 (Some "Upgrade"))
  = Throw (Error "level must fit in 1 byte (0..255), got '256'")
  /\ outcome (mintBadge Sample.healthy None (-1) None)
     = Throw (Error "level must fit in 1 byte (0..255), got '-1'").
Proof.
  assert (exists c, outcome (resolveContext Sample.healthy Sample.ownerHex 0) = Ok c)
    as [c Hc] by (vm_compute; eexists; reflexivity).
  split.
  - apply (mintBadge_level_out_of_range Sample.healthy None 256 (Some "Upgrade")
             Sample.ownerHex c eq_refl Hc); [lia | reflexivity].
  - apply (mintBadge_level_out_of_range Sample.healthy None (-1) None
             Sample.ownerHex c eq_refl Hc); [lia | reflexivity].
Defined.

(** ** Actions outside the three *)

Lemma dispatch_unsupported w c owner level action :
  action <> "Init" -> action <> "Upgrade" -> action <> "Retire" ->
  dispatch w c owner level action
  = ([failureLog (Error ("Unsupported action: " +:+ action))],
     Throw (Error ("Unsupported action: " +:+ action))).
Proof.
  intros H1%String.eqb_neq H2%String.eqb_neq H3%String.eqb_neq.
  unfold dispatch. now rewrite H1, H2, H3.
Qed.

(** X2: where the key hash and the context resolve, an action other
    than Init, Upgrade and Retire makes [mintBadge] fail with the error
    that names it; the failure is the last event, in the error log, and no
    ledger call is made. *)
Theorem mintBadge_unsupported_action (w : Env) (hint : option string) (level : Z)
  (action : string) (owner : string) (c : Context) :
  getBackendPaymentKeyHashHex w = Ok owner ->
  outcome (resolveContext w owner level) = Ok c ->
  action <> "Init" -> action <> "Upgrade" -> action <> "Retire" ->
  outcome (mintBadge w hint level (Some action))
  = Throw (Error ("Unsupported action: " +:+ action))
  /\ last (trace (mintBadge w hint level (Some action)))
     = Some (failureLog (Error ("Unsupported action: " +:+ action)))
  /\ count isLedgerCall (trace (mintBadge w hint level (Some action))) = O.
Proof.
  intros Hk Hc H1 H2 H3.
  rewrite (mintBadge_resolved w hint level (Some action) owner c Hk Hc).
  change (default "Init" (Some action)) with action.
  rewrite (dispatch_unsupported w c owner level action H1 H2 H3).
  cbn [trace outcome fst snd]. split; [reflexivity|]. split.
  - apply last_snoc.
  - rewrite count_app, before_dispatch_no_ledger_call. reflexivity.
Qed.

Lemma mintBadge_unsupported_action_witness :
  outcome (mintBadge Sample.healthy None 1 (Some "Burn"))
  = Throw (Error "Unsupported action: Burn").
Proof.
  assert (exists c, outcome (resolveContext Sample.healthy Sample.ownerHex 1) = Ok c)
    as [c Hc] by (vm_compute; eexists; reflexivity).
  apply (mintBadge_unsupported_action Sample.healthy None 1 "Burn" Sample.ownerHex c
           eq_refl Hc); discriminate.
Defined.

(** ** The error log *)

Lemma dispatch_error_log w c owner level action :
  (forall r, outcome (dispatch w c owner level action) = Ok r ->
             count isErrorLog (trace (dispatch w c owner level action)) = O)
  /\ (forall e, outcome (dispatch w c owner level action) = Throw e ->
                count isErrorLog (trace (dispatch w c owner level action)) = 1%nat
                /\ last (trace (dispatch w c owner level action)) = Some (failureLog e)).
Proof.
  unfold failureLog. unfold_dispatch.
  run_cases; (split; [intros r | intros e']); try discriminate;
    intros [= <-]; try split; reflexivity.
Qed.

(** X3: [mintBadge] writes at most one error log entry. A successful
    run writes none; a failure of the key derivation or of the steps
    before the [try] block leaves as it is without an entry; a failure
    inside the [try] block is written once, as the last event, with the
    error that leaves. *)
Theorem mintBadge_error_log (w : Env) (hint : option string) (level : Z)
  (action : option string) :
  (count isErrorLog (trace (mintBadge w hint level action)) <= 1)%nat
  /\ (forall r, outcome (mintBadge w hint level action) = Ok r ->
      count isErrorLog (trace (mintBadge w hint level action)) = O)
  /\ (forall e, getBackendPaymentKeyHashHex w = Throw e ->
      mintBadge w hint level action = ([], Throw e))
  /\ (forall owner e,
      getBackendPaymentKeyHashHex w = Ok owner ->
      outcome (resolveContext w owner level) = Throw e ->
      outcome (mintBadge w hint level action) = Throw e
      /\ count isErrorLog (trace (mintBadge w hint level action)) = O)
  /\ (forall owner c e,
      getBackendPaymentKeyHashHex w = Ok owner ->
      outcome (resolveContext w owner level) = Ok c ->
      outcome (mintBadge w hint level action) = Throw e ->
      count isErrorLog (trace (mintBadge w hint level action)) = 1%nat
      /\ last (trace (mintBadge w hint level action)) = Some (failureLog e)).
Proof.
  assert (Hres : forall owner c,
    getBackendPaymentKeyHashHex w = Ok owner ->
    outcome (resolveContext w owner level) = Ok c ->
    (forall r, outcome (mintBadge w hint level action) = Ok r ->
               count isErrorLog (trace (mintBadge w hint level action)) = O)
    /\ (forall e, outcome (mintBadge w hint level action) = Throw e ->
                  count isErrorLog (trace (mintBadge w hint level action)) = 1%nat
                  /\ last (trace (mintBadge w hint level action)) = Some (failureLog e))).
  { intros owner c Hk Hc. rewrite (mintBadge_resolved w hint level action owner c Hk Hc).
    cbn [trace outcome fst snd].
    destruct (dispatch_error_log w c owner level (default "Init" action)) as [Hok Hthrow].
    split.
    - intros r Hr. rewrite count_app, before_dispatch_no_error_log. exact (Hok r Hr).
    - intros e He. destruct (Hthrow e He) as [Hn Hl].
      rewrite count_app, before_dispatch_no_error_log, Hn, last_app, Hl. auto. }
  assert (Hunres : forall owner e,
    getBackendPaymentKeyHashHex w = Ok owner ->
    outcome (resolveContext w owner level) = Throw e ->
    outcome (mintBadge w hint level action) = Throw e
    /\ count isErrorLog (trace (mintBadge w hint level action)) = O).
  { intros owner e Hk Hc. rewrite (mintBadge_unresolved w hint level action owner e Hk Hc).
    split; [reflexivity | apply before_dispatch_no_error_log]. }
  assert (Hkey : forall e, getBackendPaymentKeyHashHex w = Throw e ->
                           mintBadge w hint level action = ([], Throw e)).
  { intros e Hk. now rewrite mintBadge_phases, Hk. }
  split; [|split; [|split; [exact Hkey|split; [exact Hunres|]]]].
  - destruct (getBackendPaymentKeyHashHex w) as [owner|e] eqn:Hk.
    + destruct (outcome (resolveContext w owner level)) as [c|e] eqn:Hc.
      * destruct (Hres owner c eq_refl Hc) as [Hok Hthrow].
        destruct (outcome (mintBadge w hint level action)) as [r|e].
        -- rewrite (Hok r eq_refl). lia.
        -- rewrite (proj1 (Hthrow e eq_refl)). lia.
      * rewrite (proj2 (Hunres owner e eq_refl Hc)). lia.
    + rewrite (Hkey e eq_refl). cbn. lia.
  - intros r Hr. destruct (getBackendPaymentKeyHashHex w) as [owner|e] eqn:Hk.
    + destruct (outcome (resolveContext w owner level)) as [c|e] eqn:Hc.
      * exact (proj1 (Hres owner c eq_refl Hc) r Hr).
      * rewrite (proj1 (Hunres owner e eq_refl Hc)) in Hr. discriminate.
    + rewrite (Hkey e eq_refl) in Hr. discriminate.
  - intros owner c e Hk Hc He. exact (proj2 (Hres owner c Hk Hc) e He).
Qed.

(** ** What a run builds *)

(** The operations handed to the builder, action by action. *)
Lemma dispatch_built w c owner level action ops :
  In (Complete ops) (trace (dispatch w c owner level action)) ->
  (action = "Init"
   /\ exists mr,
       Data_to w (DConstr 0 [DBytes owner; DInt level]) = Ok mr
       /\ ops = [ AttachMintingPolicy (badgeMintPolicy c);
                  AddSignerKey owner;
                  MintAssets {[ unit_ c := 1 ]} mr;
                  PayToContract (badgeHolderAddress c) (badgeDatumCbor c)
                    (lovelaceAnd (unit_ c)) ])
  \/ (action = "Upgrade" /\ 1 <= level
      /\ exists uf ut target others mr sr datum,
          badgeUnit w (policyId c) owner (level - 1) = Ok uf
          /\ badgeUnit w (policyId c) owner level = Ok ut
          /\ utxosAtWithUnit w (badgeHolderAddress c) uf = Ok (target :: others)
          /\ Data_to w (DConstr 1 [DBytes owner; DInt (level - 1); DInt level]) = Ok mr
          /\ Data_to w (DConstr 0 [DInt level]) = Ok sr
          /\ Data_to w (DConstr 0 [DBytes owner; DInt level; DBytes (policyId c)])
             = Ok datum
          /\ ops = [ AttachMintingPolicy (badgeMintPolicy c);
                     AttachSpendingValidator (badgeHolderValidator c);
                     AddSignerKey owner;
                     CollectFrom [target] sr;
                     MintAssets (<[ ut := 1 ]> {[ uf := -1 ]}) mr;
                     PayToContract (badgeHolderAddress c) datum (lovelaceAnd ut) ])
  \/ (action = "Retire"
      /\ exists u target others mr sr,
          badgeUnit w (policyId c) owner level = Ok u
          /\ utxosAtWithUnit w (badgeHolderAddress c) u = Ok (target :: others)
          /\ Data_to w (DConstr 2 [DBytes owner; DInt level]) = Ok mr
          /\ Data_to w (DConstr 1 []) = Ok sr
          /\ ops = [ AttachMintingPolicy (badgeMintPolicy c);
                     AttachSpendingValidator (badgeHolderValidator c);
                     AddSignerKey owner;
                     CollectFrom [target] sr;
                     MintAssets {[ u := -1 ]} mr ]).
Proof.
  unfold badgeUnit. unfold_dispatch. run_cases; in_cases;
    match goal with
    | H : Complete _ = Complete _ |- _ => injection H as <-
    end.
  all: repeat match goal with
              | H : String.eqb _ _ = true |- _ => apply String.eqb_eq in H; subst
              | H : (_ <? _) = false |- _ => apply Z.ltb_ge in H
              end.
  all: first
    [ left; split; [reflexivity|]; eexists; split; [eassumption | reflexivity]
    | right; left; split; [reflexivity|]; split; [lia|]; do 7 eexists;
      repeat (split; [eassumption || reflexivity|]); reflexivity
    | right; right; split; [reflexivity|]; do 5 eexists;
      repeat (split; [eassumption || reflexivity|]); reflexivity ].
Qed.

Lemma mintBadge_built w hint level action ops :
  In (Complete ops) (trace (mintBadge w hint level action)) ->
  exists owner c,
    getBackendPaymentKeyHashHex w = Ok owner
    /\ outcome (resolveContext w owner level) = Ok c
    /\ In (Complete ops) (trace (dispatch w c owner level (default "Init" action))).
Proof.
  intros Hin.
  destruct (mintBadge_ledger_event w hint level action (Complete ops) eq_refl Hin)
    as (owner & c & Hk & Hc & Hd & _).
  exists owner, c. auto.
Qed.

Lemma resolveContext_scripts w owner level c :
  outcome (resolveContext w owner level) = Ok c ->
  exists blueprint,
    outcome (loadBlueprint w) = Ok blueprint
    /\ versionText blueprint = Some "v3"
    /\ findScript blueprint "badge_mint.badge_mint.mint" = Ok (badgeMintPolicy c)
    /\ findScript blueprint "badge_holder.badge_holder.spend"
       = Ok (badgeHolderValidator c).
Proof.
  unfold resolveContext. destruct (loadBlueprint w) as [t [bp|e]];
    cbn [bind outcome snd]; [|discriminate].
  intros H. exists bp. split; [reflexivity|]. revert H.
  unfold getLucid. run_cases; try discriminate; intros [= <-]; cbn.
  all: repeat match goal with
              | H : String.eqb _ _ = true |- _ => apply String.eqb_eq in H; subst
              end.
  all: repeat split; congruence.
Qed.

Lemma decodeBadgeAssetName_made owner level name :
  makeBadgeAssetName owner level = Ok name ->
  decodeBadgeAssetName name
  = Some (Byte.x59, level, Buffer.fromHex (normalizeHex owner)).
Proof.
  intros (Hl & _ & ->)%makeBadgeAssetName_ok. unfold decodeBadgeAssetName.
  change ("59" +:+ Buffer.toHex [levelByte level] +:+ normalizeHex owner)
    with (String (Buffer.hexDigit (Byte.to_N Byte.x59 / 16))
            (String (Buffer.hexDigit (Byte.to_N Byte.x59 mod 16))
               (String (Buffer.hexDigit (Byte.to_N (levelByte level) / 16))
                  (String (Buffer.hexDigit (Byte.to_N (levelByte level) mod 16))
                     (normalizeHex owner))))).
  now rewrite !fromHex_step, levelByte_to_N.
Qed.

Lemma makeBadgeAssetName_levels_differ owner l1 l2 n1 n2 :
  makeBadgeAssetName owner l1 = Ok n1 ->
  makeBadgeAssetName owner l2 = Ok n2 ->
  l1 <> l2 -> n1 <> n2.
Proof.
  intros H1%decodeBadgeAssetName_made H2%decodeBadgeAssetName_made Hne ->. congruence.
Qed.

(** X4: a transaction that [mintBadge] builds names the owner derived
    from the signing key as its one required signer and attaches the
    minting policy found in the bundle. For Init it spends nothing and
    attaches no spending validator; for Upgrade and Retire it attaches the
    holder validator of the bundle and spends exactly the first output that
    the query at the holder address answers with for the unit being burnt
    (the level below for Upgrade, the level itself for Retire). *)
Theorem mintBadge_signer_scripts_inputs (w : Env) (hint : option string) (level : Z)
  (action : option string) (ops : list TxOp) :
  In (Complete ops) (trace (mintBadge w hint level action)) ->
  exists owner c blueprint,
    getBackendPaymentKeyHashHex w = Ok owner
    /\ outcome (resolveContext w owner level) = Ok c
    /\ outcome (loadBlueprint w) = Ok blueprint
    /\ signersOf ops = [owner]
    /\ findScript blueprint "badge_mint.badge_mint.mint" = Ok (badgeMintPolicy c)
    /\ policiesOf ops = [badgeMintPolicy c]
    /\ ((default "Init" action = "Init"
         /\ validatorsOf ops = [] /\ inputsOf ops = [])
        \/ (exists burnt u target others redeemer,
            ((action = Some "Upgrade" /\ burnt = level - 1)
             \/ (action = Some "Retire" /\ burnt = level))
            /\ findScript blueprint "badge_holder.badge_holder.spend"
               = Ok (badgeHolderValidator c)
            /\ validatorsOf ops = [badgeHolderValidator c]
            /\ badgeUnit w (policyId c) owner burnt = Ok u
            /\ utxosAtWithUnit w (badgeHolderAddress c) u = Ok (target :: others)
            /\ inputsOf ops = [([target], redeemer)])).
Proof.
  intros Hin. destruct (mintBadge_built w hint level action ops Hin)
    as (owner & c & Hk & Hc & Hd).
  destruct (resolveContext_scripts w owner level c Hc) as (bp & Hbp & _ & Hm & Hh).
  exists owner, c, bp.
  destruct (dispatch_built w c owner level _ ops Hd)
    as [(Ha & mr & _ & ->)
       | [(Ha & Hl & uf & ut & tg & ot & mr & sr & d & Huf & _ & Hq & _ & _ & _ & ->)
         | (Ha & u & tg & ot & mr & sr & Hu & Hq & _ & _ & ->)]].
  - repeat (split; [assumption || reflexivity|]). left. auto.
  - repeat (split; [assumption || reflexivity|]). right.
    exists (level - 1), uf, tg, ot, sr. repeat (split; [assumption || reflexivity || idtac|]).
    + left. split; [|reflexivity]. apply default_action; [discriminate | exact Ha].
    + reflexivity.
  - repeat (split; [assumption || reflexivity|]). right.
    exists level, u, tg, ot, sr. repeat (split; [assumption || reflexivity || idtac|]).
    + right. split; [|reflexivity]. apply default_action; [discriminate | exact Ha].
    + reflexivity.
Qed.

Lemma mintBadge_signer_scripts_inputs_witness :
  exists ops,
    List.hd_error
      (completedOps (trace (mintBadge Sample.healthy (Some "deadbeef") 1 (Some "Upgrade"))))
    = Some ops
    /\ signersOf ops = [Sample.ownerHex]
    /\ List.map fst (inputsOf ops) = [[Sample.locked]].
Proof.
  pose (ops := List.hd []
         (completedOps
            (trace (mintBadge Sample.healthy (Some "deadbeef") 1 (Some "Upgrade"))))).
  assert (List.hd_error
            (completedOps
               (trace (mintBadge Sample.healthy (Some "deadbeef") 1 (Some "Upgrade"))))
          = Some ops) as Hops by (vm_cast_no_check (@eq_refl _ (Some ops))).
  destruct (mintBadge_signer_scripts_inputs Sample.healthy (Some "deadbeef") 1
              (Some "Upgrade") ops (completed_In _ _ Hops))
    as (owner & c & bp & Hk & _ & _ & Hs & _ & _ &
        [(Ha & _) | (b & u & tg & ot & r & _ & _ & _ & _ & Hq & Hi)]);
    [discriminate Ha|].
  injection Hk as <-. injection Hq as <- _.
  exists ops. rewrite Hi. auto.
Defined.

(** X5: the redeemers of a built transaction are those of its action,
    serialised by the ledger library: the mint redeemer is constructor 0
    of owner and level for Init, constructor 1 of owner, level - 1 and
    level for Upgrade, constructor 2 of owner and level for Retire; the
    spend redeemer is constructor 0 of the new level for Upgrade and the
    empty constructor 1 for Retire. *)
Theorem mintBadge_redeemers (w : Env) (hint : option string) (level : Z)
  (action : option string) (ops : list TxOp) :
  In (Complete ops) (trace (mintBadge w hint level action)) ->
  exists owner mintRedeemer,
    getBackendPaymentKeyHashHex w = Ok owner
    /\ mintRedeemersOf ops = [mintRedeemer]
    /\ ((default "Init" action = "Init"
         /\ Data_to w (DConstr 0 [DBytes owner; DInt level]) = Ok mintRedeemer
         /\ inputsOf ops = [])
        \/ (action = Some "Upgrade"
            /\ Data_to w (DConstr 1 [DBytes owner; DInt (level - 1); DInt level])
               = Ok mintRedeemer
            /\ exists spendRedeemer,
                Data_to w (DConstr 0 [DInt level]) = Ok spendRedeemer
                /\ List.map snd (inputsOf ops) = [spendRedeemer])
        \/ (action = Some "Retire"
            /\ Data_to w (DConstr 2 [DBytes owner; DInt level]) = Ok mintRedeemer
            /\ exists spendRedeemer,
                Data_to w (DConstr 1 []) = Ok spendRedeemer
                /\ List.map snd (inputsOf ops) = [spendRedeemer])).
Proof.
  intros Hin. destruct (mintBadge_built w hint level action ops Hin)
    as (owner & c & Hk & Hc & Hd).
  exists owner.
  destruct (dispatch_built w c owner level _ ops Hd)
    as [(Ha & mr & Hmr & ->)
       | [(Ha & Hl & uf & ut & tg & ot & mr & sr & d & _ & _ & _ & Hmr & Hsr & _ & ->)
         | (Ha & u & tg & ot & mr & sr & _ & _ & Hmr & Hsr & ->)]];
    exists mr; (split; [exact Hk|]); (split; [reflexivity|]).
  - left. auto.
  - right; left. split; [apply default_action; [discriminate | exact Ha]|].
    split; [exact Hmr|]. exists sr. auto.
  - right; right. split; [apply default_action; [discriminate | exact Ha]|].
    split; [exact Hmr|]. exists sr. auto.
Qed.

Lemma mintBadge_redeemers_witness :
  exists ops,
    List.hd_error
      (completedOps (trace (mintBadge Sample.healthy None 3 (Some "Retire")))) = Some ops
    /\ mintRedeemersOf ops
       = ["Constr(2,[h'a1a1a1a1a1a1a1a1a1a1a1a1a1a10f0f0f0f0f0f0f0f0f0f0f0f0f0f';3;])"]
    /\ List.map snd (inputsOf ops) = ["Constr(1,[])"].
Proof.
  pose (ops := List.hd []
         (completedOps (trace (mintBadge Sample.healthy None 3 (Some "Retire"))))).
  assert (List.hd_error
            (completedOps (trace (mintBadge Sample.healthy None 3 (Some "Retire"))))
          = Some ops) as Hops by (vm_cast_no_check (@eq_refl _ (Some ops))).
  destruct (mintBadge_redeemers Sample.healthy None 3 (Some "Retire") ops
              (completed_In _ _ Hops))
    as (owner & mr & Hk & Hm & [(Ha & _) | [(Ha & _) | (_ & Hmr & sr & Hsr & Hi)]]);
    [discriminate Ha | discriminate Ha |].
  injection Hk as <-. injection Hmr as <-. injection Hsr as <-.
  exists ops. auto.
Defined.

(** X6: an Init or Upgrade transaction creates one output, at the
    holder address that the ledger library derives from the holder
    validator. Its inline datum is the serialised constructor 0 of the
    owner, the requested level and the policy id; it holds one token of
    the very unit the transaction mints one of, and 2,000,000 lovelace
    unless that unit is named lovelace. *)
Theorem mintBadge_locked_output (w : Env) (hint : option string) (level : Z)
  (action : option string) (ops : list TxOp) :
  In (Complete ops) (trace (mintBadge w hint level action)) ->
  action <> Some "Retire" ->
  exists owner c u minted datum locked,
    getBackendPaymentKeyHashHex w = Ok owner
    /\ outcome (resolveContext w owner level) = Ok c
    /\ validatorToAddress w (badgeHolderValidator c) = Ok (badgeHolderAddress c)
    /\ badgeUnit w (policyId c) owner level = Ok u
    /\ mintsOf ops = [minted]
    /\ minted !! u = Some 1
    /\ outputsOf ops = [(badgeHolderAddress c, locked)]
    /\ locked !! u = Some 1
    /\ (u <> "lovelace" -> locked !! "lovelace" = Some 2000000 /\ size locked = 2%nat)
    /\ datumsOf ops = [datum]
    /\ Data_to w (DConstr 0 [DBytes owner; DInt level; DBytes (policyId c)]) = Ok datum.
Proof.
  intros Hin Hnr. destruct (mintBadge_built w hint level action ops Hin)
    as (owner & c & Hk & Hc & Hd).
  destruct (resolveContext_ok w owner level c Hc) as (_ & Hn & Hu & Ha & Hdat).
  assert (Hlov : forall u : string,
    lovelaceAnd u !! u = Some 1
    /\ (u <> "lovelace" -> lovelaceAnd u !! "lovelace" = Some 2000000
                           /\ size (lovelaceAnd u) = 2%nat)).
  { intros u. unfold lovelaceAnd. split; [apply lookup_insert_eq|]. intros Hne. split.
    - rewrite lookup_insert_ne by exact Hne. apply lookup_singleton_eq.
    - rewrite map_size_insert_None, map_size_singleton; [reflexivity|].
      rewrite lookup_singleton_ne; [reflexivity | congruence]. }
  destruct (dispatch_built w c owner level _ ops Hd)
    as [(Hact & mr & Hmr & ->)
       | [(Hact & Hl & uf & ut & tg & ot & mr & sr & d & _ & Hut & _ & _ & _ & Hd' & ->)
         | (Hact & _)]].
  - exists owner, c, (unit_ c), {[ unit_ c := 1 ]}, (badgeDatumCbor c), (lovelaceAnd (unit_ c)).
    destruct (Hlov (unit_ c)) as [H1 H2].
    repeat (split; [assumption || reflexivity || idtac|]); try exact Hdat.
    + unfold badgeUnit. now rewrite Hn.
    + apply lookup_singleton_eq.
  - exists owner, c, ut, (<[ ut := 1 ]> {[ uf := -1 ]}), d, (lovelaceAnd ut).
    destruct (Hlov ut) as [H1 H2].
    repeat (split; [assumption || reflexivity || idtac|]); try exact Hd'.
    apply lookup_insert_eq.
  - exfalso. apply Hnr. apply default_action; [discriminate | exact Hact].
Qed.

Lemma mintBadge_locked_output_witness :
  exists ops u locked,
    List.hd_error
      (completedOps (trace (mintBadge Sample.healthy None 0 None))) = Some ops
    /\ u = Sample.policy +:+ "5900" +:+ Sample.ownerHex
    /\ outputsOf ops = [(Sample.holder, locked)]
    /\ locked !! u = Some 1
    /\ datumsOf ops
       = ["Constr(0,[h'a1a1a1a1a1a1a1a1a1a1a1a1a1a10f0f0f0f0f0f0f0f0f0f0f0f0f0f';0;h'c0ffee00c0ffee00c0ffee00c0ffee00c0ffee00c0ffee00c0ffee00';])"].
Proof.
  pose (ops := List.hd []
         (completedOps (trace (mintBadge Sample.healthy None 0 None)))).
  assert (List.hd_error (completedOps (trace (mintBadge Sample.healthy None 0 None)))
          = Some ops) as Hops by (vm_cast_no_check (@eq_refl _ (Some ops))).
  assert (None <> Some "Retire") as Hnr by discriminate.
  destruct (mintBadge_locked_output Sample.healthy None 0 None ops
              (completed_In _ _ Hops) Hnr)
    as (owner & c & u & minted & datum & locked & Hk & Hc & Ha & Hu & _ & _ & Ho & Hl & _
        & Hd & Hdat).
  change (Ok Sample.ownerHex = Ok owner) in Hk. injection Hk as <-.
  assert (policyId c = Sample.policy) as Hp.
  { destruct (resolveContext_ok _ _ _ _ Hc) as (Hp & _). cbn in Hp. congruence. }
  rewrite Hp in Hu, Hdat. injection Ha as Ha. rewrite <- Ha in Ho.
  injection Hdat as <-.
  assert (u = Sample.policy +:+ "5900" +:+ Sample.ownerHex) as Hu'.
  { assert (badgeUnit Sample.healthy Sample.policy Sample.ownerHex 0
            = Ok (Sample.policy +:+ "5900" +:+ Sample.ownerHex)) as E by reflexivity.
    congruence. }
  exists ops, u, locked. auto.
Defined.

(** X7: the asset names of one owner at two different levels differ,
    so when the ledger library's [toUnit] gives different units to
    different asset names, the mint map of an Upgrade always has exactly
    two entries: -1 for the unit of the level below and +1 for the unit of
    the requested level. *)
Theorem mintBadge_upgrade_two_entries (w : Env) (hint : option string) (level : Z)
  (ops : list TxOp) :
  (forall policy a b u, toUnit w policy a = Ok u -> toUnit w policy b = Ok u -> a = b) ->
  In (Complete ops) (trace (mintBadge w hint level (Some "Upgrade"))) ->
  exists owner c nameFrom nameTo uf ut minted,
    getBackendPaymentKeyHashHex w = Ok owner
    /\ outcome (resolveContext w owner level) = Ok c
    /\ makeBadgeAssetName owner (level - 1) = Ok nameFrom
    /\ makeBadgeAssetName owner level = Ok nameTo
    /\ nameFrom <> nameTo
    /\ toUnit w (policyId c) nameFrom = Ok uf
    /\ toUnit w (policyId c) nameTo = Ok ut
    /\ uf <> ut
    /\ mintsOf ops = [minted]
    /\ minted !! uf = Some (-1)
    /\ minted !! ut = Some 1
    /\ size minted = 2%nat.
Proof.
  intros Hinj Hin. destruct (mintBadge_built w hint level _ ops Hin)
    as (owner & c & Hk & Hc & Hd).
  destruct (dispatch_built w c owner level _ ops Hd)
    as [(Ha & _)
       | [(_ & Hl & uf & ut & tg & ot & mr & sr & d & Huf & Hut & _ & _ & _ & _ & ->)
         | (Ha & _)]]; [discriminate Ha | | discriminate Ha].
  unfold badgeUnit in Huf, Hut.
  destruct (makeBadgeAssetName owner (level - 1)) as [nf|] eqn:Hnf; [|discriminate].
  destruct (makeBadgeAssetName owner level) as [nt|] eqn:Hnt; [|discriminate].
  assert (nf <> nt) as Hne
    by (apply (makeBadgeAssetName_levels_differ owner (level - 1) level); auto; lia).
  assert (uf <> ut) as Hue.
  { intros ->. apply Hne. exact (Hinj _ _ _ _ Huf Hut). }
  exists owner, c, nf, nt, uf, ut, (<[ ut := 1 ]> {[ uf := -1 ]}).
  repeat (split; [assumption || reflexivity|]).
  split; [|split].
  - rewrite lookup_insert_ne by congruence. apply lookup_singleton_eq.
  - apply lookup_insert_eq.
  - rewrite map_size_insert_None, map_size_singleton; [reflexivity|].
    rewrite lookup_singleton_ne; [reflexivity | exact Hue].
Qed.

Lemma mintBadge_upgrade_two_entries_witness :
  exists ops minted,
    List.hd_error
      (completedOps (trace (mintBadge Sample.healthy None 4 (Some "Upgrade")))) = Some ops
    /\ mintsOf ops = [minted]
    /\ size minted = 2%nat.
Proof.
  pose (ops := List.hd []
         (completedOps (trace (mintBadge Sample.healthy None 4 (Some "Upgrade"))))).
  assert (List.hd_error
            (completedOps (trace (mintBadge Sample.healthy None 4 (Some "Upgrade"))))
          = Some ops) as Hops by (vm_cast_no_check (@eq_refl _ (Some ops))).
  assert (forall policy a b u,
            toUnit Sample.healthy policy a = Ok u ->
            toUnit Sample.healthy policy b = Ok u -> a = b) as Hinj.
  { intros policy a b u [= Ha] [= Hb]. rewrite <- Hb in Ha.
    exact (String.app_inj policy a b Ha). }
  destruct (mintBadge_upgrade_two_entries Sample.healthy None 4 ops Hinj
              (completed_In _ _ Hops))
    as (owner & c & nf & nt & uf & ut & minted & _ & _ & _ & _ & _ & _ & _ & _ & Hm & _ & _
        & Hs).
  exists ops, minted. auto.
Defined.

(** ** Successful runs *)

Lemma count_rev p t : count p (rev t) = count p t.
Proof.
  induction t as [|x l IH]; [reflexivity|].
  cbn [rev]. rewrite count_app, IH. cbn [count]. destruct (p x); lia.
Qed.

Lemma dispatch_success w c owner level action r :
  outcome (dispatch w c owner level action) = Ok r ->
  exists ops tx signed earlier,
    rev (trace (dispatch w c owner level action))
    = Submit signed :: Sign tx :: Complete ops :: earlier
    /\ count isComplete earlier = O /\ count isSign earlier = O
    /\ count isSubmit earlier = O
    /\ complete w ops = Ok tx /\ sign w tx = Ok signed
    /\ submit w signed = Ok (res_txHash r)
    /\ res_success r = true /\ res_action r = action /\ res_level r = level
    /\ res_policyId r = policyId c
    /\ res_badgeHolderAddress r = badgeHolderAddress c.
Proof.
  unfold_dispatch. run_cases; try discriminate; intros [= <-];
    do 4 eexists; (split; [cbn [rev app]; reflexivity|]);
    repeat (split; [eassumption || reflexivity|]); reflexivity.
Qed.

(** X8: a run of [mintBadge] that succeeds has built, signed and
    submitted exactly one transaction, in this order and as its last three
    events, each step taking the answer of the one before; the
    transaction hash of the result is the answer of the submission, and
    the result carries the action, the level, a level within a byte, the
    policy id and the holder address of the context. *)
Theorem mintBadge_success (w : Env) (hint : option string) (level : Z)
  (action : option string) (r : MintResult) :
  outcome (mintBadge w hint level action) = Ok r ->
  exists owner c ops tx signed earlier,
    trace (mintBadge w hint level action)
    = earlier ++ [Complete ops; Sign tx; Submit signed]
    /\ count isComplete earlier = O /\ count isSign earlier = O
    /\ count isSubmit earlier = O
    /\ complete w ops = Ok tx /\ sign w tx = Ok signed
    /\ submit w signed = Ok (res_txHash r)
    /\ res_success r = true
    /\ res_action r = default "Init" action
    /\ res_level r = level /\ 0 <= level <= 255
    /\ getBackendPaymentKeyHashHex w = Ok owner
    /\ res_ownerVkhHex r = owner
    /\ outcome (resolveContext w owner level) = Ok c
    /\ res_policyId r = policyId c
    /\ res_badgeHolderAddress r = badgeHolderAddress c.
Proof.
  intros Hr.
  destruct (getBackendPaymentKeyHashHex w) as [owner|e] eqn:Hk.
  2: { rewrite mintBadge_phases, Hk in Hr. discriminate. }
  destruct (outcome (resolveContext w owner level)) as [c|e] eqn:Hc.
  2: { rewrite (mintBadge_unresolved w hint level action owner e Hk Hc) in Hr.
       discriminate. }
  rewrite (mintBadge_resolved w hint level action owner c Hk Hc) in Hr |- *.
  cbn [trace outcome fst snd] in Hr |- *.
  pose proof (before_dispatch_no_ledger_call w hint owner level action) as Hb.
  set (before := trace (checkOwnerHint hint owner) ++ _) in *.
  destruct (count_ledger_split _ Hb) as (_ & Hbc & Hbs & Hbb).
  destruct (dispatch_success w c owner level _ r Hr)
    as (ops & tx & signed & earlier & Hrev & H1 & H2 & H3 & H4 & H5 & H6 & H7 & H8 & H9
        & H10 & H11).
  destruct (resolveContext_ok w owner level c Hc) as (_ & (Hl & _)%makeBadgeAssetName_ok & _).
  exists owner, c, ops, tx, signed, (before ++ rev earlier).
  rewrite !count_app, !count_rev, Hbc, Hbs, Hbb, H1, H2, H3.
  repeat (split; [assumption || reflexivity || idtac|]);
    try (apply (dispatch_owner w c owner level _ r Hr)); try assumption.
  rewrite <- (rev_involutive (trace (dispatch w c owner level (default "Init" action)))),
    Hrev. cbn [rev]. now rewrite <- !app_assoc.
Qed.

Lemma mintBadge_success_witness :
  exists r,
    outcome (mintBadge Sample.healthy None 0 None) = Ok r
    /\ res_txHash r = "7x-hash"
    /\ res_action r = "Init".
Proof.
  assert (exists r, outcome (mintBadge Sample.healthy None 0 None) = Ok r) as [r Hr]
    by (vm_compute; eexists; reflexivity).
  destruct (mintBadge_success Sample.healthy None 0 None r Hr)
    as (owner & c & ops & tx & signed & earlier & _ & _ & _ & _ & _ & _ & Hsub & _ & Ha & _).
  injection Hsub as Hsub. exists r. auto.
Defined.

(** ** The owner hint *)

(** X9: the owner hint is only compared, and what it leaves in a run
    of [mintBadge] is the warning written before anything else. No hint, an empty hint, or a
    hint that cleans to the derived owner hash (whatever its case, 0x
    prefix or surrounding white space) leaves no warning; a hint of 28
    bytes of hex that cleans to another hash leaves the one warning that
    it is ignored, with both hashes; any other hint leaves the one warning
    that it is invalid, with the hint as given and the validator's
    message. *)
Theorem checkOwnerHint_warnings (hint : option string) (owner : string) :
  (forall w level action,
     getBackendPaymentKeyHashHex w = Ok owner ->
     trace (mintBadge w hint level action)
     = trace (checkOwnerHint hint owner) ++ trace (mintBadge w None level action))
  /\ (hint = None \/ hint = Some EmptyString -> trace (checkOwnerHint hint owner) = [])
  /\ (forall h, hint = Some h -> h <> EmptyString ->
      is_ok (requireHexBytes h 28 "ownerVkhHex") = true ->
      (normalizeHex h = owner -> trace (checkOwnerHint hint owner) = [])
      /\ (normalizeHex h <> owner ->
          trace (checkOwnerHint hint owner)
          = [Log Warn [("requestedOwnerVkhHex", LStr (normalizeHex h));
                       ("ownerKeyHashHex", LStr owner)]
               "Ignoring provided ownerVkhHex; using server signing key"]))
  /\ (forall h, hint = Some h -> h <> EmptyString ->
      is_ok (requireHexBytes h 28 "ownerVkhHex") = false ->
      trace (checkOwnerHint hint owner)
      = [Log Warn [("ownerVkhHex", LStr h);
                   ("error",
                    LStr ("Error: ownerVkhHex must be 28 bytes hex (length 56), got '"
                          +:+ h +:+ "'"))]
           "Invalid ownerVkhHex provided; using server signing key"]).
Proof.
  split; [|split; [|split]].
  - intros w level action Hk. rewrite !(mintBadge_phases w), Hk. cbn zeta.
    change (trace (checkOwnerHint None owner)) with (@nil Event). cbn [app].
    destruct (outcome (resolveContext w owner level)); cbn [trace fst];
      now rewrite <- ?app_assoc.
  - intros [-> | ->]; reflexivity.
  - intros h -> Hne Hok. unfold checkOwnerHint.
    assert (truthy h = true) as -> by (destruct h; [contradiction | reflexivity]).
    destruct (requireHexBytes h 28 "ownerVkhHex") as [req|e] eqn:E; [|discriminate].
    apply requireHexBytes_ok in E as (-> & _ & _). split.
    + intros ->. now rewrite String.eqb_refl.
    + intros Hd%String.eqb_neq. now rewrite Hd.
  - intros h -> Hne Hbad. unfold checkOwnerHint.
    assert (truthy h = true) as -> by (destruct h; [contradiction | reflexivity]).
    rewrite requireHexBytes_cases in Hbad |- *.
    destruct (isHex (normalizeHex h)
              && (Z.of_nat (String.length (normalizeHex h)) =? 28 * 2)); [discriminate|].
    reflexivity.
Qed.

Lemma checkOwnerHint_warnings_witness :
  trace (checkOwnerHint (Some " 0XA1A1A1A1A1A1A1A1A1A1A1A1A1A10F0F0F0F0F0F0F0F0F0F0F0F0F0F")
           Sample.ownerHex) = []
  /\ trace (checkOwnerHint (Some "me") Sample.ownerHex)
     = [Log Warn [("ownerVkhHex", LStr "me");
                  ("error",
                   LStr "Error: ownerVkhHex must be 28 bytes hex (length 56), got 'me'")]
          "Invalid ownerVkhHex provided; using server signing key"].
Proof.
  split.
  - destruct (checkOwnerHint_warnings
                (Some " 0XA1A1A1A1A1A1A1A1A1A1A1A1A1A10F0F0F0F0F0F0F0F0F0F0F0F0F0F")
                Sample.ownerHex) as (_ & _ & H & _).
    apply (H _ eq_refl); [discriminate | reflexivity | reflexivity].
  - destruct (checkOwnerHint_warnings (Some "me") Sample.ownerHex) as (_ & _ & _ & H).
    apply (H _ eq_refl); [discriminate | reflexivity].
Defined.

(** ** The contract bundle *)

Lemma find_first {A} (f : A -> bool) (l : list A) (v : A) :
  List.find f l = Some v <->
  exists before after,
    l = before ++ v :: after /\ f v = true /\ forallb (fun x => negb (f x)) before = true.
Proof.
  induction l as [|x r IH]; cbn [List.find].
  - split; [discriminate|]. intros (b & a & H & _). destruct b; discriminate.
  - destruct (f x) eqn:Hx.
    + split.
      * intros [= <-]. exists [], r. auto.
      * intros ([|y b] & a & H & Hv & Hb).
        -- injection H as -> _. reflexivity.
        -- injection H as -> _. cbn in Hb. rewrite Hx in Hb. discriminate.
    + rewrite IH. split.
      * intros (b & a & -> & Hv & Hb). exists (x :: b), a. cbn. now rewrite Hx.
      * intros ([|y b] & a & H & Hv & Hb).
        -- injection H as -> _. congruence.
        -- injection H as -> ->. cbn in Hb. apply andb_prop in Hb as [_ Hb]. eauto.
Qed.

(** X10: [findScript] answers with the compiled code of the first
    entry of the bundle that carries the title, as a Plutus V3 script,
    exactly when that first entry has code that is not empty; entries
    after it are not looked at, and every failure is the error that names
    the title. *)
Theorem findScript_first_titled (blueprint : Blueprint) (t : string) :
  (forall s,
     findScript blueprint t = Ok s <->
     exists before v after,
       validators blueprint = Some (before ++ v :: after)
       /\ forallb (fun x => negb (hasTitle t x)) before = true
       /\ title v = Some t
       /\ compiledCode v = Some (script s)
       /\ script s <> EmptyString
       /\ script_type s = "PlutusV3")
  /\ (forall e,
      findScript blueprint t = Throw e ->
      e = Error ("Compiled script not found in cardano-contract/plutus.json: " +:+ t))
  /\ (forall before v after,
      validators blueprint = Some (before ++ v :: after) ->
      forallb (fun x => negb (hasTitle t x)) before = true ->
      title v = Some t ->
      compiledCode v = None \/ compiledCode v = Some EmptyString ->
      is_ok (findScript blueprint t) = false).
Proof.
  assert (Hfound : forall before v after,
    validators blueprint = Some (before ++ v :: after) ->
    forallb (fun x => negb (hasTitle t x)) before = true ->
    title v = Some t ->
    findScript blueprint t =
      match compiledCode v with
      | Some code =>
          if truthy code then Ok {| script_type := "PlutusV3"; script := code |}
          else Throw (Error ("Compiled script not found in cardano-contract/plutus.json: "
                             +:+ t))
      | None => Throw (Error ("Compiled script not found in cardano-contract/plutus.json: "
                              +:+ t))
      end).
  { intros before v after Hv Hb Ht. unfold findScript. rewrite Hv.
    assert (List.find (hasTitle t) (before ++ v :: after) = Some v) as ->.
    { apply find_first. exists before, after. repeat split; [|exact Hb].
      unfold hasTitle. rewrite Ht. apply String.eqb_refl. }
    destruct v as [vt [code|]]; reflexivity. }
  split; [|split].
  - intros s. split.
    + unfold findScript. destruct (validators blueprint) as [vs|]; [|discriminate].
      destruct (List.find (hasTitle t) vs) as [[vt [code|]]|] eqn:Hf; try discriminate.
      destruct (truthy code) eqn:Hc; [|discriminate]. intros [= <-].
      apply find_first in Hf as (b & a & -> & Hv & Hb).
      exists b, {| title := vt; compiledCode := Some code |}, a.
      repeat split; try assumption.
      * unfold hasTitle in Hv. cbn in Hv. destruct vt as [t'|]; [|discriminate].
        apply String.eqb_eq in Hv. now subst.
      * cbn. intros ->. discriminate.
    + intros (b & v & a & Hv & Hb & Ht & Hc & Hne & Hty).
      rewrite (Hfound b v a Hv Hb Ht), Hc.
      destruct s as [ty code]. cbn in *. subst ty.
      destruct code; [contradiction | reflexivity].
  - intros e. unfold findScript.
    destruct (match validators blueprint with
              | Some vs => List.find (hasTitle t) vs
              | None => None
              end) as [[vt [code|]]|]; try (intros [= <-]; reflexivity).
    destruct (truthy code); [discriminate | intros [= <-]; reflexivity].
  - intros b v a Hv Hb Ht Hc. rewrite (Hfound b v a Hv Hb Ht).
    destruct Hc as [-> | ->]; reflexivity.
Qed.

Lemma findScript_first_titled_witness :
  findScript Sample.bundle "badge_mint.badge_mint.mint"
  = Ok {| script_type := "PlutusV3"; script := "5902bb" |}.
Proof.
  apply (proj1 (findScript_first_titled Sample.bundle "badge_mint.badge_mint.mint")).
  exists [ {| title := Some "badge_holder.badge_holder.spend";
              compiledCode := Some "5901aa" |} ],
         {| title := Some "badge_mint.badge_mint.mint"; compiledCode := Some "5902bb" |},
         [].
  repeat split; discriminate.
Defined.

(** ** Reading the bundle and connecting the client *)

Lemma dispatch_no_setup_event w c owner level action :
  count isRead (trace (dispatch w c owner level action)) = O
  /\ count isConnect (trace (dispatch w c owner level action)) = O.
Proof. unfold_dispatch. run_cases; split; reflexivity. Qed.

Lemma mintBadge_setup_events w hint level action (p : Event -> bool) :
  (forall lvl fields msg, p (Log lvl fields msg) = false) ->
  (forall c owner, count p (trace (dispatch w c owner level (default "Init" action))) = O) ->
  count p (trace (mintBadge w hint level action))
  = match getBackendPaymentKeyHashHex w with
    | Ok owner => count p (trace (resolveContext w owner level))
    | Throw _ => O
    end.
Proof.
  intros Hlog Hd. rewrite mintBadge_phases.
  destruct (getBackendPaymentKeyHashHex w) as [owner|e]; [|reflexivity]. cbn zeta.
  assert (count p (trace (checkOwnerHint hint owner)) = O) as Hh.
  { destruct (checkOwnerHint_run hint owner) as [_ [-> | (f & m & ->)]];
      [reflexivity | cbn; now rewrite Hlog]. }
  assert (He : forall t, count p (entryLog owner level action :: t) = count p t).
  { intros t. unfold entryLog. cbn [count]. now rewrite Hlog. }
  destruct (outcome (resolveContext w owner level)) as [c|e]; cbn [trace fst];
    rewrite ?(count_app p (_ ++ _)), (count_app p (trace (checkOwnerHint hint owner))),
      Hh, He, ?Hd; lia.
Qed.

Lemma resolveContext_at_most_once w owner level :
  (count isRead (trace (resolveContext w owner level)) <= 1)%nat
  /\ (count isConnect (trace (resolveContext w owner level)) <= 1)%nat.
Proof.
  unfold resolveContext, loadBlueprint, getLucid. run_cases; cbn; lia.
Qed.

Lemma resolveContext_cached w owner level :
  (blueprintPromise w <> None ->
   count isRead (trace (resolveContext w owner level)) = O)
  /\ (lucidPromise w <> None ->
      count isConnect (trace (resolveContext w owner level)) = O).
Proof.
  unfold resolveContext, loadBlueprint, getLucid.
  run_cases; split; intros H; try reflexivity; congruence.
Qed.

Lemma resolveContext_unconfigured w owner level :
  lucidPromise w = None -> is_ok (assertBlockchainEnv w) = false ->
  count isConnect (trace (resolveContext w owner level)) = O
  /\ is_ok (outcome (resolveContext w owner level)) = false.
Proof.
  unfold resolveContext, loadBlueprint, getLucid. intros -> Ha.
  destruct (assertBlockchainEnv w); [discriminate|].
  run_cases; split; reflexivity.
Qed.

Lemma resolveContext_version w owner level blueprint :
  outcome (loadBlueprint w) = Ok blueprint ->
  versionText blueprint <> Some "v3" ->
  resolveContext w owner level
  = (trace (loadBlueprint w),
     Throw (Error ("Expected Plutus V3 blueprint at cardano-contract/plutus.json, got "
                   +:+ default "undefined" (versionText blueprint)))).
Proof.
  intros Hb Hv. unfold resolveContext.
  destruct (loadBlueprint w) as [t [bp|e]]; cbn [outcome snd] in Hb; [|discriminate].
  injection Hb as ->. unfold bind at 1. cbn [trace fst].
  match goal with |- context [bind _ ?k] => generalize k end. intros k.
  revert Hv. generalize (versionText blueprint). intros v Hv.
  repeat (cbn [throw ret bind]; case_step); cbn [throw ret bind];
    rewrite ?app_nil_r; try reflexivity.
  all: exfalso; apply Hv; reflexivity.
Qed.

Lemma loadBlueprint_trace w :
  trace (loadBlueprint w) = [] \/ trace (loadBlueprint w) = [ReadBlueprint].
Proof. unfold loadBlueprint. destruct (blueprintPromise w); auto. Qed.

Lemma resolveContext_config w owner level blueprint e :
  outcome (loadBlueprint w) = Ok blueprint ->
  versionText blueprint = Some "v3" ->
  is_ok (findScript blueprint "badge_mint.badge_mint.mint") = true ->
  is_ok (findScript blueprint "badge_holder.badge_holder.spend") = true ->
  lucidPromise w = None ->
  assertBlockchainEnv w = Throw e ->
  resolveContext w owner level = (trace (loadBlueprint w), Throw e).
Proof.
  intros Hb Hv Hm Hh Hl Ha. unfold resolveContext, getLucid.
  destruct (loadBlueprint w) as [t [bp|e']]; cbn [outcome snd] in Hb; [|discriminate].
  injection Hb as ->. unfold bind at 1. rewrite Hv, Hl, Ha.
  destruct (findScript blueprint "badge_mint.badge_mint.mint"); [|discriminate].
  destruct (findScript blueprint "badge_holder.badge_holder.spend"); [|discriminate].
  cbn [ret lift bind app trace fst]. now rewrite app_nil_r.
Qed.

(** X11: one call of [mintBadge] reads the contract bundle at most
    once and connects the ledger client at most once; with the bundle
    already loaded it reads nothing and with the client already connected
    it connects nothing. Without a cached client and with a configuration
    that [assertBlockchainEnv] refuses, the call fails without connecting
    and without any ledger call. *)
Theorem mintBadge_setup_calls (w : Env) (hint : option string) (level : Z)
  (action : option string) :
  (count isRead (trace (mintBadge w hint level action)) <= 1)%nat
  /\ (count isConnect (trace (mintBadge w hint level action)) <= 1)%nat
  /\ (blueprintPromise w <> None ->
      count isRead (trace (mintBadge w hint level action)) = O)
  /\ (lucidPromise w <> None ->
      count isConnect (trace (mintBadge w hint level action)) = O)
  /\ (lucidPromise w = None -> is_ok (assertBlockchainEnv w) = false ->
      is_ok (outcome (mintBadge w hint level action)) = false
      /\ count isConnect (trace (mintBadge w hint level action)) = O
      /\ count isLedgerCall (trace (mintBadge w hint level action)) = O).
Proof.
  assert (Hr := mintBadge_setup_events w hint level action isRead
                  (fun _ _ _ => eq_refl)
                  (fun c owner => proj1 (dispatch_no_setup_event w c owner level _))).
  assert (Hc := mintBadge_setup_events w hint level action isConnect
                  (fun _ _ _ => eq_refl)
                  (fun c owner => proj2 (dispatch_no_setup_event w c owner level _))).
  rewrite Hr, Hc.
  destruct (getBackendPaymentKeyHashHex w) as [owner|e] eqn:Hk.
  - destruct (resolveContext_at_most_once w owner level) as [H1 H2].
    destruct (resolveContext_cached w owner level) as [H3 H4].
    repeat (split; [assumption|]).
    intros Hl Ha. destruct (resolveContext_unconfigured w owner level Hl Ha) as [H5 H6].
    destruct (outcome (resolveContext w owner level)) as [c|e] eqn:Ho; [discriminate|].
    rewrite (mintBadge_unresolved w hint level action owner e Hk Ho).
    repeat split; [exact H5 | apply before_dispatch_no_ledger_call].
  - repeat split; try lia. all: rewrite mintBadge_phases, Hk; reflexivity.
Qed.

(** X12: where the key hash is derived and the bundle is loaded, a
    bundle whose preamble does not say version v3 makes [mintBadge] fail
    with the error that quotes the version found, or the word undefined
    when there is none; nothing is connected, no ledger call is made and
    no error log entry is written. *)
Theorem mintBadge_wrong_bundle_version (w : Env) (hint : option string) (level : Z)
  (action : option string) (owner : string) (blueprint : Blueprint) :
  getBackendPaymentKeyHashHex w = Ok owner ->
  outcome (loadBlueprint w) = Ok blueprint ->
  versionText blueprint <> Some "v3" ->
  outcome (mintBadge w hint level action)
  = Throw (Error ("Expected Plutus V3 blueprint at cardano-contract/plutus.json, got "
                  +:+ default "undefined" (versionText blueprint)))
  /\ count isConnect (trace (mintBadge w hint level action)) = O
  /\ count isLedgerCall (trace (mintBadge w hint level action)) = O
  /\ count isErrorLog (trace (mintBadge w hint level action)) = O.
Proof.
  intros Hk Hb Hv.
  pose proof (resolveContext_version w owner level blueprint Hb Hv) as Hrc.
  assert (Hc := mintBadge_setup_events w hint level action isConnect
                  (fun _ _ _ => eq_refl)
                  (fun c o => proj2 (dispatch_no_setup_event w c o level _))).
  rewrite Hc, Hk.
  rewrite (mintBadge_unresolved w hint level action owner _ Hk (f_equal snd Hrc)).
  cbn [trace outcome fst snd]. split; [reflexivity|]. split; [|split].
  - rewrite Hrc. cbn [trace fst].
    destruct (loadBlueprint_trace w) as [-> | ->]; reflexivity.
  - apply before_dispatch_no_ledger_call.
  - apply before_dispatch_no_error_log.
Qed.

Lemma mintBadge_wrong_bundle_version_witness :
  outcome (mintBadge sampleOutdated None 0 None)
  = Throw (Error "Expected Plutus V3 blueprint at cardano-contract/plutus.json, got v2")
  /\ outcome (mintBadge sampleBare None 0 None)
     = Throw (Error
                "Expected Plutus V3 blueprint at cardano-contract/plutus.json, got undefined").
Proof.
  split.
  - apply (mintBadge_wrong_bundle_version sampleOutdated None 0 None Sample.ownerHex
             sampleOutdatedBundle eq_refl eq_refl). discriminate.
  - apply (mintBadge_wrong_bundle_version sampleBare None 0 None Sample.ownerHex
             sampleBareBundle eq_refl eq_refl). discriminate.
Defined.

(** X13: the key hash is derived from CARDANO_SIGNING_KEY, so a
    missing or empty key stops [mintBadge] at the derivation, with the key
    library's error and before any event; the check of the key in
    [assertBlockchainEnv] is therefore never what fails in a run that
    derived the key hash, and the only configuration error such a run can
    meet is that of BLOCKFROST_PROJECT_ID. With a v3 bundle that holds both
    scripts and no cached client, a missing or empty project id makes the
    run fail with the error that names it, and nothing is connected. *)
Theorem mintBadge_unconfigured (w : Env) (hint : option string) (level : Z)
  (action : option string) :
  (configured (CARDANO_SIGNING_KEY w) = false ->
   mintBadge w hint level action = ([], Throw (keyError w (CARDANO_SIGNING_KEY w))))
  /\ (forall owner,
      getBackendPaymentKeyHashHex w = Ok owner ->
      configured (CARDANO_SIGNING_KEY w) = true
      /\ (forall e, assertBlockchainEnv w = Throw e ->
          e = Error "BLOCKFROST_PROJECT_ID is not configured")
      /\ (forall blueprint,
          outcome (loadBlueprint w) = Ok blueprint ->
          versionText blueprint = Some "v3" ->
          is_ok (findScript blueprint "badge_mint.badge_mint.mint") = true ->
          is_ok (findScript blueprint "badge_holder.badge_holder.spend") = true ->
          lucidPromise w = None ->
          configured (BLOCKFROST_PROJECT_ID w) = false ->
          outcome (mintBadge w hint level action)
          = Throw (Error "BLOCKFROST_PROJECT_ID is not configured")
          /\ count isConnect (trace (mintBadge w hint level action)) = O)).
Proof.
  assert (Hkey : configured (CARDANO_SIGNING_KEY w) = false ->
                 getBackendPaymentKeyHashHex w
                 = Throw (keyError w (CARDANO_SIGNING_KEY w))).
  { unfold getBackendPaymentKeyHashHex, paymentKeyHash, configured.
    destruct (CARDANO_SIGNING_KEY w) as [key|]; [|reflexivity].
    intros ->. reflexivity. }
  split.
  - intros Hs. rewrite mintBadge_phases, (Hkey Hs). reflexivity.
  - intros owner Hk.
    assert (configured (CARDANO_SIGNING_KEY w) = true) as Hs.
    { destruct (configured (CARDANO_SIGNING_KEY w)) eqn:E; [reflexivity|].
      rewrite (Hkey eq_refl) in Hk. discriminate. }
    split; [exact Hs|]. split.
    + intros e. unfold assertBlockchainEnv. rewrite Hs.
      destruct (configured (BLOCKFROST_PROJECT_ID w)); cbn [negb]; congruence.
    + intros blueprint Hb Hv Hm Hh Hl Hp.
      assert (assertBlockchainEnv w
              = Throw (Error "BLOCKFROST_PROJECT_ID is not configured")) as Ha.
      { unfold assertBlockchainEnv. now rewrite Hp. }
      pose proof (resolveContext_config w owner level blueprint _ Hb Hv Hm Hh Hl Ha) as Hrc.
      assert (Hc := mintBadge_setup_events w hint level action isConnect
                      (fun _ _ _ => eq_refl)
                      (fun c o => proj2 (dispatch_no_setup_event w c o level _))).
      rewrite Hc, Hk.
      rewrite (mintBadge_unresolved w hint level action owner _ Hk (f_equal snd Hrc)).
      split; [reflexivity|]. rewrite Hrc. cbn [trace fst].
      destruct (loadBlueprint_trace w) as [-> | ->]; reflexivity.
Qed.

Lemma mintBadge_unconfigured_witness :
  mintBadge sampleKeyless None 0 None = ([], Throw (Error "Invalid secret key"))
  /\ outcome (mintBadge sampleUnconfigured None 0 None)
     = Throw (Error "BLOCKFROST_PROJECT_ID is not configured")
  /\ count isConnect (trace (mintBadge sampleUnconfigured None 0 None)) = O.
Proof.
  split.
  - exact (proj1 (mintBadge_unconfigured sampleKeyless None 0 None) eq_refl).
  - destruct (mintBadge_unconfigured sampleUnconfigured None 0 None) as [_ H].
    destruct (H Sample.ownerHex eq_refl) as (_ & _ & H').
    exact (H' Sample.bundle eq_refl eq_refl eq_refl eq_refl eq_refl eq_refl).
Defined.

(** ** The owner hash and the asset name *)

Lemma requireHexBytes_toHex bs n name :
  bs <> [] -> Z.of_nat (List.length bs) = n ->
  requireHexBytes (Buffer.toHex bs) n name = Ok (Buffer.toHex bs).
Proof.
  intros Hne Hn. rewrite requireHexBytes_cases, normalizeHex_toHex, length_toHex.
  assert (isHex (Buffer.toHex bs) = true) as ->.
  { pose proof (allLowerHex_allHex _ (toHex_lower bs)) as Ha.
    destruct bs; [contradiction | exact Ha]. }
  assert ((Z.of_nat (2 * List.length bs) =? n * 2) = true) as -> by (apply Z.eqb_eq; lia).
  reflexivity.
Qed.

(** X14: [getBackendPaymentKeyHashHex] takes the hash from [to_hex]
    when the key library has it, else from [to_bytes], and fails with its
    own error when it has neither. Whenever the library gives the 28 bytes
    of the hash, by [to_bytes] or by [to_hex] in any letter case, the
    derived owner is their lower-case hex, and [makeBadgeAssetName] on it
    succeeds at every level from 0 to 255 with the hex of 0x59, the level
    byte and those 28 bytes. *)
Theorem getBackendPaymentKeyHashHex_spec (w : Env) (keyHash : KeyHashObj)
  (bs : list Byte.byte) :
  paymentKeyHash w = Ok keyHash ->
  List.length bs = 28%nat ->
  (forall h, to_hex keyHash = Some h ->
             getBackendPaymentKeyHashHex w = Ok (Js.toLowerCase h))
  /\ (to_hex keyHash = None -> to_bytes keyHash = None ->
      getBackendPaymentKeyHashHex w
      = Throw (Error "Unable to derive payment key hash from CARDANO_SIGNING_KEY"))
  /\ ((to_hex keyHash = None /\ to_bytes keyHash = Some bs)
      \/ (exists h, to_hex keyHash = Some h /\ Js.toLowerCase h = Buffer.toHex bs) ->
      getBackendPaymentKeyHashHex w = Ok (Buffer.toHex bs)
      /\ forall level, 0 <= level <= 255 ->
           makeBadgeAssetName (Buffer.toHex bs) level
           = Ok (Buffer.toHex (Byte.x59 :: levelByte level :: bs))).
Proof.
  intros Hp Hlen. unfold getBackendPaymentKeyHashHex. rewrite Hp.
  split; [|split].
  - intros h ->. reflexivity.
  - intros -> ->. reflexivity.
  - intros Hcase. split.
    + destruct Hcase as [[-> ->] | (h & -> & ->)]; [|reflexivity].
      now rewrite (allLowerHex_fix _ (toHex_lower bs)).
    + intros level Hl. rewrite makeBadgeAssetName_total; [|exact Hl|].
      * now rewrite normalizeHex_toHex.
      * rewrite requireHexBytes_toHex; [reflexivity | | now rewrite Hlen].
        destruct bs; [discriminate | discriminate].
Qed.

Lemma getBackendPaymentKeyHashHex_spec_witness :
  getBackendPaymentKeyHashHex Sample.healthy = Ok Sample.ownerHex
  /\ makeBadgeAssetName Sample.ownerHex 255
     = Ok "59ffa1a1a1a1a1a1a1a1a1a1a1a1a1a10f0f0f0f0f0f0f0f0f0f0f0f0f0f".
Proof.
  destruct (getBackendPaymentKeyHashHex_spec Sample.healthy
              {| to_hex := Some Sample.ownerHex; to_bytes := None |}
              Sample.ownerBytes eq_refl eq_refl) as (_ & _ & H).
  destruct H as [Hk Hn].
  - right. exists Sample.ownerHex. split; reflexivity.
  - split; [exact Hk|]. apply Hn. lia.
Defined.

Lemma fromHex_pair a b r :
  isHexChar a = true -> isHexChar b = true ->
  exists byte, Buffer.fromHex (String a (String b r)) = byte :: Buffer.fromHex r.
Proof.
  intros Ha Hb. cbn [Buffer.fromHex].
  assert (exists x, Buffer.hexVal a = Some x /\ (x < 16)%N) as (x & -> & Hx).
  { clear -Ha. revert Ha. destruct a as [[] [] [] [] [] [] [] []];
      try discriminate; intros _; eexists; split; try reflexivity; reflexivity. }
  assert (exists y, Buffer.hexVal b = Some y /\ (y < 16)%N) as (y & -> & Hy).
  { clear -Hb. revert Hb. destruct b as [[] [] [] [] [] [] [] []];
      try discriminate; intros _; eexists; split; try reflexivity; reflexivity. }
  destruct (Byte.of_N (16 * x + y)) as [byte|] eqn:E; [eauto|].
  apply Byte.of_N_None_iff in E. lia.
Qed.

Lemma length_fromHex s :
  allHex s = true -> List.length (Buffer.fromHex s) = Nat.div2 (String.length s).
Proof.
  revert s. fix IH 1. intros [|a [|b r]]; [reflexivity | reflexivity |].
  cbn [allHex]. intros [Ha [Hb Hr]%andb_prop]%andb_prop.
  destruct (fromHex_pair a b r Ha Hb) as (byte & ->).
  cbn [List.length String.length Nat.div2]. now rewrite (IH r Hr).
Qed.

(** X15: [makeBadgeAssetName] checks the owner hash before the level:
    an owner hash that the validator refuses gives the validator's error
    whatever the level; with an accepted owner hash a level outside 0..255
    is refused, for a safe integer with the byte-range error that quotes
    it in decimal digits; otherwise the name is 59, two lower-case hex
    digits of the level and the cleaned owner hash, 60 hex digits in all,
    which is 30 bytes and within the 32 bytes of an asset name. *)
Theorem makeBadgeAssetName_cases (ownerVkhHex : string) (level : Z) :
  (forall e, requireHexBytes ownerVkhHex 28 "ownerVkhHex" = Throw e ->
             makeBadgeAssetName ownerVkhHex level = Throw e)
  /\ (is_ok (requireHexBytes ownerVkhHex 28 "ownerVkhHex") = true ->
      level < 0 \/ 255 < level ->
      is_ok (makeBadgeAssetName ownerVkhHex level) = false
      /\ (Js.isSafeInteger level = true ->
          makeBadgeAssetName ownerVkhHex level
          = Throw (Error ("level must fit in 1 byte (0..255), got '"
                          +:+ Js.showNumber level +:+ "'"))))
  /\ (forall name, makeBadgeAssetName ownerVkhHex level = Ok name ->
      name = "59" +:+ Buffer.toHex [levelByte level] +:+ normalizeHex ownerVkhHex
      /\ String.length name = 60%nat
      /\ allLowerHex name = true
      /\ List.length (Buffer.fromHex name) = 30%nat
      /\ (List.length (Buffer.fromHex name) <= 32)%nat).
Proof.
  split; [|split].
  - intros e He. unfold makeBadgeAssetName. now rewrite He.
  - intros Hr Hl. split; [now apply makeBadgeAssetName_level_refused|].
    now apply makeBadgeAssetName_level_error.
  - intros name Hn.
    destruct (makeBadgeAssetName_ok _ _ _ Hn) as (Hl & Hr & ->).
    apply requireHexBytes_ok in Hr as (_ & Hlow & Hlen).
    assert (String.length (normalizeHex ownerVkhHex) = 56%nat) as H56 by lia.
    assert (String.length ("59" +:+ Buffer.toHex [levelByte level]
                           +:+ normalizeHex ownerVkhHex) = 60%nat) as H60.
    { rewrite !length_app, length_toHex, H56. reflexivity. }
    assert (allLowerHex ("59" +:+ Buffer.toHex [levelByte level]
                         +:+ normalizeHex ownerVkhHex) = true) as Hall.
    { rewrite !allLowerHex_app, toHex_lower, Hlow. reflexivity. }
    assert (List.length (Buffer.fromHex ("59" +:+ Buffer.toHex [levelByte level]
                                         +:+ normalizeHex ownerVkhHex)) = 30%nat) as H30.
    { rewrite length_fromHex by (apply allLowerHex_allHex, Hall). now rewrite H60. }
    repeat split; try assumption. lia.
Qed.

Lemma normalizeHex_lower s : allLowerHex s = true -> normalizeHex s = s.
Proof.
  intros Hl. pose proof (allLowerHex_allHex s Hl) as Ha.
  pose proof (normalizeHex_padded EmptyString EmptyString s EmptyString
                eq_refl eq_refl (or_introl eq_refl) Ha) as H.
  change (normalizeHex (s +:+ EmptyString) = Js.toLowerCase s) in H.
  rewrite append_empty in H. rewrite H. apply allLowerHex_fix, Hl.
Qed.

(** X16: what the validator returns is a fixed point of the
    validator: cleaning it again changes nothing, and it is accepted again
    for the same length under any field name. So the owner hash that
    [mintBadge] validates once is accepted unchanged by each later call of
    [makeBadgeAssetName]. *)
Theorem requireHexBytes_idempotent (input : string) (n : Z) (name name' : string)
  (cleaned : string) :
  requireHexBytes input n name = Ok cleaned ->
  normalizeHex cleaned = cleaned
  /\ requireHexBytes cleaned n name' = Ok cleaned
  /\ (n = 28 -> forall level, 0 <= level <= 255 ->
      makeBadgeAssetName cleaned level = makeBadgeAssetName input level).
Proof.
  intros H. pose proof H as H0. rewrite requireHexBytes_cases in H0.
  destruct (isHex (normalizeHex input)) eqn:Hx; [|discriminate].
  destruct (Z.eqb_spec (Z.of_nat (String.length (normalizeHex input))) (n * 2)) as [Hn|];
    [|discriminate].
  cbn in H0. injection H0 as <-.
  apply requireHexBytes_ok in H as (_ & Hlow & Hlen).
  pose proof (normalizeHex_lower _ Hlow) as Hfix.
  assert (Hreq : forall nm, requireHexBytes (normalizeHex input) n nm
                            = Ok (normalizeHex input)).
  { intros nm. rewrite requireHexBytes_cases, Hfix, Hx, Hn, Z.eqb_refl. reflexivity. }
  split; [exact Hfix|]. split; [apply Hreq|].
  intros -> level Hl.
  rewrite !makeBadgeAssetName_total, Hfix; try assumption; try reflexivity.
  - rewrite requireHexBytes_cases, Hx, Hn. reflexivity.
  - now rewrite Hreq.
Qed.

Lemma requireHexBytes_idempotent_witness :
  requireHexBytes "c0ffee" 3 "again" = Ok "c0ffee".
Proof.
  apply (requireHexBytes_idempotent " 0XC0FFEE " 3 "first" "again" "c0ffee" eq_refl).
Defined.

(** * The applicant store *)

Lemma persistApplicant_store h s p :
  Applicants.applicants (snd (Applicants.persistApplicant h s p))
  = Applicants.applicants s ++ [fst (Applicants.persistApplicant h s p)]
  /\ payloadOf (fst (Applicants.persistApplicant h s p)) = p
  /\ Applicants.status (fst (Applicants.persistApplicant h s p)) = Applicants.pending.
Proof.
  unfold Applicants.persistApplicant, Applicants.generateId.
  destruct (Applicants.randomUUID h); cbn; destruct p; auto.
Qed.

(** X17: the applicant store only grows at its end. Persisting a list
    of payloads leaves every applicant already stored in place and adds,
    in call order, one applicant per payload that carries the six fields
    of its payload and the status pending; a single call returns the very
    applicant it adds. *)
Theorem persistAll_appends (h : Applicants.Host) (s : Applicants.State)
  (payloads : list Applicants.Payload) :
  (exists added,
     Applicants.applicants (Applicants.persistAll h s payloads)
     = Applicants.applicants s ++ added
     /\ List.map payloadOf added = payloads
     /\ Forall (fun a => Applicants.status a = Applicants.pending) added)
  /\ (forall p,
      Applicants.applicants (snd (Applicants.persistApplicant h s p))
      = Applicants.applicants s ++ [fst (Applicants.persistApplicant h s p)]).
Proof.
  split; [|intros p; apply persistApplicant_store].
  revert s. induction payloads as [|p r IH]; intros s.
  - exists []. rewrite app_nil_r. auto.
  - cbn [Applicants.persistAll].
    destruct (IH (snd (Applicants.persistApplicant h s p))) as (added & Ha & Hm & Hf).
    destruct (persistApplicant_store h s p) as (Hs & Hp & Hst).
    exists (fst (Applicants.persistApplicant h s p) :: added).
    rewrite Ha, Hs, <- app_assoc. cbn [app List.map]. rewrite Hp, Hm.
    repeat split. constructor; assumption.
Qed.

Lemma persistApplicant_times h s p :
  exists k,
    Applicants.estimatedCompletion (fst (Applicants.persistApplicant h s p))
    = Applicants.now h k + halfDay
    /\ Applicants.createdAt (fst (Applicants.persistApplicant h s p))
       = Applicants.now h (S k)
    /\ (Applicants.clockReads s <= k)%nat.
Proof.
  unfold Applicants.persistApplicant, Applicants.generateId, halfDay.
  destruct (Applicants.randomUUID h); cbn; eexists; repeat split; lia.
Qed.

(** X18: the completion estimate is 12 hours after a clock reading
    taken just before the reading that dates the creation. With a clock
    that never goes back, every applicant added by a call, and so every
    applicant of a store built by such calls, has an estimate at most 12
    hours after its creation date. *)
Theorem persistAll_estimate (h : Applicants.Host) (s : Applicants.State)
  (payloads : list Applicants.Payload) :
  monotone (Applicants.now h) ->
  Forall (fun a => Applicants.estimatedCompletion a <= Applicants.createdAt a + halfDay)
    (Applicants.applicants s) ->
  Forall (fun a => Applicants.estimatedCompletion a <= Applicants.createdAt a + halfDay)
    (Applicants.applicants (Applicants.persistAll h s payloads))
  /\ (forall p,
      Applicants.estimatedCompletion (fst (Applicants.persistApplicant h s p))
      <= Applicants.createdAt (fst (Applicants.persistApplicant h s p)) + halfDay).
Proof.
  intros Hmono. assert (Hone : forall s' p,
    Applicants.estimatedCompletion (fst (Applicants.persistApplicant h s' p))
    <= Applicants.createdAt (fst (Applicants.persistApplicant h s' p)) + halfDay).
  { intros s' p. destruct (persistApplicant_times h s' p) as (k & -> & -> & _).
    pose proof (Hmono k (S k) (Nat.le_succ_diag_r k)). lia. }
  intros Hs. split; [|apply Hone].
  revert s Hs. induction payloads as [|p r IH]; intros s Hs; [exact Hs|].
  cbn [Applicants.persistAll]. apply IH.
  destruct (persistApplicant_store h s p) as (-> & _).
  apply Forall_app. split; [exact Hs|]. constructor; [apply Hone | constructor].
Qed.

Lemma persistAll_estimate_witness :
  Forall (fun a => Applicants.estimatedCompletion a <= Applicants.createdAt a + halfDay)
    (Applicants.applicants
       (Applicants.persistAll sampleHost Applicants.initial
          [samplePayload "Ada"; samplePayload "Bayo"])).
Proof.
  apply (persistAll_estimate sampleHost Applicants.initial
           [samplePayload "Ada"; samplePayload "Bayo"]).
  - intros i j Hij. cbn. lia.
  - constructor.
Defined.

Lemma persistAll_ids h uuid s payloads :
  Applicants.randomUUID h = Some uuid ->
  List.map Applicants.id (Applicants.applicants (Applicants.persistAll h s payloads))
  = List.map Applicants.id (Applicants.applicants s)
    ++ List.map uuid (seq (Applicants.draws s) (List.length payloads))
  /\ Applicants.draws (Applicants.persistAll h s payloads)
     = (Applicants.draws s + List.length payloads)%nat.
Proof.
  intros Hu. revert s. induction payloads as [|p r IH]; intros s.
  - cbn. rewrite app_nil_r. split; [reflexivity | lia].
  - cbn [Applicants.persistAll List.length seq List.map].
    destruct (IH (snd (Applicants.persistApplicant h s p))) as [-> ->].
    unfold Applicants.persistApplicant, Applicants.generateId. rewrite Hu. cbn.
    rewrite List.map_app, <- app_assoc. cbn. split; [reflexivity | lia].
Qed.

Lemma persistAll_clock h uuid s payloads :
  Applicants.randomUUID h = Some uuid ->
  Applicants.clockReads (Applicants.persistAll h s payloads)
  = (Applicants.clockReads s + 2 * List.length payloads)%nat.
Proof.
  intros Hu. revert s.
  induction payloads as [|p r IH]; intros s; cbn [Applicants.persistAll List.length];
    [lia|].
  rewrite IH. unfold Applicants.persistApplicant, Applicants.generateId.
  rewrite Hu. cbn. lia.
Qed.

Lemma showNumber_inj a b : Js.showNumber a = Js.showNumber b -> a = b.
Proof.
  assert (Hnil : forall z, Z.to_int z <> Decimal.Pos Decimal.Nil
                           /\ Z.to_int z <> Decimal.Neg Decimal.Nil).
  { intros [|q|q]; cbn; split; try discriminate; intros [= H];
      exact (DecimalPos.Unsigned.to_uint_nonnil q H). }
  unfold Js.showNumber. intros H%(f_equal DecimalString.NilZero.int_of_string).
  rewrite !DecimalString.NilZero.isi in H by apply Hnil.
  injection H as H. now apply DecimalZ.to_int_inj.
Qed.

Lemma NoDup_map_injective {A B} (f : A -> B) (l : list A) :
  (forall x y, f x = f y -> x = y) -> NoDup l -> NoDup (List.map f l).
Proof.
  intros Hinj Hl. induction Hl as [|x l Hx Hl IH]; cbn; constructor; [|exact IH].
  rewrite list_elem_of_In. intros (y & Hy & Hin)%in_map_iff.
  apply Hinj in Hy as ->. apply Hx. now apply list_elem_of_In.
Qed.

(** X19: with [randomUUID] at hand the identifiers are its successive
    draws, with no clock reading spent on them; so when it never gives
    the same identifier twice, the applicants of a store filled from the
    empty one all have different identifiers. *)
Theorem persistAll_unique_ids (h : Applicants.Host) (uuid : nat -> string)
  (payloads : list Applicants.Payload) :
  Applicants.randomUUID h = Some uuid ->
  (forall i j, uuid i = uuid j -> i = j) ->
  List.map Applicants.id
    (Applicants.applicants (Applicants.persistAll h Applicants.initial payloads))
  = List.map uuid (seq 0 (List.length payloads))
  /\ NoDup (List.map Applicants.id
              (Applicants.applicants (Applicants.persistAll h Applicants.initial payloads)))
  /\ Applicants.clockReads (Applicants.persistAll h Applicants.initial payloads)
     = (2 * List.length payloads)%nat.
Proof.
  intros Hu Hinj.
  destruct (persistAll_ids h uuid Applicants.initial payloads Hu) as [Hids _].
  cbn in Hids. split; [exact Hids|]. split.
  - rewrite Hids. apply NoDup_map_injective; [exact Hinj | apply NoDup_seq].
  - rewrite (persistAll_clock h uuid _ _ Hu). reflexivity.
Qed.

Lemma persistAll_unique_ids_witness :
  List.map Applicants.id
    (Applicants.applicants
       (Applicants.persistAll sampleHost Applicants.initial
          [samplePayload "Ada"; samplePayload "Bayo"]))
  = ["uuid-0"; "uuid-1"].
Proof.
  apply (persistAll_unique_ids sampleHost
           (fun k => "uuid-" +:+ Js.showNumber (Z.of_nat k))
           [samplePayload "Ada"; samplePayload "Bayo"] eq_refl).
  intros i j H. apply String.app_inj in H. apply showNumber_inj in H. lia.
Defined.

(** * The HTTP error handler *)

(** X20: the handler always answers once, with status 504 or 500 and
    with the thrown value's own message as the cause, after one log entry.
    The status is 504 exactly when the name is AxiosError and either the
    code is ECONNABORTED or the message is a string that contains the
    lower-case word timeout; so an error of any other name is answered
    with 500 whatever its code and message say. *)
Theorem errorHandler_status (err : Http.Thrown) :
  fst (Http.errorHandler err) = [(err, "Unhandled error")]
  /\ Http.resp_cause (snd (Http.errorHandler err)) = Http.err_message err
  /\ (Http.resp_status (snd (Http.errorHandler err)) = 504
      /\ Http.resp_message (snd (Http.errorHandler err)) = "Upstream timeout"
      \/ Http.resp_status (snd (Http.errorHandler err)) = 500
         /\ Http.resp_message (snd (Http.errorHandler err)) = "Unexpected error")
  /\ (Http.resp_status (snd (Http.errorHandler err)) = 504 <->
      Http.err_name err = Http.VString "AxiosError"
      /\ (Http.err_code err = Http.VString "ECONNABORTED"
          \/ exists m, Http.err_message err = Http.VString m
                       /\ Js.includes m "timeout" = true))
  /\ (Http.err_name err <> Http.VString "AxiosError" ->
      Http.resp_status (snd (Http.errorHandler err)) = 500).
Proof.
  assert (Hstr : forall v t, Http.isString v t = true <-> v = Http.VString t).
  { intros [x| |x] t; cbn; split; try discriminate.
    - intros ->%String.eqb_eq. reflexivity.
    - intros [= ->]. apply String.eqb_refl. }
  assert (Hiff : Http.isAxiosTimeout err = true <->
    Http.err_name err = Http.VString "AxiosError"
    /\ (Http.err_code err = Http.VString "ECONNABORTED"
        \/ exists m, Http.err_message err = Http.VString m
                     /\ Js.includes m "timeout" = true)).
  { unfold Http.isAxiosTimeout. rewrite andb_true_iff, orb_true_iff, !Hstr.
    split; intros [Hn Hc]; (split; [exact Hn|]).
    - destruct Hc as [Hc | Hm]; [left; exact Hc | right].
      destruct (Http.err_message err) as [m| |]; try discriminate. eauto.
    - destruct Hc as [Hc | (m & -> & Hm)]; [left; exact Hc | right; exact Hm]. }
  unfold Http.errorHandler.
  destruct (Http.isAxiosTimeout err) eqn:Ht; cbn [fst snd Http.resp_cause Http.resp_status
    Http.resp_message].
  - split; [reflexivity|]. split; [reflexivity|]. split; [left; auto|]. split.
    + split; [intros _; now apply Hiff | reflexivity].
    + intros Hn. destruct (proj1 Hiff eq_refl) as [Hn' _]. contradiction.
  - split; [reflexivity|]. split; [reflexivity|]. split; [right; auto|]. split.
    + split; [discriminate | intros H; apply Hiff in H; discriminate].
    + reflexivity.
Qed.

(** * The transaction report *)

Lemma distinct_spec seen xs :
  NoDup (DebugTx.distinct seen xs)
  /\ forall x, In x (DebugTx.distinct seen xs) <-> In x xs /\ ~ In x seen.
Proof.
  revert seen. induction xs as [|y r IH]; intros seen; cbn [DebugTx.distinct].
  - split; [constructor | cbn; tauto].
  - destruct (existsb (String.eqb y) seen) eqn:E.
    + apply existsb_exists in E as (z & Hz & ->%String.eqb_eq).
      destruct (IH seen) as [Hn Hi]. split; [exact Hn|].
      intros x. rewrite Hi. cbn. split; [tauto|].
      intros [[-> | Hx] Hs]; [contradiction | tauto].
    + assert (~ In y seen) as Hy.
      { intros Hin. assert (existsb (String.eqb y) seen = true) as E'
          by (apply existsb_exists; exists y; split; [exact Hin | apply String.eqb_refl]).
        congruence. }
      destruct (IH (y :: seen)) as [Hn Hi]. split.
      * constructor; [|exact Hn]. rewrite list_elem_of_In, Hi. cbn. tauto.
      * intros x. cbn [In]. rewrite Hi. cbn [In]. split.
        -- intros [<- | [Hx Hs]]; [tauto|]. split; [tauto|]. tauto.
        -- intros [[<- | Hx] Hs]; [tauto|].
           destruct (String.eqb_spec y x) as [->|Hne]; [tauto|]. right. tauto.
Qed.

Lemma firstn_In_sub {A} n (l : list A) x : In x (firstn n l) -> In x l.
Proof.
  revert l. induction n as [|n IH]; intros [|y l]; cbn; try tauto.
  intros [-> | H]; auto.
Qed.

Lemma firstn_NoDup_sub {A} n (l : list A) : NoDup l -> NoDup (firstn n l).
Proof.
  revert l. induction n as [|n IH]; intros [|y l] H; cbn; try constructor.
  - inversion H as [|? ? Hy Hl]; subst. rewrite list_elem_of_In.
    intros Hin%firstn_In_sub. apply Hy. now apply list_elem_of_In.
  - inversion H; subst. auto.
Qed.

(** X21: when the three requests answer, the script prints a report.
    The addresses it lists are addresses of outputs of the transaction,
    each listed once, at most 25 of them; when the transaction has at most
    25 outputs every output address is listed. The count of outputs to the
    wallet never exceeds the count of outputs and is at least 1 whenever
    the wallet address is listed; the wallet is said to include the
    transaction exactly when one of its unspent outputs has its hash. *)
Theorem debugTx_output_addresses (tx walletAddr : string) (client : DebugTx.Client)
  (info : DebugTx.TxInfo) (utxos : DebugTx.TxUtxos) (wallet : list DebugTx.WalletUtxo) :
  tx <> EmptyString ->
  DebugTx.getTx client ("/txs/" +:+ tx) = Ok info ->
  DebugTx.getTxUtxos client ("/txs/" +:+ tx +:+ "/utxos") = Ok utxos ->
  DebugTx.getAddressUtxos client ("/addresses/" +:+ walletAddr +:+ "/utxos") = Ok wallet ->
  exists r,
    DebugTx.debugTx (Some tx) walletAddr client = DebugTx.Printed r
    /\ NoDup (DebugTx.rep_outputAddresses r)
    /\ (List.length (DebugTx.rep_outputAddresses r) <= 25)%nat
    /\ (forall a, In a (DebugTx.rep_outputAddresses r) ->
        exists o, In o (default [] (DebugTx.outputs utxos)) /\ DebugTx.address o = a)
    /\ DebugTx.rep_outputs r = List.length (default [] (DebugTx.outputs utxos))
    /\ ((DebugTx.rep_outputs r <= 25)%nat ->
        forall o, In o (default [] (DebugTx.outputs utxos)) ->
                  In (DebugTx.address o) (DebugTx.rep_outputAddresses r))
    /\ (DebugTx.rep_outputsToWallet r <= DebugTx.rep_outputs r)%nat
    /\ (In walletAddr (DebugTx.rep_outputAddresses r) ->
        (1 <= DebugTx.rep_outputsToWallet r)%nat)
    /\ (DebugTx.rep_includesThisTx r = true <->
        exists u, In u wallet /\ DebugTx.tx_hash u = tx).
Proof.
  intros Htx Hi Hu Hw. unfold DebugTx.debugTx.
  assert (truthy tx = true) as -> by (destruct tx; [contradiction | reflexivity]).
  cbn [negb]. rewrite Hi, Hu, Hw. eexists. split; [reflexivity|].
  cbn [DebugTx.rep_outputAddresses DebugTx.rep_outputs DebugTx.rep_outputsToWallet
       DebugTx.rep_includesThisTx].
  set (outs := default [] (DebugTx.outputs utxos)).
  destruct (distinct_spec [] (List.map DebugTx.address outs)) as [Hn Hin].
  assert (Hsub : forall a, In a (firstn 25 (DebugTx.distinct [] (List.map DebugTx.address outs)))
                           -> exists o, In o outs /\ DebugTx.address o = a).
  { intros a Ha%firstn_In_sub%Hin. destruct Ha as [(o & Ho & Hio)%in_map_iff _]. eauto. }
  split; [apply firstn_NoDup_sub, Hn|]. split; [apply firstn_le_length|].
  split; [exact Hsub|]. split; [reflexivity|]. split; [|split; [|split]].
  4: { rewrite existsb_exists. split; intros (u & Hin' & He); exists u;
       (split; [exact Hin'|]); [now apply String.eqb_eq | now apply String.eqb_eq]. }
  - intros Hle o Ho. rewrite firstn_all2.
    + apply Hin. split; [apply in_map, Ho | tauto].
    + assert (forall seen xs, (List.length (DebugTx.distinct seen xs) <= List.length xs)%nat)
        as Hlen.
      { intros seen xs. revert seen. induction xs as [|y q IHq]; intros seen; cbn; [lia|].
        destruct (existsb (String.eqb y) seen); cbn; [specialize (IHq seen)
                                                         | specialize (IHq (y :: seen))];
          lia. }
      specialize (Hlen [] (List.map DebugTx.address outs)).
      rewrite List.length_map in Hlen. lia.
  - clear. induction outs as [|o q IH]; cbn; [lia|].
    destruct (String.eqb (DebugTx.address o) walletAddr); cbn; lia.
  - intros (o & Ho & Ha)%Hsub.
    assert (In o (List.filter (fun o => String.eqb (DebugTx.address o) walletAddr) outs))
      as Hf by (apply filter_In; split; [exact Ho | now apply String.eqb_eq]).
    destruct (List.filter _ outs); [destruct Hf | cbn; lia].
Qed.

Lemma debugTx_output_addresses_witness :
  exists r,
    DebugTx.debugTx (Some "abcd") "addr_w" sampleClient = DebugTx.Printed r
    /\ DebugTx.rep_outputAddresses r = ["addr_a"; "addr_w"]
    /\ DebugTx.rep_outputsToWallet r = 1%nat
    /\ DebugTx.rep_includesThisTx r = true.
Proof.
  assert ("abcd" <> EmptyString) as Hne by discriminate.
  destruct (debugTx_output_addresses "abcd" "addr_w" sampleClient _ _ _ Hne
              eq_refl eq_refl eq_refl) as (r & Hr & _).
  exists r. split; [exact Hr|]. injection Hr as <-. repeat split.
Defined.
